(** * AWS idle resource cleaner: a shallow embedding and its properties

    The development follows the two entry points of the repository:

    - [aws_cleaner]: the class [AWSResourceCleaner] and the click command
      [main] of [aws_cleaner.py] (the interactive flavour);
    - [lambda_function]: the class [LambdaResourceCleaner] and
      [lambda_handler] of [lambda_function.py] (the event-driven flavour).

    The cloud provider, the clock and the operator at the terminal are
    outside the program.  They are bundled in a record [World] of oracles
    that answer from the history of everything the program has done so
    far, so that a response may depend on earlier calls.  The program
    itself is a state-passing computation over that history: every
    provider call, every confirmation prompt, every line printed to
    standard output and every reading of the clock is appended to it.

    Calls to [logger] are not part of the model: they return nothing,
    and the logging module does not raise into its caller.  Strings are
    strings of bytes. *)

From Stdlib Require Import ZArith List String Ascii DecimalString Bool Lia.
Import ListNotations.
Open Scope string_scope.
Open Scope Z_scope.

Set Warnings "-register-all".

(** ** Results of fallible calls *)

(** A Python call either returns or raises an exception; of an exception
    the program only ever uses [str(e)]. *)
Inductive result (A : Type) : Type :=
| Ok (a : A)
| Raise (msg : string).

Arguments Ok {A} a.
Arguments Raise {A} msg.

(** ** Python values and strings *)

Module Py.

(** The values a JSON event payload is made of.  JSON numbers are taken
    to be integers. *)
Inductive pyval : Type :=
| PNone
| PBool (b : bool)
| PInt (z : Z)
| PStr (s : string)
| PList (l : list pyval)
| PDict (d : list (string * pyval)).

(** [bool(v)]. *)
Definition truthy (v : pyval) : bool :=
  match v with
  | PNone => false
  | PBool b => b
  | PInt z => negb (z =? 0)
  | PStr s => negb (s =? EmptyString)%string
  | PList l => match l with [] => false | _ :: _ => true end
  | PDict d => match d with [] => false | _ :: _ => true end
  end.

(** [type(v).__name__]. *)
Definition type_name (v : pyval) : string :=
  match v with
  | PNone => "NoneType"
  | PBool _ => "bool"
  | PInt _ => "int"
  | PStr _ => "str"
  | PList _ => "list"
  | PDict _ => "dict"
  end.

(** [d.get(key, default)] on the items of a dict. *)
Fixpoint dict_get (key : string) (default : pyval)
         (d : list (string * pyval)) : pyval :=
  match d with
  | [] => default
  | (k, v) :: d' => if (k =? key)%string then v else dict_get key default d'
  end.

(** [v.get(key, default)]: only a dict has the method. *)
Definition get (v : pyval) (key : string) (default : pyval) : result pyval :=
  match v with
  | PDict d => Ok (dict_get key default d)
  | _ => Raise ("'" ++ type_name v ++ "' object has no attribute 'get'")
  end.

(** The one-character strings of [s], as [for c in s] yields them.  A
    string is a sequence of 8-bit characters: it stands for a Python
    [str] of ASCII text, where characters, bytes and code points are the
    same thing.  Of text outside ASCII Python yields one string per code
    point, which this model does not follow. *)
Fixpoint chars (s : string) : list string :=
  match s with
  | EmptyString => []
  | String c s' => String c EmptyString :: chars s'
  end.

(** The items [for x in v] yields. *)
Definition iter (v : pyval) : result (list pyval) :=
  match v with
  | PList l => Ok l
  | PStr s => Ok (map PStr (chars s))
  | PDict d => Ok (map (fun kv => PStr (fst kv)) d)
  | _ => Raise ("'" ++ type_name v ++ "' object is not iterable")
  end.

(** [len(v)]; the handler takes it only of a value it has iterated.  Of
    a string it is the number of its 8-bit characters, which is Python's
    [len] for ASCII text (see [chars]). *)
Definition len (v : pyval) : nat :=
  match v with
  | PList l => List.length l
  | PStr s => String.length s
  | PDict d => List.length d
  | _ => 0%nat
  end.

(** [a or b]. *)
Definition or_else (a b : pyval) : pyval := if truthy a then a else b.

(** [c.lower()] on one byte. *)
Definition lower_ascii (c : ascii) : ascii :=
  let n := nat_of_ascii c in
  if ((65 <=? n) && (n <=? 90))%nat then ascii_of_nat (n + 32) else c.

(** [s.lower()]. *)
Fixpoint lower (s : string) : string :=
  match s with
  | EmptyString => EmptyString
  | String c s' => String (lower_ascii c) (lower s')
  end.

(** [needle in hay] on strings. *)
Fixpoint contains (needle hay : string) : bool :=
  if String.prefix needle hay then true
  else match hay with
       | EmptyString => false
       | String _ hay' => contains needle hay'
       end.

(** [str(n)] of an int. *)
Definition str_of_Z (z : Z) : string := NilZero.string_of_int (Z.to_int z).
Definition str_of_nat (n : nat) : string := NilZero.string_of_uint (Nat.to_uint n).

(** An optional string inside an f-string: [None] prints as its name. *)
Definition fmt_opt (o : option string) : string :=
  match o with
  | Some s => s
  | None => "None"
  end.

(** ** [datetime] *)

(** A [datetime] is its wall-clock reading, in microseconds since
    0001-01-01T00:00:00, and the UTC offset of its time zone, when it
    has one.  A naive [datetime] is the reading alone. *)
Record datetime : Type := mk_datetime {
  wall : Z;
  tzinfo : option Z
}.

Definition naive_datetime : Type := Z.

(** [d.replace(tzinfo=None)]. *)
Definition replace_tzinfo_None (d : datetime) : naive_datetime := wall d.

Definition us_per_day : Z := 86400 * 1000000.

(** [datetime.max] is the last microsecond of 9999-12-31, the day of
    ordinal 3652059. *)
Definition datetime_end : Z := 3652059 * us_per_day.

Definition datetime_ok (t : naive_datetime) : bool :=
  (0 <=? t) && (t <? datetime_end).

(** [timedelta(days=d)], in microseconds. *)
Definition timedelta_days (d : Z) : result Z :=
  if Z.abs d <=? 999999999 then Ok (d * us_per_day)
  else Raise ("days=" ++ str_of_Z d ++ "; must have magnitude <= 999999999").

(** [t - delta] on a naive [datetime]. *)
Definition datetime_sub (t : naive_datetime) (delta : Z) : result naive_datetime :=
  if datetime_ok (t - delta) then Ok (t - delta)
  else Raise "date value out of range".

(** [timedelta(days=v)] on a value of an event payload: a [bool] is an
    [int]; the other types of [pyval] are refused.  Python's [timedelta]
    also takes a [float]; [pyval] has none (JSON numbers are taken to be
    integers), so a threshold such as 1.5 is outside the model. *)
Definition timedelta_days_of (v : pyval) : result Z :=
  match v with
  | PInt d => timedelta_days d
  | PBool b => timedelta_days (if b then 1 else 0)
  | _ => Raise ("unsupported type for timedelta days component: " ++ type_name v)
  end.

End Py.

(** ** The provider, the clock and the operator *)

Module Boto.
Import Py.

(** One entry of [describe_addresses()['Addresses']]; a key the
    response does not carry is [None]. *)
Record Address : Type := mk_Address {
  addr_InstanceId : option string;
  addr_NetworkInterfaceId : option string;
  addr_AllocationId : option string;
  addr_PublicIp : option string;
  addr_Domain : option string
}.

(** One entry of [describe_snapshots()['Snapshots']]. *)
Record Snapshot : Type := mk_Snapshot {
  snap_SnapshotId : string;
  snap_Description : option string;
  snap_StartTime : datetime;
  snap_VolumeSize : Z
}.

(** One entry of a reservation's ['Instances']; [inst_State] is
    [instance['State']['Name']], a tag is its ['Key'] and ['Value']. *)
Record Instance : Type := mk_Instance {
  inst_InstanceId : string;
  inst_InstanceType : string;
  inst_LaunchTime : datetime;
  inst_State : string;
  inst_StateTransitionReason : option string;
  inst_Tags : option (list (string * string))
}.

(** One entry of [describe_instances()['Reservations']]. *)
Record Reservation : Type := mk_Reservation {
  res_Instances : list Instance
}.

(** The calls made on an EC2 client, with their keyword arguments. *)
Inductive Call : Type :=
| describe_regions
| describe_addresses
| describe_snapshots (OwnerIds : list string)
| describe_instances (Filters : list (string * list string))
| release_address_AllocationId (AllocationId : option string)
| release_address_PublicIp (PublicIp : option string)
| delete_snapshot (SnapshotId : string)
| terminate_instances (InstanceIds : list string).

(** The calls that change the account. *)
Definition mutating (c : Call) : bool :=
  match c with
  | release_address_AllocationId _ | release_address_PublicIp _
  | delete_snapshot _ | terminate_instances _ => true
  | describe_regions | describe_addresses
  | describe_snapshots _ | describe_instances _ => false
  end.

(** What the program does that the outside can see.  The client of an
    [Api] event is named by the region it was created for. *)
Inductive Event : Type :=
| Api (region : pyval) (c : Call)
| Confirm (prompt : string) (answer : bool)
| Print (line : string)
| Now.

Definition History : Type := list Event.

(** Everything outside the program.  Each oracle answers from the
    history at the moment it is asked. *)
Record World : Type := mk_World {
  (** [boto3.Session().region_name] *)
  session_region : pyval;
  (** [boto3.client('ec2', region_name=r)]: the message it raises, if any *)
  client_error : pyval -> History -> option string;
  regions_response : pyval -> History -> result (list string);
  addresses_response : pyval -> History -> result (list Address);
  snapshots_response : pyval -> History -> result (list Snapshot);
  instances_response : pyval -> History -> result (list Reservation);
  (** a mutating call: the message it raises, if any *)
  mutation_error : pyval -> Call -> History -> option string;
  (** [datetime.now()] *)
  clock : History -> naive_datetime;
  (** [click.confirm(prompt)] *)
  operator : string -> History -> bool;
  (** [d.isoformat()] *)
  isoformat : datetime -> string
}.

(** The mutating calls of a history, oldest first. *)
Fixpoint mutations (h : History) : list (pyval * Call) :=
  match h with
  | [] => []
  | Api r c :: h' => if mutating c then (r, c) :: mutations h' else mutations h'
  | _ :: h' => mutations h'
  end.

(** The lines printed, oldest first. *)
Fixpoint printed (h : History) : list string :=
  match h with
  | [] => []
  | Print l :: h' => l :: printed h'
  | _ :: h' => printed h'
  end.

(** *** Computations over the history *)

Definition M (A : Type) : Type := History -> A * History.

Definition ret {A : Type} (a : A) : M A := fun h => (a, h).

Definition bind {A B : Type} (m : M A) (f : A -> M B) : M B :=
  fun h => let (a, h') := m h in f a h'.

Definition emit (e : Event) : M unit := fun h => (tt, (h ++ [e])%list).

(** Asks an oracle at the present history. *)
Definition ask {A : Type} (oracle : History -> A) : M A := fun h => (oracle h, h).

(** [for x in xs: acc = body x acc]. *)
Fixpoint for_each {X S : Type} (xs : list X) (body : X -> S -> M S) (acc : S) : M S :=
  match xs with
  | [] => ret acc
  | x :: xs' => bind (body x acc) (for_each xs' body)
  end.

Definition print (line : string) : M unit := emit (Print line).

Definition now (w : World) : M naive_datetime :=
  bind (ask (clock w)) (fun t => bind (emit Now) (fun _ => ret t)).

Definition confirm (w : World) (prompt : string) : M bool :=
  bind (ask (operator w prompt)) (fun a =>
  bind (emit (Confirm prompt a)) (fun _ => ret a)).

(** A describing call: the provider answers, the call is recorded. *)
Definition describe {A : Type} (region : pyval) (c : Call)
           (response : pyval -> History -> result A) : M (result A) :=
  bind (ask (response region)) (fun r =>
  bind (emit (Api region c)) (fun _ => ret r)).

(** A mutating call. *)
Definition mutate (w : World) (region : pyval) (c : Call) : M (option string) :=
  bind (ask (mutation_error w region c)) (fun r =>
  bind (emit (Api region c)) (fun _ => ret r)).

End Boto.

Declare Scope monad_scope.
Notation "x <- m ;; k" := (Boto.bind m (fun x => k))
  (at level 61, m at next level, right associativity) : monad_scope.
Notation "m ;;; k" := (Boto.bind m (fun _ => k))
  (at level 61, right associativity) : monad_scope.

(** ** [aws_cleaner.py]: the interactive flavour *)

Module aws_cleaner.
Import Py Boto.
Local Open Scope monad_scope.

(** The colour codes of [colorama]. *)
Module Fore.
Definition ESC : string := String (ascii_of_nat 27) EmptyString.
Definition RED : string := ESC ++ "[31m".
Definition GREEN : string := ESC ++ "[32m".
Definition YELLOW : string := ESC ++ "[33m".
Definition BLUE : string := ESC ++ "[34m".
Definition MAGENTA : string := ESC ++ "[35m".
Definition CYAN : string := ESC ++ "[36m".
End Fore.

Module Style.
Definition RESET_ALL : string := Fore.ESC ++ "[0m".
End Style.

(** The dicts the finders build. *)
Record ElasticIp : Type := mk_ElasticIp {
  AllocationId : option string;
  PublicIp : option string;
  Domain : string
}.

Record OldSnapshot : Type := mk_OldSnapshot {
  SnapshotId : string;
  Description : string;
  StartTime : datetime;
  VolumeSize : Z
}.

Record StoppedInstance : Type := mk_StoppedInstance {
  InstanceId : string;
  InstanceType : string;
  LaunchTime : datetime;
  State : string;
  Name : string
}.

(** *** The class [AWSResourceCleaner] *)

Module AWSResourceCleaner.

(** An [AWSResourceCleaner]; its [ec2_client] is the client of its
    region. *)
Record t : Type := mk_cleaner {
  region : string;
  dry_run : bool
}.

(** [AWSResourceCleaner(region, dry_run)]: creating the client may
    raise. *)
Definition init (w : World) (region : string) (dry_run : bool)
  : M (result t) :=
  e <- ask (client_error w (PStr region));;
  match e with
  | Some msg => ret (Raise msg)
  | None => ret (Ok (mk_cleaner region dry_run))
  end.

Definition ec2_client (self : t) : pyval := PStr (region self).

Definition get_all_regions (w : World) (self : t) : M (list string) :=
  regions <- describe (ec2_client self) describe_regions (regions_response w);;
  match regions with
  | Ok names => ret names
  | Raise e => ret [region self]
  end.

Definition find_unused_elastic_ips (w : World) (self : t)
  : M (list ElasticIp) :=
  response <- describe (ec2_client self) describe_addresses (addresses_response w);;
  match response with
  | Ok addresses =>
      ret (fold_left
             (fun unused_eips eip =>
                match addr_InstanceId eip, addr_NetworkInterfaceId eip with
                | None, None =>
                    (unused_eips ++
                     [mk_ElasticIp (addr_AllocationId eip) (addr_PublicIp eip)
                                   (match addr_Domain eip with
                                    | Some d => d
                                    | None => "classic"
                                    end)])%list
                | _, _ => unused_eips
                end)
             addresses [])
  | Raise e => ret []
  end.

Definition find_old_snapshots (w : World) (self : t) (days : Z)
  : M (list OldSnapshot) :=
  t <- now w;;
  match timedelta_days days with
  | Raise e => ret []
  | Ok delta =>
  match datetime_sub t delta with
  | Raise e => ret []
  | Ok cutoff_date =>
      response <- describe (ec2_client self) (describe_snapshots ["self"])
                           (snapshots_response w);;
      match response with
      | Ok snapshots =>
          ret (fold_left
                 (fun old_snapshots snapshot =>
                    let start_time := replace_tzinfo_None (snap_StartTime snapshot) in
                    if start_time <? cutoff_date then
                      (old_snapshots ++
                       [mk_OldSnapshot (snap_SnapshotId snapshot)
                                       (match snap_Description snapshot with
                                        | Some d => d
                                        | None => "No description"
                                        end)
                                       (snap_StartTime snapshot)
                                       (snap_VolumeSize snapshot)])%list
                    else old_snapshots)
                 snapshots [])
      | Raise e => ret []
      end
  end
  end.

Fixpoint first_Name_tag (tags : list (string * string)) : string :=
  match tags with
  | [] => "No Name"
  | (key, value) :: tags' =>
      if (key =? "Name")%string then value else first_Name_tag tags'
  end.

Definition _get_instance_name (instance : Instance) : string :=
  first_Name_tag (match inst_Tags instance with
                  | Some tags => tags
                  | None => []
                  end).

(** [StateTransitionReason] is a string, so the innermost loop runs
    over its characters.  [state_reason] is assigned and never read. *)
Definition find_stopped_instances (w : World) (self : t) (days : Z)
  : M (list StoppedInstance) :=
  t <- now w;;
  match timedelta_days days with
  | Raise e => ret []
  | Ok delta =>
  match datetime_sub t delta with
  | Raise e => ret []
  | Ok cutoff_date =>
      response <- describe (ec2_client self)
                           (describe_instances [("instance-state-name", ["stopped"])])
                           (instances_response w);;
      match response with
      | Ok reservations =>
          ret (fold_left
                 (fun acc reservation =>
                    fold_left
                      (fun acc instance =>
                         fold_left
                           (fun old_stopped_instances transition =>
                              if contains "stopped" (lower transition) then
                                let launch_time :=
                                  replace_tzinfo_None (inst_LaunchTime instance) in
                                if launch_time <? cutoff_date then
                                  (old_stopped_instances ++
                                   [mk_StoppedInstance
                                      (inst_InstanceId instance)
                                      (inst_InstanceType instance)
                                      (inst_LaunchTime instance)
                                      (inst_State instance)
                                      (_get_instance_name instance)])%list
                                else old_stopped_instances
                              else old_stopped_instances)
                           (chars (match inst_StateTransitionReason instance with
                                   | Some reason => reason
                                   | None => EmptyString
                                   end))
                           acc)
                      (res_Instances reservation) acc)
                 reservations [])
      | Raise e => ret []
      end
  end
  end.

Definition clean_elastic_ips (w : World) (self : t)
           (eips : list ElasticIp) : M nat :=
  for_each eips
    (fun eip cleaned_count =>
       if dry_run self then
         print (Fore.YELLOW ++ "[DRY RUN] Would release EIP: "
                ++ fmt_opt (PublicIp eip) ++ Style.RESET_ALL);;;
         ret (cleaned_count + 1)%nat
       else
         raised <- (if (Domain eip =? "vpc")%string then
                      mutate w (ec2_client self)
                             (release_address_AllocationId (AllocationId eip))
                    else
                      mutate w (ec2_client self)
                             (release_address_PublicIp (PublicIp eip)));;
         match raised with
         | None =>
             print (Fore.GREEN ++ "Released EIP: "
                    ++ fmt_opt (PublicIp eip) ++ Style.RESET_ALL);;;
             ret (cleaned_count + 1)%nat
         | Some e =>
             print (Fore.RED ++ "Error releasing EIP " ++ fmt_opt (PublicIp eip)
                    ++ ": " ++ e ++ Style.RESET_ALL);;;
             ret cleaned_count
         end)
    0%nat.

Definition clean_snapshots (w : World) (self : t)
           (snapshots : list OldSnapshot) : M nat :=
  for_each snapshots
    (fun snapshot cleaned_count =>
       if dry_run self then
         print (Fore.YELLOW ++ "[DRY RUN] Would delete snapshot: "
                ++ SnapshotId snapshot ++ " ("
                ++ str_of_Z (VolumeSize snapshot) ++ "GB)" ++ Style.RESET_ALL);;;
         ret (cleaned_count + 1)%nat
       else
         raised <- mutate w (ec2_client self) (delete_snapshot (SnapshotId snapshot));;
         match raised with
         | None =>
             print (Fore.GREEN ++ "Deleted snapshot: "
                    ++ SnapshotId snapshot ++ " ("
                    ++ str_of_Z (VolumeSize snapshot) ++ "GB)" ++ Style.RESET_ALL);;;
             ret (cleaned_count + 1)%nat
         | Some e =>
             print (Fore.RED ++ "Error deleting snapshot " ++ SnapshotId snapshot
                    ++ ": " ++ e ++ Style.RESET_ALL);;;
             ret cleaned_count
         end)
    0%nat.

Definition clean_stopped_instances (w : World) (self : t)
           (instances : list StoppedInstance) : M nat :=
  for_each instances
    (fun instance cleaned_count =>
       if dry_run self then
         print (Fore.YELLOW ++ "[DRY RUN] Would terminate instance: "
                ++ InstanceId instance ++ " (" ++ Name instance ++ ")"
                ++ Style.RESET_ALL);;;
         ret cleaned_count
       else
         yes <- confirm w ("Are you sure you want to terminate "
                           ++ InstanceId instance ++ " (" ++ Name instance ++ ")?");;
         if yes then
           raised <- mutate w (ec2_client self)
                            (terminate_instances [InstanceId instance]);;
           match raised with
           | None =>
               print (Fore.GREEN ++ "Terminated instance: "
                      ++ InstanceId instance ++ " (" ++ Name instance ++ ")"
                      ++ Style.RESET_ALL);;;
               ret (cleaned_count + 1)%nat
           | Some e =>
               print (Fore.RED ++ "Error terminating instance "
                      ++ InstanceId instance ++ ": " ++ e ++ Style.RESET_ALL);;;
               ret cleaned_count
           end
         else
           print (Fore.BLUE ++ "Skipped instance: " ++ InstanceId instance
                  ++ Style.RESET_ALL);;;
           ret cleaned_count)
    0%nat.


End AWSResourceCleaner.

(** *** The command [main] *)

(** [total_cleaned]. *)
Record Totals : Type := mk_Totals {
  eips : nat;
  snapshots : nat;
  instances : nat
}.

Definition NL : string := String (ascii_of_nat 10) EmptyString.

(** [s * n]. *)
Fixpoint str_times (s : string) (n : nat) : string :=
  match n with
  | O => EmptyString
  | S n' => s ++ str_times s n'
  end.

(** The body of the loop over the regions is one block per resource
    kind.  Each block is given the rest of the body as [rest]; a
    [continue] leaves the body without running it. *)

(** [# Clean Elastic IPs] *)
Definition main_clean_eips (w : World) (cleaner : AWSResourceCleaner.t)
           (dry_run clean_eips force : bool)
           (total_cleaned : Totals) (rest : Totals -> M Totals) : M Totals :=
  if clean_eips then
    print (NL ++ Fore.MAGENTA ++ "Finding unused Elastic IPs..." ++ Style.RESET_ALL);;;
    unused_eips <- AWSResourceCleaner.find_unused_elastic_ips w cleaner;;
    match unused_eips with
    | _ :: _ =>
        print ("Found " ++ str_of_nat (List.length unused_eips)
               ++ " unused Elastic IPs");;;
        proceed <- (if negb dry_run && negb force
                    then confirm w "Proceed with EIP cleanup?"
                    else ret true);;
        if proceed then
          cleaned <- AWSResourceCleaner.clean_elastic_ips w cleaner unused_eips;;
          rest (mk_Totals (eips total_cleaned + cleaned)
                          (snapshots total_cleaned) (instances total_cleaned))
        else
          (* continue *)
          ret total_cleaned
    | [] =>
        print "No unused Elastic IPs found";;;
        rest total_cleaned
    end
  else rest total_cleaned.

(** [# Clean old snapshots] *)
Definition main_clean_snapshots (w : World) (cleaner : AWSResourceCleaner.t)
           (dry_run clean_snapshots : bool) (days : Z) (force : bool)
           (total_cleaned : Totals) (rest : Totals -> M Totals) : M Totals :=
  if clean_snapshots then
    print (NL ++ Fore.MAGENTA ++ "Finding old snapshots (>" ++ str_of_Z days
           ++ " days)..." ++ Style.RESET_ALL);;;
    old_snapshots <- AWSResourceCleaner.find_old_snapshots w cleaner days;;
    match old_snapshots with
    | _ :: _ =>
        print ("Found " ++ str_of_nat (List.length old_snapshots)
               ++ " old snapshots");;;
        proceed <- (if negb dry_run && negb force
                    then confirm w "Proceed with snapshot cleanup?"
                    else ret true);;
        if proceed then
          cleaned <- AWSResourceCleaner.clean_snapshots w cleaner old_snapshots;;
          rest (mk_Totals (eips total_cleaned)
                          (snapshots total_cleaned + cleaned) (instances total_cleaned))
        else
          (* continue *)
          ret total_cleaned
    | [] =>
        print "No old snapshots found";;;
        rest total_cleaned
    end
  else rest total_cleaned.

(** [# Clean stopped instances] *)
Definition main_clean_instances (w : World) (cleaner : AWSResourceCleaner.t)
           (dry_run clean_instances : bool) (days : Z) (force : bool)
           (total_cleaned : Totals) (rest : Totals -> M Totals) : M Totals :=
  if clean_instances then
    print (NL ++ Fore.MAGENTA ++ "Finding stopped instances (>" ++ str_of_Z days
           ++ " days)..." ++ Style.RESET_ALL);;;
    stopped_instances <- AWSResourceCleaner.find_stopped_instances w cleaner days;;
    match stopped_instances with
    | _ :: _ =>
        print ("Found " ++ str_of_nat (List.length stopped_instances)
               ++ " long-stopped instances");;;
        proceed <- (if negb dry_run && negb force
                    then confirm w "Proceed with instance cleanup?"
                    else ret true);;
        if proceed then
          cleaned <- AWSResourceCleaner.clean_stopped_instances w cleaner stopped_instances;;
          rest (mk_Totals (eips total_cleaned) (snapshots total_cleaned)
                          (instances total_cleaned + cleaned))
        else
          (* continue *)
          ret total_cleaned
    | [] =>
        print "No long-stopped instances found";;;
        rest total_cleaned
    end
  else rest total_cleaned.

(** One pass of [for current_region in regions_to_scan]; creating the
    cleaner may raise, and nothing in [main] catches it. *)
Definition main_region (w : World)
           (dry_run clean_eips clean_snapshots clean_instances : bool)
           (days : Z) (force : bool)
           (current_region : string) (total_cleaned : Totals)
  : M (result Totals) :=
  print (NL ++ Fore.BLUE ++ "Region: " ++ current_region ++ Style.RESET_ALL);;;
  made <- AWSResourceCleaner.init w current_region dry_run;;
  match made with
  | Raise e => ret (Raise e)
  | Ok cleaner =>
      total <- main_clean_eips w cleaner dry_run clean_eips force total_cleaned
                 (fun total_cleaned =>
               main_clean_snapshots w cleaner dry_run clean_snapshots days force
                 total_cleaned
                 (fun total_cleaned =>
               main_clean_instances w cleaner dry_run clean_instances days force
                 total_cleaned ret));;
      ret (Ok total)
  end.

Fixpoint main_regions (w : World)
         (dry_run clean_eips clean_snapshots clean_instances : bool)
         (days : Z) (force : bool)
         (regions_to_scan : list string) (total_cleaned : Totals)
  : M (result Totals) :=
  match regions_to_scan with
  | [] => ret (Ok total_cleaned)
  | current_region :: later =>
      passed <- main_region w dry_run clean_eips clean_snapshots clean_instances
                  days force current_region total_cleaned;;
      match passed with
      | Raise e => ret (Raise e)
      | Ok total_cleaned =>
          main_regions w dry_run clean_eips clean_snapshots clean_instances
                       days force later total_cleaned
      end
  end.

(** [# Summary] *)
Definition main_summary (dry_run : bool) (total_cleaned : Totals) : M unit :=
  print (NL ++ Fore.GREEN ++ "Cleanup Summary:" ++ Style.RESET_ALL);;;
  print ("Elastic IPs: " ++ str_of_nat (eips total_cleaned));;;
  print ("Snapshots: " ++ str_of_nat (snapshots total_cleaned));;;
  print ("Instances: " ++ str_of_nat (instances total_cleaned));;;
  if dry_run then
    print (NL ++ Fore.YELLOW
           ++ "This was a dry run. Use --no-dry-run to apply changes."
           ++ Style.RESET_ALL)
  else ret tt.

(** [main]; [Raise] is an exception that leaves it. *)
Definition main (w : World) (region : string)
           (all_regions dry_run clean_eips clean_snapshots clean_instances : bool)
           (days : Z) (force : bool) : M (result unit) :=
  print (Fore.CYAN ++ "AWS Idle Resource Cleaner" ++ Style.RESET_ALL);;;
  print ("Mode: " ++ (if dry_run then "DRY RUN" else "LIVE CLEANUP"));;;
  print (str_times "-" 50);;;
  listed <- (if all_regions then
               made <- AWSResourceCleaner.init w region dry_run;;
               match made with
               | Raise e => ret (Raise e)
               | Ok cleaner =>
                   regions_to_scan <- AWSResourceCleaner.get_all_regions w cleaner;;
                   print ("Scanning " ++ str_of_nat (List.length regions_to_scan)
                          ++ " regions...");;;
                   ret (Ok regions_to_scan)
               end
             else
               print ("Scanning region: " ++ region);;;
               ret (Ok [region]));;
  match listed with
  | Raise e => ret (Raise e)
  | Ok regions_to_scan =>
      scanned <- main_regions w dry_run clean_eips clean_snapshots clean_instances
                   days force regions_to_scan (mk_Totals 0 0 0);;
      match scanned with
      | Raise e => ret (Raise e)
      | Ok total_cleaned =>
          main_summary dry_run total_cleaned;;;
          ret (Ok tt)
      end
  end.

End aws_cleaner.

(** ** [lambda_function.py]: the event-driven flavour *)

Module lambda_function.
Import Py Boto.
Local Open Scope monad_scope.

(** The dicts the finders build; the timestamps are ISO strings here. *)
Record ElasticIp : Type := mk_ElasticIp {
  AllocationId : option string;
  PublicIp : option string;
  Domain : string
}.

Record OldSnapshot : Type := mk_OldSnapshot {
  SnapshotId : string;
  Description : string;
  StartTime : string;
  VolumeSize : Z
}.

Record StoppedInstance : Type := mk_StoppedInstance {
  InstanceId : string;
  InstanceType : string;
  LaunchTime : string;
  State : string;
  Name : string
}.

(** [results['cleaned']] and [total_cleaned]. *)
Record Cleaned : Type := mk_Cleaned {
  eips : nat;
  snapshots : nat;
  instances : nat
}.

(** The dict [cleanup_resources] returns. *)
Record Results : Type := mk_Results {
  region : pyval;
  timestamp : string;
  cleaned : Cleaned;
  errors : list string
}.

(** [results['cleaned'][kind] += 1] and [results['errors'].append(msg)]. *)
Definition count_eip (results : Results) : Results :=
  mk_Results (region results) (timestamp results)
             (mk_Cleaned (eips (cleaned results) + 1)
                         (snapshots (cleaned results))
                         (instances (cleaned results)))
             (errors results).

Definition count_snapshot (results : Results) : Results :=
  mk_Results (region results) (timestamp results)
             (mk_Cleaned (eips (cleaned results))
                         (snapshots (cleaned results) + 1)
                         (instances (cleaned results)))
             (errors results).

Definition count_instance (results : Results) : Results :=
  mk_Results (region results) (timestamp results)
             (mk_Cleaned (eips (cleaned results))
                         (snapshots (cleaned results))
                         (instances (cleaned results) + 1))
             (errors results).

Definition append_error (results : Results) (error_msg : string) : Results :=
  mk_Results (region results) (timestamp results) (cleaned results)
             (errors results ++ [error_msg])%list.

(** *** The class [LambdaResourceCleaner] *)

Module LambdaResourceCleaner.

(** A [LambdaResourceCleaner]; its [ec2_client] is the client of its
    region. *)
Record t : Type := mk_cleaner {
  self_region : pyval
}.

(** [LambdaResourceCleaner(region)]: creating the client may raise. *)
Definition init (w : World) (region : pyval) : M (result t) :=
  let self_region := or_else region (session_region w) in
  e <- ask (client_error w self_region);;
  match e with
  | Some msg => ret (Raise msg)
  | None => ret (Ok (mk_cleaner self_region))
  end.

Definition ec2_client (self : t) : pyval := self_region self.

Definition find_unused_elastic_ips (w : World) (self : t) : M (list ElasticIp) :=
  response <- describe (ec2_client self) describe_addresses (addresses_response w);;
  match response with
  | Ok addresses =>
      ret (fold_left
             (fun unused_eips eip =>
                match addr_InstanceId eip, addr_NetworkInterfaceId eip with
                | None, None =>
                    (unused_eips ++
                     [mk_ElasticIp (addr_AllocationId eip) (addr_PublicIp eip)
                                   (match addr_Domain eip with
                                    | Some d => d
                                    | None => "classic"
                                    end)])%list
                | _, _ => unused_eips
                end)
             addresses [])
  | Raise e => ret []
  end.

Definition find_old_snapshots (w : World) (self : t) (days : pyval)
  : M (list OldSnapshot) :=
  t <- now w;;
  match timedelta_days_of days with
  | Raise e => ret []
  | Ok delta =>
  match datetime_sub t delta with
  | Raise e => ret []
  | Ok cutoff_date =>
      response <- describe (ec2_client self) (describe_snapshots ["self"])
                           (snapshots_response w);;
      match response with
      | Ok snapshots =>
          ret (fold_left
                 (fun old_snapshots snapshot =>
                    let start_time := replace_tzinfo_None (snap_StartTime snapshot) in
                    if start_time <? cutoff_date then
                      (old_snapshots ++
                       [mk_OldSnapshot (snap_SnapshotId snapshot)
                                       (match snap_Description snapshot with
                                        | Some d => d
                                        | None => "No description"
                                        end)
                                       (isoformat w (snap_StartTime snapshot))
                                       (snap_VolumeSize snapshot)])%list
                    else old_snapshots)
                 snapshots [])
      | Raise e => ret []
      end
  end
  end.

Fixpoint first_Name_tag (tags : list (string * string)) : string :=
  match tags with
  | [] => "No Name"
  | (key, value) :: tags' =>
      if (key =? "Name")%string then value else first_Name_tag tags'
  end.

Definition _get_instance_name (instance : Instance) : string :=
  first_Name_tag (match inst_Tags instance with
                  | Some tags => tags
                  | None => []
                  end).

Definition find_stopped_instances (w : World) (self : t) (days : pyval)
  : M (list StoppedInstance) :=
  t <- now w;;
  match timedelta_days_of days with
  | Raise e => ret []
  | Ok delta =>
  match datetime_sub t delta with
  | Raise e => ret []
  | Ok cutoff_date =>
      response <- describe (ec2_client self)
                           (describe_instances [("instance-state-name", ["stopped"])])
                           (instances_response w);;
      match response with
      | Ok reservations =>
          ret (fold_left
                 (fun acc reservation =>
                    fold_left
                      (fun old_stopped_instances instance =>
                         let launch_time :=
                           replace_tzinfo_None (inst_LaunchTime instance) in
                         if launch_time <? cutoff_date then
                           (old_stopped_instances ++
                            [mk_StoppedInstance
                               (inst_InstanceId instance)
                               (inst_InstanceType instance)
                               (isoformat w (inst_LaunchTime instance))
                               (inst_State instance)
                               (_get_instance_name instance)])%list
                         else old_stopped_instances)
                      (res_Instances reservation) acc)
                 reservations [])
      | Raise e => ret []
      end
  end
  end.

(** [cleanup_resources] is one block per resource kind, each working on
    [results].  The finders catch what they raise, so the handler
    [except] around a whole block is never entered. *)

(** [# Clean Elastic IPs] *)
Definition cleanup_eips (w : World) (self : t) (config : list (string * pyval))
           (dry_run : pyval) (results : Results) : M Results :=
  if truthy (dict_get "clean_eips" (PBool false) config) then
    unused_eips <- find_unused_elastic_ips w self;;
    for_each unused_eips
      (fun eip results =>
         if negb (truthy dry_run) then
           raised <- (if (Domain eip =? "vpc")%string then
                        mutate w (ec2_client self)
                               (release_address_AllocationId (AllocationId eip))
                      else
                        mutate w (ec2_client self)
                               (release_address_PublicIp (PublicIp eip)));;
           match raised with
           | Some e =>
               let error_msg :=
                 "Error releasing EIP " ++ fmt_opt (PublicIp eip) ++ ": " ++ e in
               (* continue *)
               ret (append_error results error_msg)
           | None => ret (count_eip results)
           end
         else ret (count_eip results))
      results
  else ret results.

(** [# Clean old snapshots] *)
Definition cleanup_snapshots (w : World) (self : t) (config : list (string * pyval))
           (dry_run : pyval) (results : Results) : M Results :=
  if truthy (dict_get "clean_snapshots" (PBool false) config) then
    let days := dict_get "snapshot_days" (PInt 30) config in
    old_snapshots <- find_old_snapshots w self days;;
    for_each old_snapshots
      (fun snapshot results =>
         if negb (truthy dry_run) then
           raised <- mutate w (ec2_client self) (delete_snapshot (SnapshotId snapshot));;
           match raised with
           | Some e =>
               let error_msg :=
                 "Error deleting snapshot " ++ SnapshotId snapshot ++ ": " ++ e in
               (* continue *)
               ret (append_error results error_msg)
           | None => ret (count_snapshot results)
           end
         else ret (count_snapshot results))
      results
  else ret results.

(** [# Clean stopped instances] *)
Definition cleanup_instances (w : World) (self : t) (config : list (string * pyval))
           (dry_run : pyval) (results : Results) : M Results :=
  if truthy (dict_get "clean_instances" (PBool false) config) then
    let days := dict_get "instance_days" (PInt 7) config in
    stopped_instances <- find_stopped_instances w self days;;
    for_each stopped_instances
      (fun instance results =>
         if negb (truthy dry_run) then
           raised <- mutate w (ec2_client self)
                            (terminate_instances [InstanceId instance]);;
           match raised with
           | Some e =>
               let error_msg :=
                 "Error terminating instance " ++ InstanceId instance ++ ": " ++ e in
               (* continue *)
               ret (append_error results error_msg)
           | None => ret (count_instance results)
           end
         else ret (count_instance results))
      results
  else ret results.

Definition cleanup_resources (w : World) (self : t) (config : list (string * pyval))
  : M Results :=
  t <- now w;;
  let results :=
    mk_Results (self_region self) (isoformat w (mk_datetime t None))
               (mk_Cleaned 0 0 0) [] in
  let dry_run := dict_get "dry_run" (PBool true) config in
  results <- cleanup_eips w self config dry_run results;;
  results <- cleanup_snapshots w self config dry_run results;;
  results <- cleanup_instances w self config dry_run results;;
  ret results.

End LambdaResourceCleaner.

(** *** The entry point [lambda_handler] *)

(** The ['body'] of a response. *)
Inductive Body : Type :=
| Completed (message : string) (total_cleaned : Cleaned) (regions_processed : nat)
            (dry_run : pyval) (detailed_results : list Results)
            (errors : list string)
| Failed (error : string) (message : string).

Record Response : Type := mk_Response {
  statusCode : Z;
  body : Body
}.

(** [# Parse configuration from event]: the first [event.get] raises
    when the event is not a dict. *)
Definition parse_config (event : pyval) : result (list (string * pyval)) :=
  match get event "dry_run" (PBool true) with
  | Raise e => Raise e
  | Ok dry_run =>
  match get event "clean_eips" (PBool false) with
  | Raise e => Raise e
  | Ok clean_eips =>
  match get event "clean_snapshots" (PBool false) with
  | Raise e => Raise e
  | Ok clean_snapshots =>
  match get event "clean_instances" (PBool false) with
  | Raise e => Raise e
  | Ok clean_instances =>
  match get event "snapshot_days" (PInt 30) with
  | Raise e => Raise e
  | Ok snapshot_days =>
  match get event "instance_days" (PInt 7) with
  | Raise e => Raise e
  | Ok instance_days =>
      Ok [("dry_run", dry_run);
          ("clean_eips", clean_eips);
          ("clean_snapshots", clean_snapshots);
          ("clean_instances", clean_instances);
          ("snapshot_days", snapshot_days);
          ("instance_days", instance_days)]
  end end end end end end.

(** [# Process each region]; creating a cleaner may raise. *)
Fixpoint process_regions (w : World) (config : list (string * pyval))
         (regions : list pyval) (all_results : list Results)
  : M (result (list Results)) :=
  match regions with
  | [] => ret (Ok all_results)
  | region :: later =>
      made <- LambdaResourceCleaner.init w region;;
      match made with
      | Raise e => ret (Raise e)
      | Ok cleaner =>
          result <- LambdaResourceCleaner.cleanup_resources w cleaner config;;
          process_regions w config later (all_results ++ [result])%list
      end
  end.

(** [# Aggregate results] *)
Definition aggregate (all_results : list Results) : Cleaned * list string :=
  fold_left
    (fun (acc : Cleaned * list string) result =>
       let (total_cleaned, all_errors) := acc in
       (mk_Cleaned (eips total_cleaned + eips (cleaned result))
                   (snapshots total_cleaned + snapshots (cleaned result))
                   (instances total_cleaned + instances (cleaned result)),
        (all_errors ++ errors result)%list))
    all_results (mk_Cleaned 0 0 0, []).

Definition failure (e : string) : Response :=
  mk_Response 500 (Failed e "Cleanup failed").

(** [lambda_handler(event, context)]; it makes no use of [context]. *)
Definition lambda_handler (w : World) (event : pyval) : M Response :=
  match parse_config event with
  | Raise e => ret (failure e)
  | Ok config =>
  match get event "regions" (PList [session_region w]) with
  | Raise e => ret (failure e)
  | Ok regions =>
  match iter regions with
  | Raise e => ret (failure e)
  | Ok items =>
      processed <- process_regions w config items [];;
      match processed with
      | Raise e => ret (failure e)
      | Ok all_results =>
          let (total_cleaned, all_errors) := aggregate all_results in
          ret (mk_Response 200
                 (Completed "Cleanup completed successfully"
                            total_cleaned
                            (len regions)
                            (dict_get "dry_run" PNone config)
                            all_results
                            all_errors))
      end
  end end end.

End lambda_function.

(** ** [test_cleaner.py]: the check of the set-up *)

Module test_cleaner.
Import Py Boto.
Local Open Scope monad_scope.

(** [test_cli_cleaner()]: whatever the [try] raises is printed and makes
    the test fail.  The cleaner is made for the default region. *)
Definition test_cli_cleaner (w : World) : M bool :=
  print (aws_cleaner.NL ++ "Testing CLI cleaner...");;;
  made <- aws_cleaner.AWSResourceCleaner.init w "us-east-1" true;;
  match made with
  | Raise e =>
      print ("CLI cleaner test failed: " ++ e);;;
      ret false
  | Ok cleaner =>
      eips <- aws_cleaner.AWSResourceCleaner.find_unused_elastic_ips w cleaner;;
      snapshots <- aws_cleaner.AWSResourceCleaner.find_old_snapshots w cleaner 30;;
      instances <- aws_cleaner.AWSResourceCleaner.find_stopped_instances w cleaner 7;;
      print ("Found " ++ str_of_nat (List.length eips) ++ " unused EIPs");;;
      print ("Found " ++ str_of_nat (List.length snapshots) ++ " old snapshots");;;
      print ("Found " ++ str_of_nat (List.length instances) ++ " stopped instances");;;
      ret true
  end.

End test_cleaner.

(** * Properties *)

Import Py Boto.
Local Open Scope list_scope.

(** ** Vocabulary of the statements *)

(** A computation that adds no mutating call to any history. *)
Definition silent {A : Type} (m : M A) : Prop :=
  forall h : History, mutations (snd (m h)) = mutations h.

(** An address the provider reports with neither attachment. *)
Definition unattached (a : Address) : bool :=
  match addr_InstanceId a, addr_NetworkInterfaceId a with
  | None, None => true
  | _, _ => false
  end.

(** The instances of a response, reservation after reservation. *)
Definition instances_of (reservations : list Reservation) : list Instance :=
  flat_map res_Instances reservations.

(** The dict each finder builds from one entry of a response. *)
Definition cli_eip_of (a : Address) : aws_cleaner.ElasticIp :=
  aws_cleaner.mk_ElasticIp (addr_AllocationId a) (addr_PublicIp a)
                           (match addr_Domain a with
                            | Some d => d
                            | None => "classic"
                            end).

Definition lambda_eip_of (a : Address) : lambda_function.ElasticIp :=
  lambda_function.mk_ElasticIp (addr_AllocationId a) (addr_PublicIp a)
                               (match addr_Domain a with
                                | Some d => d
                                | None => "classic"
                                end).

Definition cli_snapshot_of (s : Snapshot) : aws_cleaner.OldSnapshot :=
  aws_cleaner.mk_OldSnapshot (snap_SnapshotId s)
                             (match snap_Description s with
                              | Some d => d
                              | None => "No description"
                              end)
                             (snap_StartTime s) (snap_VolumeSize s).

Definition lambda_snapshot_of (w : World) (s : Snapshot) : lambda_function.OldSnapshot :=
  lambda_function.mk_OldSnapshot (snap_SnapshotId s)
                                 (match snap_Description s with
                                  | Some d => d
                                  | None => "No description"
                                  end)
                                 (isoformat w (snap_StartTime s)) (snap_VolumeSize s).

Definition lambda_instance_of (w : World) (i : Instance)
  : lambda_function.StoppedInstance :=
  lambda_function.mk_StoppedInstance
    (inst_InstanceId i) (inst_InstanceType i) (isoformat w (inst_LaunchTime i))
    (inst_State i) (lambda_function.LambdaResourceCleaner._get_instance_name i).

(** The call that releases an address of the given domain. *)
Definition release_of (domain : string) (allocation_id public_ip : option string)
  : Call :=
  if (domain =? "vpc")%string then release_address_AllocationId allocation_id
  else release_address_PublicIp public_ip.

(** All the provider calls of a history, oldest first. *)
Fixpoint api_calls (h : History) : list (pyval * Call) :=
  match h with
  | [] => []
  | Api r c :: h' => (r, c) :: api_calls h'
  | _ :: h' => api_calls h'
  end.

(** The values a [for] loop can run over. *)
Definition iterable (v : pyval) : bool :=
  match v with
  | PList _ | PStr _ | PDict _ => true
  | PNone | PBool _ | PInt _ => false
  end.

(** [now - timedelta(days=days)], when both the difference and the
    subtraction are representable. *)
Definition cutoff_date (t : naive_datetime) (days : Z) : option naive_datetime :=
  match timedelta_days days with
  | Ok delta => match datetime_sub t delta with
                | Ok c => Some c
                | Raise _ => None
                end
  | Raise _ => None
  end.

(** Whether Python can compute [t - timedelta(days=days)]: a [timedelta]
    takes at most 999999999 days either way, and the difference has to
    be a [datetime], of the years 1 to 9999. *)
Definition representable (t : naive_datetime) (days : Z) : bool :=
  (Z.abs days <=? 999999999) && datetime_ok (t - days * us_per_day).

(** ** Worlds to run the program in *)

Module Sample.

(** 2024-01-01T00:00:00 is day 738886 of the calendar; day 1 is instant 0. *)
Definition day (ordinal : Z) : naive_datetime := (ordinal - 1) * us_per_day.
Definition t_now : naive_datetime := day 738886.

Definition utc (t : naive_datetime) : datetime := mk_datetime t (Some 0).

(** A stand-in for [isoformat]: the reading and the offset in decimal. *)
Definition render (d : datetime) : string :=
  (str_of_Z (wall d) ++ match tzinfo d with
                        | Some o => "+" ++ str_of_Z o
                        | None => EmptyString
                        end)%string.

Definition vpc_address : Address :=
  mk_Address None None (Some "eipalloc-1") (Some "203.0.113.1") (Some "vpc").
Definition bare_address : Address :=
  mk_Address None None None (Some "203.0.113.2") None.
Definition attached_address : Address :=
  mk_Address (Some "i-1") (Some "eni-1") (Some "eipalloc-3") (Some "203.0.113.3")
             (Some "vpc").

Definition old_snapshot : Snapshot :=
  mk_Snapshot "snap-old" (Some "nightly") (utc (day 738786)) 8.
Definition edge_snapshot : Snapshot :=
  mk_Snapshot "snap-edge" None (utc (day 738856)) 20.
Definition new_snapshot : Snapshot :=
  mk_Snapshot "snap-new" None (utc (day 738880)) 4.

(** Launched two years before [t_now], stopped the day before it. *)
Definition old_instance : Instance :=
  mk_Instance "i-old" "t3.micro" (utc (day 738156)) "stopped"
              (Some "User initiated (2023-12-31 00:00:00 GMT)")
              (Some [("Name", "batch")]).
Definition second_instance : Instance :=
  mk_Instance "i-two" "t3.small" (utc (day 738000)) "stopped"
              (Some "User initiated (2023-06-01 00:00:00 GMT)") None.

(** An account with the given addresses and the snapshots and the
    instance above in every region.  [failing] gives the message a
    mutating call raises, [answers] what the operator says to a prompt. *)
Definition world (addresses : list Address) (failing : Call -> option string)
           (answers : string -> bool) : World :=
  mk_World (PStr "us-east-1")
           (fun _ _ => None)
           (fun _ _ => Ok ["us-east-1"; "eu-west-1"])
           (fun _ _ => Ok addresses)
           (fun _ _ => Ok [old_snapshot; edge_snapshot; new_snapshot])
           (fun _ _ => Ok [mk_Reservation [old_instance]])
           (fun _ c _ => failing c)
           (fun _ => t_now)
           (fun prompt _ => answers prompt)
           render.

(** Every call succeeds and the operator agrees to everything. *)
Definition calm : World :=
  world [vpc_address; attached_address] (fun _ => None) (fun _ => true).

(** As [calm], with an address whose response carries no domain. *)
Definition mixed : World :=
  world [vpc_address; attached_address; bare_address] (fun _ => None) (fun _ => true).

(** Deleting "snap-b" raises; everything else succeeds. *)
Definition flaky : World :=
  world [vpc_address; attached_address]
        (fun c => match c with
                  | delete_snapshot id =>
                      if (id =? "snap-b")%string then Some "InvalidSnapshot.InUse"
                      else None
                  | _ => None
                  end)
        (fun _ => true).

Definition snap (id : string) : aws_cleaner.OldSnapshot :=
  aws_cleaner.mk_OldSnapshot id "No description" (utc (day 738786)) 8.

(** Terminating "i-old" raises, and the operator declines to terminate
    "i-two". *)
Definition reluctant : World :=
  world [vpc_address; attached_address]
        (fun c => match c with
                  | terminate_instances [id] =>
                      if (id =? "i-old")%string then Some "OperationNotPermitted"
                      else None
                  | _ => None
                  end)
        (fun prompt =>
           negb (prompt =? "Are you sure you want to terminate i-two (No Name)?")%string).

Definition stopped_old : aws_cleaner.StoppedInstance :=
  aws_cleaner.mk_StoppedInstance "i-old" "t3.micro" (utc (day 738156)) "stopped" "batch".
Definition stopped_two : aws_cleaner.StoppedInstance :=
  aws_cleaner.mk_StoppedInstance "i-two" "t3.small" (utc (day 738000)) "stopped" "No Name".

(** The operator declines the clean-up of addresses and agrees to
    everything else. *)
Definition wary : World :=
  world [vpc_address; attached_address] (fun _ => None)
        (fun prompt => negb (prompt =? "Proceed with EIP cleanup?")%string).

(** Every deletion of a snapshot is refused. *)
Definition stubborn : World :=
  world [vpc_address; attached_address]
        (fun c => match c with
                  | delete_snapshot _ => Some "AccessDenied"
                  | _ => None
                  end)
        (fun _ => true).

End Sample.

(** ** Further vocabulary and worlds *)

(** A computation that adds no provider call at all to any history. *)
Definition idle {A : Type} (m : M A) : Prop :=
  forall h : History, api_calls (snd (m h)) = api_calls h.

(** The prompts of a history with their answers, oldest first. *)
Fixpoint confirmations (h : History) : list (string * bool) :=
  match h with
  | [] => []
  | Confirm prompt answer :: h' => (prompt, answer) :: confirmations h'
  | _ :: h' => confirmations h'
  end.

(** What [clean_stopped_instances] asks about an instance. *)
Definition terminate_prompt (i : aws_cleaner.StoppedInstance) : string :=
  ("Are you sure you want to terminate " ++ aws_cleaner.InstanceId i
   ++ " (" ++ aws_cleaner.Name i ++ ")?")%string.

Module Scenes.

(** As [Sample.calm], with an operator who declines everything. *)
Definition refusing : World :=
  Sample.world [Sample.vpc_address; Sample.attached_address]
               (fun _ => None) (fun _ => false).

(** As [Sample.calm], except that no client can be made for "mars". *)
Definition walled : World :=
  mk_World (PStr "us-east-1")
           (fun region _ => match region with
                            | PStr name =>
                                if (name =? "mars")%string
                                then Some "Could not connect to the endpoint URL"
                                else None
                            | _ => None
                            end)
           (fun _ _ => Ok ["us-east-1"; "eu-west-1"])
           (fun _ _ => Ok [Sample.vpc_address; Sample.attached_address])
           (fun _ _ => Ok [Sample.old_snapshot; Sample.edge_snapshot;
                           Sample.new_snapshot])
           (fun _ _ => Ok [mk_Reservation [Sample.old_instance]])
           (fun _ _ _ => None)
           (fun _ => Sample.t_now)
           (fun _ _ => true)
           Sample.render.

(** Every describing call is refused. *)
Definition denied : World :=
  mk_World (PStr "us-east-1")
           (fun _ _ => None)
           (fun _ _ => Raise "UnauthorizedOperation")
           (fun _ _ => Raise "UnauthorizedOperation")
           (fun _ _ => Raise "UnauthorizedOperation")
           (fun _ _ => Raise "UnauthorizedOperation")
           (fun _ _ _ => None)
           (fun _ => Sample.t_now)
           (fun _ _ => true)
           Sample.render.

(** A running instance launched long ago, as a provider that ignored the
    filter on the state would report it. *)
Definition running_instance : Instance :=
  mk_Instance "i-run" "m5.large" (Sample.utc (Sample.day 738000)) "running" None None.

Definition unfiltered : World :=
  mk_World (PStr "us-east-1")
           (fun _ _ => None)
           (fun _ _ => Ok ["us-east-1"])
           (fun _ _ => Ok [])
           (fun _ _ => Ok [])
           (fun _ _ => Ok [mk_Reservation [Sample.old_instance];
                           mk_Reservation [running_instance]])
           (fun _ _ _ => None)
           (fun _ => Sample.t_now)
           (fun _ _ => true)
           Sample.render.

End Scenes.

(** ** The history *)

Lemma mutations_app (h1 h2 : History) :
  mutations (h1 ++ h2) = mutations h1 ++ mutations h2.
Proof.
  induction h1 as [|e h1 IH]; simpl; [reflexivity|].
  destruct e as [r c| | |]; try assumption.
  destruct (mutating c); simpl; now rewrite IH.
Qed.

(** ** Loops *)

Lemma for_each_app {X S : Type} (body : X -> S -> M S) (xs ys : list X) (acc : S)
      (h : History) :
  for_each (xs ++ ys) body acc h =
  (let (acc', h') := for_each xs body acc h in for_each ys body acc' h').
Proof.
  revert acc h; induction xs as [|x xs IH]; intros acc h; simpl.
  - reflexivity.
  - unfold bind. destruct (body x acc h) as [acc1 h1]. apply IH.
Qed.

(** A property of the loop state that every pass keeps holds at the end. *)
Lemma for_each_keeps {X S : Type} (P : S -> Prop) (body : X -> S -> M S) :
  (forall x acc h, P acc -> P (fst (body x acc h))) ->
  forall xs acc h, P acc -> P (fst (for_each xs body acc h)).
Proof.
  intros step xs; induction xs as [|x xs IH]; intros acc h Hacc; simpl.
  - exact Hacc.
  - unfold bind. specialize (step x acc h Hacc).
    destruct (body x acc h) as [acc1 h1]. apply IH. exact step.
Qed.

(** What a loop adds to the mutating calls, pass by pass. *)
Lemma for_each_mutations {X S : Type} (body : X -> S -> M S)
      (calls : X -> list (pyval * Call)) :
  (forall x acc h, mutations (snd (body x acc h)) = mutations h ++ calls x) ->
  forall xs acc h,
    mutations (snd (for_each xs body acc h)) = mutations h ++ flat_map calls xs.
Proof.
  intros step xs; induction xs as [|x xs IH]; intros acc h; simpl.
  - now rewrite app_nil_r.
  - unfold bind. specialize (step x acc h).
    destruct (body x acc h) as [acc1 h1]. simpl in step.
    rewrite IH, step, app_assoc. reflexivity.
Qed.

(** ** Silent computations *)

Lemma silent_ret {A : Type} (a : A) : silent (ret a).
Proof. intro h. reflexivity. Qed.

Lemma silent_bind {A B : Type} (m : M A) (f : A -> M B) :
  silent m -> (forall a, silent (f a)) -> silent (bind m f).
Proof.
  intros Hm Hf h. unfold bind. specialize (Hm h).
  destruct (m h) as [a h1]. simpl in Hm. now rewrite Hf.
Qed.

Lemma silent_ask {A : Type} (oracle : History -> A) : silent (ask oracle).
Proof. intro h. reflexivity. Qed.

Lemma silent_print (line : string) : silent (print line).
Proof. intro h. unfold print, emit. simpl. rewrite mutations_app. simpl. apply app_nil_r. Qed.

Lemma silent_now (w : World) : silent (now w).
Proof. intro h. unfold now, bind, ask, emit, ret. simpl. rewrite mutations_app. simpl. apply app_nil_r. Qed.

Lemma silent_confirm (w : World) (prompt : string) : silent (confirm w prompt).
Proof. intro h. unfold confirm, bind, ask, emit, ret. simpl. rewrite mutations_app. simpl. apply app_nil_r. Qed.

Lemma silent_describe {A : Type} (r : pyval) (c : Call)
      (response : pyval -> History -> result A) :
  mutating c = false -> silent (describe r c response).
Proof.
  intros Hc h. unfold describe, bind, ask, emit, ret. simpl.
  rewrite mutations_app. simpl. rewrite Hc. apply app_nil_r.
Qed.

Lemma silent_for_each {X S : Type} (body : X -> S -> M S) (xs : list X) (acc : S) :
  (forall x acc, silent (body x acc)) -> silent (for_each xs body acc).
Proof.
  intros Hb. revert acc. induction xs as [|x xs IH]; intro acc; simpl.
  - apply silent_ret.
  - apply silent_bind; [apply Hb | intro a; apply IH].
Qed.

Ltac hush :=
  repeat first
    [ apply silent_ret
    | apply silent_print
    | apply silent_now
    | apply silent_confirm
    | apply silent_ask
    | apply silent_describe; reflexivity
    | apply silent_for_each; intros
    | apply silent_bind; [|intro]
    | match goal with
      | |- silent (match ?x with _ => _ end) => destruct x
      end ].

(** *** The interactive flavour *)

Lemma silent_cli_init (w : World) (r : string) (d : bool) :
  silent (aws_cleaner.AWSResourceCleaner.init w r d).
Proof. unfold aws_cleaner.AWSResourceCleaner.init. hush. Qed.

Lemma silent_cli_get_all_regions (w : World) (self : aws_cleaner.AWSResourceCleaner.t) :
  silent (aws_cleaner.AWSResourceCleaner.get_all_regions w self).
Proof. unfold aws_cleaner.AWSResourceCleaner.get_all_regions. hush. Qed.

Lemma silent_cli_find_unused_elastic_ips (w : World)
      (self : aws_cleaner.AWSResourceCleaner.t) :
  silent (aws_cleaner.AWSResourceCleaner.find_unused_elastic_ips w self).
Proof. unfold aws_cleaner.AWSResourceCleaner.find_unused_elastic_ips. hush. Qed.

Lemma silent_cli_find_old_snapshots (w : World)
      (self : aws_cleaner.AWSResourceCleaner.t) (days : Z) :
  silent (aws_cleaner.AWSResourceCleaner.find_old_snapshots w self days).
Proof. unfold aws_cleaner.AWSResourceCleaner.find_old_snapshots. hush. Qed.

Lemma silent_cli_find_stopped_instances (w : World)
      (self : aws_cleaner.AWSResourceCleaner.t) (days : Z) :
  silent (aws_cleaner.AWSResourceCleaner.find_stopped_instances w self days).
Proof. unfold aws_cleaner.AWSResourceCleaner.find_stopped_instances. hush. Qed.

Lemma silent_cli_clean_elastic_ips (w : World) (r : string)
      (eips : list aws_cleaner.ElasticIp) :
  silent (aws_cleaner.AWSResourceCleaner.clean_elastic_ips
            w (aws_cleaner.AWSResourceCleaner.mk_cleaner r true) eips).
Proof. unfold aws_cleaner.AWSResourceCleaner.clean_elastic_ips. simpl. hush. Qed.

Lemma silent_cli_clean_snapshots (w : World) (r : string)
      (snaps : list aws_cleaner.OldSnapshot) :
  silent (aws_cleaner.AWSResourceCleaner.clean_snapshots
            w (aws_cleaner.AWSResourceCleaner.mk_cleaner r true) snaps).
Proof. unfold aws_cleaner.AWSResourceCleaner.clean_snapshots. simpl. hush. Qed.

Lemma silent_cli_clean_stopped_instances (w : World) (r : string)
      (insts : list aws_cleaner.StoppedInstance) :
  silent (aws_cleaner.AWSResourceCleaner.clean_stopped_instances
            w (aws_cleaner.AWSResourceCleaner.mk_cleaner r true) insts).
Proof. unfold aws_cleaner.AWSResourceCleaner.clean_stopped_instances. simpl. hush. Qed.

Lemma silent_bind_post {A B : Type} (Q : A -> Prop) (m : M A) (f : A -> M B) :
  (forall h, Q (fst (m h))) -> silent m -> (forall a, Q a -> silent (f a)) ->
  silent (bind m f).
Proof.
  intros HQ Hm Hf h. unfold bind. specialize (Hm h). specialize (HQ h).
  destruct (m h) as [a h1]. simpl in *. now rewrite (Hf a HQ).
Qed.

Lemma cli_init_makes (w : World) (r : string) (d : bool) (h : History) :
  match fst (aws_cleaner.AWSResourceCleaner.init w r d h) with
  | Ok c => c = aws_cleaner.AWSResourceCleaner.mk_cleaner r d
  | Raise _ => True
  end.
Proof.
  unfold aws_cleaner.AWSResourceCleaner.init, bind, ask, ret.
  destruct (client_error w (PStr r) h); simpl; auto.
Qed.

Lemma silent_main_clean_eips (w : World) (r : string) (clean force : bool)
      (total : aws_cleaner.Totals) (rest : aws_cleaner.Totals -> M aws_cleaner.Totals) :
  (forall t, silent (rest t)) ->
  silent (aws_cleaner.main_clean_eips
            w (aws_cleaner.AWSResourceCleaner.mk_cleaner r true) true clean force
            total rest).
Proof.
  intro Hrest. unfold aws_cleaner.main_clean_eips. simpl.
  destruct clean; [|apply Hrest].
  apply silent_bind; [apply silent_print|intros _].
  apply silent_bind; [apply silent_cli_find_unused_elastic_ips|intros found].
  destruct found as [|e found]; [hush; apply Hrest|].
  apply silent_bind; [apply silent_print|intros _].
  apply silent_bind; [apply silent_ret|intros proceed].
  destruct proceed; [|apply silent_ret].
  apply silent_bind; [apply silent_cli_clean_elastic_ips|intros n; apply Hrest].
Qed.

Lemma silent_main_clean_snapshots (w : World) (r : string) (clean : bool) (days : Z)
      (force : bool) (total : aws_cleaner.Totals)
      (rest : aws_cleaner.Totals -> M aws_cleaner.Totals) :
  (forall t, silent (rest t)) ->
  silent (aws_cleaner.main_clean_snapshots
            w (aws_cleaner.AWSResourceCleaner.mk_cleaner r true) true clean days force
            total rest).
Proof.
  intro Hrest. unfold aws_cleaner.main_clean_snapshots. simpl.
  destruct clean; [|apply Hrest].
  apply silent_bind; [apply silent_print|intros _].
  apply silent_bind; [apply silent_cli_find_old_snapshots|intros found].
  destruct found as [|e found]; [hush; apply Hrest|].
  apply silent_bind; [apply silent_print|intros _].
  apply silent_bind; [apply silent_ret|intros proceed].
  destruct proceed; [|apply silent_ret].
  apply silent_bind; [apply silent_cli_clean_snapshots|intros n; apply Hrest].
Qed.

Lemma silent_main_clean_instances (w : World) (r : string) (clean : bool) (days : Z)
      (force : bool) (total : aws_cleaner.Totals)
      (rest : aws_cleaner.Totals -> M aws_cleaner.Totals) :
  (forall t, silent (rest t)) ->
  silent (aws_cleaner.main_clean_instances
            w (aws_cleaner.AWSResourceCleaner.mk_cleaner r true) true clean days force
            total rest).
Proof.
  intro Hrest. unfold aws_cleaner.main_clean_instances. simpl.
  destruct clean; [|apply Hrest].
  apply silent_bind; [apply silent_print|intros _].
  apply silent_bind; [apply silent_cli_find_stopped_instances|intros found].
  destruct found as [|e found]; [hush; apply Hrest|].
  apply silent_bind; [apply silent_print|intros _].
  apply silent_bind; [apply silent_ret|intros proceed].
  destruct proceed; [|apply silent_ret].
  apply silent_bind; [apply silent_cli_clean_stopped_instances|intros n; apply Hrest].
Qed.

Lemma silent_main_region (w : World) (ce cs ci : bool) (days : Z) (force : bool)
      (r : string) (total : aws_cleaner.Totals) :
  silent (aws_cleaner.main_region w true ce cs ci days force r total).
Proof.
  unfold aws_cleaner.main_region.
  apply silent_bind; [apply silent_print|intros _].
  apply silent_bind_post
    with (Q := fun made => match made with
                           | Ok c => c = aws_cleaner.AWSResourceCleaner.mk_cleaner r true
                           | Raise _ => True
                           end).
  - intro h. apply cli_init_makes.
  - apply silent_cli_init.
  - intros [c|e] Hc; [subst c|apply silent_ret].
    apply silent_bind; [|intro; apply silent_ret].
    apply silent_main_clean_eips. intro t1.
    apply silent_main_clean_snapshots. intro t2.
    apply silent_main_clean_instances. intro t3. apply silent_ret.
Qed.

Lemma silent_main_regions (w : World) (ce cs ci : bool) (days : Z) (force : bool)
      (regions : list string) (total : aws_cleaner.Totals) :
  silent (aws_cleaner.main_regions w true ce cs ci days force regions total).
Proof.
  revert total. induction regions as [|r regions IH]; intro total; simpl.
  - apply silent_ret.
  - apply silent_bind; [apply silent_main_region|].
    intros [t|e]; [apply IH|apply silent_ret].
Qed.

Lemma silent_main (w : World) (region : string) (all_regions ce cs ci : bool)
      (days : Z) (force : bool) :
  silent (aws_cleaner.main w region all_regions true ce cs ci days force).
Proof.
  unfold aws_cleaner.main, aws_cleaner.main_summary.
  apply silent_bind; [apply silent_print|intros _].
  apply silent_bind; [apply silent_print|intros _].
  apply silent_bind; [apply silent_print|intros _].
  apply silent_bind.
  - destruct all_regions.
    + apply silent_bind; [apply silent_cli_init|].
      intros [c|e]; [|apply silent_ret].
      apply silent_bind; [apply silent_cli_get_all_regions|intro].
      hush.
    + hush.
  - intros [regions|e]; [|apply silent_ret].
    apply silent_bind; [apply silent_main_regions|].
    intros [t|e]; hush.
Qed.

(** *** The event-driven flavour *)

Lemma silent_lambda_init (w : World) (r : pyval) :
  silent (lambda_function.LambdaResourceCleaner.init w r).
Proof. unfold lambda_function.LambdaResourceCleaner.init. hush. Qed.

Lemma silent_lambda_find_unused_elastic_ips (w : World)
      (self : lambda_function.LambdaResourceCleaner.t) :
  silent (lambda_function.LambdaResourceCleaner.find_unused_elastic_ips w self).
Proof. unfold lambda_function.LambdaResourceCleaner.find_unused_elastic_ips. hush. Qed.

Lemma silent_lambda_find_old_snapshots (w : World)
      (self : lambda_function.LambdaResourceCleaner.t) (days : pyval) :
  silent (lambda_function.LambdaResourceCleaner.find_old_snapshots w self days).
Proof. unfold lambda_function.LambdaResourceCleaner.find_old_snapshots. hush. Qed.

Lemma silent_lambda_find_stopped_instances (w : World)
      (self : lambda_function.LambdaResourceCleaner.t) (days : pyval) :
  silent (lambda_function.LambdaResourceCleaner.find_stopped_instances w self days).
Proof. unfold lambda_function.LambdaResourceCleaner.find_stopped_instances. hush. Qed.

Lemma silent_cleanup_eips (w : World) (self : lambda_function.LambdaResourceCleaner.t)
      (config : list (string * pyval)) (dry_run : pyval)
      (results : lambda_function.Results) :
  truthy dry_run = true ->
  silent (lambda_function.LambdaResourceCleaner.cleanup_eips w self config dry_run results).
Proof.
  intro Hdry. unfold lambda_function.LambdaResourceCleaner.cleanup_eips.
  rewrite Hdry. simpl.
  destruct (truthy (dict_get "clean_eips" (PBool false) config)); [|apply silent_ret].
  apply silent_bind; [apply silent_lambda_find_unused_elastic_ips|intro].
  apply silent_for_each. intros. apply silent_ret.
Qed.

Lemma silent_cleanup_snapshots (w : World)
      (self : lambda_function.LambdaResourceCleaner.t)
      (config : list (string * pyval)) (dry_run : pyval)
      (results : lambda_function.Results) :
  truthy dry_run = true ->
  silent (lambda_function.LambdaResourceCleaner.cleanup_snapshots
            w self config dry_run results).
Proof.
  intro Hdry. unfold lambda_function.LambdaResourceCleaner.cleanup_snapshots.
  rewrite Hdry. simpl.
  destruct (truthy (dict_get "clean_snapshots" (PBool false) config));
    [|apply silent_ret].
  apply silent_bind; [apply silent_lambda_find_old_snapshots|intro].
  apply silent_for_each. intros. apply silent_ret.
Qed.

Lemma silent_cleanup_instances (w : World)
      (self : lambda_function.LambdaResourceCleaner.t)
      (config : list (string * pyval)) (dry_run : pyval)
      (results : lambda_function.Results) :
  truthy dry_run = true ->
  silent (lambda_function.LambdaResourceCleaner.cleanup_instances
            w self config dry_run results).
Proof.
  intro Hdry. unfold lambda_function.LambdaResourceCleaner.cleanup_instances.
  rewrite Hdry. simpl.
  destruct (truthy (dict_get "clean_instances" (PBool false) config));
    [|apply silent_ret].
  apply silent_bind; [apply silent_lambda_find_stopped_instances|intro].
  apply silent_for_each. intros. apply silent_ret.
Qed.

Lemma silent_cleanup_resources (w : World)
      (self : lambda_function.LambdaResourceCleaner.t)
      (config : list (string * pyval)) :
  truthy (dict_get "dry_run" (PBool true) config) = true ->
  silent (lambda_function.LambdaResourceCleaner.cleanup_resources w self config).
Proof.
  intro Hdry. unfold lambda_function.LambdaResourceCleaner.cleanup_resources.
  apply silent_bind; [apply silent_now|intros t].
  apply silent_bind; [now apply silent_cleanup_eips|intros r1].
  apply silent_bind; [now apply silent_cleanup_snapshots|intros r2].
  apply silent_bind; [now apply silent_cleanup_instances|intros r3].
  apply silent_ret.
Qed.

Lemma silent_process_regions (w : World) (config : list (string * pyval))
      (regions : list pyval) (all_results : list lambda_function.Results) :
  truthy (dict_get "dry_run" (PBool true) config) = true ->
  silent (lambda_function.process_regions w config regions all_results).
Proof.
  intro Hdry. revert all_results.
  induction regions as [|r regions IH]; intro all_results; simpl.
  - apply silent_ret.
  - apply silent_bind; [apply silent_lambda_init|].
    intros [c|e]; [|apply silent_ret].
    apply silent_bind; [now apply silent_cleanup_resources|intro; apply IH].
Qed.

(** The [config] of the handler carries the event's own [dry_run]. *)
Lemma parse_config_dry_run (d : list (string * pyval)) :
  exists config,
    lambda_function.parse_config (PDict d) = Ok config /\
    dict_get "dry_run" (PBool true) config = dict_get "dry_run" (PBool true) d.
Proof.
  unfold lambda_function.parse_config. simpl. eexists. split; reflexivity.
Qed.

Lemma silent_lambda_handler (w : World) (d : list (string * pyval)) :
  truthy (dict_get "dry_run" (PBool true) d) = true ->
  silent (lambda_function.lambda_handler w (PDict d)).
Proof.
  intro Hdry. unfold lambda_function.lambda_handler.
  destruct (parse_config_dry_run d) as [config [Hparse Hsame]].
  rewrite Hparse. cbn [get].
  destruct (iter _); [|apply silent_ret].
  apply silent_bind.
  - apply silent_process_regions. now rewrite Hsame.
  - intros [rs|e]; [|apply silent_ret].
    destruct (lambda_function.aggregate rs). apply silent_ret.
Qed.

(** ** Dry run *)

(** C1.  With the dry-run flag set, no cleaner of the interactive flavour,
    no run of [main], no [cleanup_resources] and no invocation of
    [lambda_handler] adds a mutating call (release-address,
    delete-snapshot, terminate-instances) to the history, whatever the
    candidates, the enable flags, the provider and the operator. *)
Theorem dry_run_issues_no_mutating_call :
  forall (w : World) (h : History) (event : list (string * pyval)),
    truthy (dict_get "dry_run" (PBool true) event) = true ->
    (forall r eips,
        mutations (snd (aws_cleaner.AWSResourceCleaner.clean_elastic_ips
                          w (aws_cleaner.AWSResourceCleaner.mk_cleaner r true) eips h))
        = mutations h) /\
    (forall r snaps,
        mutations (snd (aws_cleaner.AWSResourceCleaner.clean_snapshots
                          w (aws_cleaner.AWSResourceCleaner.mk_cleaner r true) snaps h))
        = mutations h) /\
    (forall r insts,
        mutations (snd (aws_cleaner.AWSResourceCleaner.clean_stopped_instances
                          w (aws_cleaner.AWSResourceCleaner.mk_cleaner r true) insts h))
        = mutations h) /\
    (forall region all_regions clean_eips clean_snapshots clean_instances days force,
        mutations (snd (aws_cleaner.main w region all_regions true clean_eips
                                         clean_snapshots clean_instances days force h))
        = mutations h) /\
    (forall self,
        mutations (snd (lambda_function.LambdaResourceCleaner.cleanup_resources
                          w self event h))
        = mutations h) /\
    mutations (snd (lambda_function.lambda_handler w (PDict event) h)) = mutations h.
Proof.
  intros w h event Hdry. repeat split; intros.
  - apply silent_cli_clean_elastic_ips.
  - apply silent_cli_clean_snapshots.
  - apply silent_cli_clean_stopped_instances.
  - apply silent_main.
  - now apply silent_cleanup_resources.
  - now apply silent_lambda_handler.
Qed.

(** An event that enables every kind and leaves [dry_run] to its default. *)
Lemma dry_run_issues_no_mutating_call_witness :
  truthy (dict_get "dry_run" (PBool true)
                   [("clean_eips", PBool true); ("clean_snapshots", PBool true);
                    ("clean_instances", PBool true)]) = true /\
  mutations (snd (lambda_function.lambda_handler
                    Sample.calm
                    (PDict [("clean_eips", PBool true); ("clean_snapshots", PBool true);
                            ("clean_instances", PBool true)])
                    [])) = [].
Proof.
  split; [reflexivity|].
  apply (dry_run_issues_no_mutating_call
           Sample.calm []
           [("clean_eips", PBool true); ("clean_snapshots", PBool true);
            ("clean_instances", PBool true)]).
  reflexivity.
Defined.

(** The same invocation with [dry_run] off does mutate the account. *)
Example live_run_mutates :
  mutations (snd (lambda_function.lambda_handler
                    Sample.calm
                    (PDict [("dry_run", PBool false);
                            ("clean_eips", PBool true); ("clean_snapshots", PBool true);
                            ("clean_instances", PBool true)])
                    []))
  = [(PStr "us-east-1", release_address_AllocationId (Some "eipalloc-1"));
     (PStr "us-east-1", delete_snapshot "snap-old");
     (PStr "us-east-1", terminate_instances ["i-old"])].
Proof. vm_compute. reflexivity. Qed.

(** ** The finders *)

(** A loop that appends [f x] for the entries it keeps builds the image
    of the kept entries. *)
Lemma fold_left_select {X Y : Type} (step : list Y -> X -> list Y)
      (keep : X -> bool) (f : X -> Y) :
  (forall acc x, step acc x = if keep x then acc ++ [f x] else acc) ->
  forall xs acc, fold_left step xs acc = acc ++ map f (filter keep xs).
Proof.
  intros Hstep xs; induction xs as [|x xs IH]; intro acc; simpl.
  - now rewrite app_nil_r.
  - rewrite IH, Hstep. destruct (keep x); simpl; [|reflexivity].
    now rewrite <- app_assoc.
Qed.

Lemma fold_left_nested {X Y A : Type} (inner : X -> list Y) (step : A -> Y -> A)
      (xs : list X) (acc : A) :
  fold_left (fun acc x => fold_left step (inner x) acc) xs acc
  = fold_left step (flat_map inner xs) acc.
Proof.
  revert acc; induction xs as [|x xs IH]; intro acc; simpl.
  - reflexivity.
  - now rewrite IH, fold_left_app.
Qed.

Lemma cli_find_unused_elastic_ips_eq (w : World)
      (self : aws_cleaner.AWSResourceCleaner.t) (h : History) :
  aws_cleaner.AWSResourceCleaner.find_unused_elastic_ips w self h
  = (match addresses_response w (aws_cleaner.AWSResourceCleaner.ec2_client self) h with
     | Ok addresses => map cli_eip_of (filter unattached addresses)
     | Raise _ => []
     end,
     h ++ [Api (aws_cleaner.AWSResourceCleaner.ec2_client self) describe_addresses]).
Proof.
  unfold aws_cleaner.AWSResourceCleaner.find_unused_elastic_ips,
    describe, bind, ask, emit, ret. simpl.
  destruct (addresses_response w _ h) as [addresses|e]; [|reflexivity].
  f_equal. rewrite fold_left_select with (keep := unattached) (f := cli_eip_of).
  - reflexivity.
  - intros acc a. unfold unattached, cli_eip_of.
    destruct (addr_InstanceId a), (addr_NetworkInterfaceId a); reflexivity.
Qed.

Lemma lambda_find_unused_elastic_ips_eq (w : World)
      (self : lambda_function.LambdaResourceCleaner.t) (h : History) :
  lambda_function.LambdaResourceCleaner.find_unused_elastic_ips w self h
  = (match addresses_response w (lambda_function.LambdaResourceCleaner.ec2_client self) h with
     | Ok addresses => map lambda_eip_of (filter unattached addresses)
     | Raise _ => []
     end,
     h ++ [Api (lambda_function.LambdaResourceCleaner.ec2_client self) describe_addresses]).
Proof.
  unfold lambda_function.LambdaResourceCleaner.find_unused_elastic_ips,
    describe, bind, ask, emit, ret. simpl.
  destruct (addresses_response w _ h) as [addresses|e]; [|reflexivity].
  f_equal. rewrite fold_left_select with (keep := unattached) (f := lambda_eip_of).
  - reflexivity.
  - intros acc a. unfold unattached, lambda_eip_of.
    destruct (addr_InstanceId a), (addr_NetworkInterfaceId a); reflexivity.
Qed.

Lemma cli_find_old_snapshots_eq (w : World)
      (self : aws_cleaner.AWSResourceCleaner.t) (days : Z) (h : History) :
  fst (aws_cleaner.AWSResourceCleaner.find_old_snapshots w self days h)
  = match cutoff_date (clock w h) days with
    | Some cutoff =>
        match snapshots_response w (aws_cleaner.AWSResourceCleaner.ec2_client self)
                                 (h ++ [Now]) with
        | Ok snapshots =>
            map cli_snapshot_of
                (filter (fun s => wall (snap_StartTime s) <? cutoff) snapshots)
        | Raise _ => []
        end
    | None => []
    end.
Proof.
  unfold aws_cleaner.AWSResourceCleaner.find_old_snapshots, cutoff_date,
    now, describe, bind, ask, emit, ret. simpl.
  destruct (timedelta_days days) as [delta|e]; [|reflexivity].
  destruct (datetime_sub (clock w h) delta) as [cutoff|e]; [|reflexivity].
  simpl.
  destruct (snapshots_response w _ (h ++ [Now])) as [snapshots|e]; [|reflexivity].
  simpl. now rewrite fold_left_select
    with (keep := fun s => wall (snap_StartTime s) <? cutoff) (f := cli_snapshot_of).
Qed.

Lemma lambda_find_old_snapshots_eq (w : World)
      (self : lambda_function.LambdaResourceCleaner.t) (days : Z) (h : History) :
  fst (lambda_function.LambdaResourceCleaner.find_old_snapshots w self (PInt days) h)
  = match cutoff_date (clock w h) days with
    | Some cutoff =>
        match snapshots_response w (lambda_function.LambdaResourceCleaner.ec2_client self)
                                 (h ++ [Now]) with
        | Ok snapshots =>
            map (lambda_snapshot_of w)
                (filter (fun s => wall (snap_StartTime s) <? cutoff) snapshots)
        | Raise _ => []
        end
    | None => []
    end.
Proof.
  unfold lambda_function.LambdaResourceCleaner.find_old_snapshots, cutoff_date,
    now, describe, bind, ask, emit, ret. simpl.
  destruct (timedelta_days days) as [delta|e]; [|reflexivity].
  destruct (datetime_sub (clock w h) delta) as [cutoff|e]; [|reflexivity].
  simpl.
  destruct (snapshots_response w _ (h ++ [Now])) as [snapshots|e]; [|reflexivity].
  simpl. now rewrite fold_left_select
    with (keep := fun s => wall (snap_StartTime s) <? cutoff)
         (f := lambda_snapshot_of w).
Qed.

Lemma lambda_find_stopped_instances_eq (w : World)
      (self : lambda_function.LambdaResourceCleaner.t) (days : Z) (h : History) :
  fst (lambda_function.LambdaResourceCleaner.find_stopped_instances w self (PInt days) h)
  = match cutoff_date (clock w h) days with
    | Some cutoff =>
        match instances_response w (lambda_function.LambdaResourceCleaner.ec2_client self)
                                 (h ++ [Now]) with
        | Ok reservations =>
            map (lambda_instance_of w)
                (filter (fun i => wall (inst_LaunchTime i) <? cutoff)
                        (instances_of reservations))
        | Raise _ => []
        end
    | None => []
    end.
Proof.
  unfold lambda_function.LambdaResourceCleaner.find_stopped_instances, cutoff_date,
    now, describe, bind, ask, emit, ret. simpl.
  destruct (timedelta_days days) as [delta|e]; [|reflexivity].
  destruct (datetime_sub (clock w h) delta) as [cutoff|e]; [|reflexivity].
  simpl.
  destruct (instances_response w _ (h ++ [Now])) as [reservations|e]; [|reflexivity].
  simpl. rewrite fold_left_nested.
  now rewrite fold_left_select
    with (keep := fun i => wall (inst_LaunchTime i) <? cutoff)
         (f := lambda_instance_of w).
Qed.

(** No single character contains the word the interactive finder looks
    for in each character of [StateTransitionReason]. *)
Lemma no_character_contains_stopped (c : ascii) :
  contains "stopped" (lower (String c EmptyString)) = false.
Proof.
  change (lower (String c EmptyString)) with (String (lower_ascii c) EmptyString).
  unfold contains. cbn -[ascii_dec].
  destruct (ascii_dec "s" (lower_ascii c)); reflexivity.
Qed.

Lemma fold_left_idle {X A : Type} (step : A -> X -> A) :
  (forall acc x, step acc x = acc) ->
  forall xs acc, fold_left step xs acc = acc.
Proof.
  intros Hstep xs; induction xs as [|x xs IH]; intro acc; simpl.
  - reflexivity.
  - now rewrite Hstep.
Qed.

Lemma fold_left_chars_unchanged {Y : Type} (grown : list Y -> list Y) (s : string)
      (acc : list Y) :
  fold_left (fun acc transition =>
               if contains "stopped" (lower transition) then grown acc else acc)
            (chars s) acc
  = acc.
Proof.
  revert acc; induction s as [|c s IH]; intro acc; cbn [chars fold_left].
  - reflexivity.
  - rewrite no_character_contains_stopped. apply IH.
Qed.

(** The interactive finder of stopped instances never finds any. *)
Lemma cli_find_stopped_instances_empty (w : World)
      (self : aws_cleaner.AWSResourceCleaner.t) (days : Z) (h : History) :
  fst (aws_cleaner.AWSResourceCleaner.find_stopped_instances w self days h) = [].
Proof.
  unfold aws_cleaner.AWSResourceCleaner.find_stopped_instances,
    now, describe, bind, ask, emit, ret. simpl.
  destruct (timedelta_days days) as [delta|e]; [|reflexivity].
  destruct (datetime_sub (clock w h) delta) as [cutoff|e]; [|reflexivity].
  simpl.
  destruct (instances_response w _ (h ++ [Now])) as [reservations|e]; [|reflexivity].
  simpl. rewrite fold_left_nested. apply fold_left_idle.
  intros acc instance. apply fold_left_chars_unchanged.
Qed.

(** ** Old snapshots *)

(** For a threshold that is not negative, the cutoff is [now] minus the
    days; when Python cannot represent it, it lies before every
    [datetime]. *)
Lemma cutoff_date_spec (t : naive_datetime) (days : Z) :
  0 <= days -> datetime_ok t = true ->
  match cutoff_date t days with
  | Some c => c = t - days * us_per_day
  | None => t - days * us_per_day < 0
  end.
Proof.
  intros Hdays Ht. unfold cutoff_date, timedelta_days, datetime_sub.
  unfold datetime_ok in Ht. apply andb_true_iff in Ht. destruct Ht as [H0 Hend].
  apply Z.leb_le in H0. apply Z.ltb_lt in Hend.
  unfold datetime_end, us_per_day in *.
  destruct (Z.abs days <=? 999999999) eqn:Habs.
  - destruct (datetime_ok (t - days * (86400 * 1000000))) eqn:Hok.
    + reflexivity.
    + unfold datetime_ok, datetime_end, us_per_day in Hok.
      apply andb_false_iff in Hok. destruct Hok as [Hok|Hok].
      * apply Z.leb_gt in Hok. exact Hok.
      * apply Z.ltb_ge in Hok. lia.
  - apply Z.leb_gt in Habs. lia.
Qed.

Lemma in_same_key {X K : Type} (key : X -> K) (l : list X) (a b : X) :
  NoDup (map key l) -> In a l -> In b l -> key a = key b -> a = b.
Proof.
  induction l as [|x l IH]; simpl; intros Hnd Ha Hb Hk; [contradiction|].
  inversion Hnd as [|k ks Hnotin Hnd']; subst.
  destruct Ha as [Ha|Ha], Hb as [Hb|Hb]; subst.
  - reflexivity.
  - exfalso. apply Hnotin. rewrite Hk. now apply in_map.
  - exfalso. apply Hnotin. rewrite <- Hk. now apply in_map.
  - now apply IH.
Qed.

(** The cutoff both finders compute is [now] minus the days when that is
    representable; otherwise the subtraction raises and there is none. *)
Lemma cutoff_date_value (t : naive_datetime) (days : Z) :
  cutoff_date t days
  = if representable t days then Some (t - days * us_per_day) else None.
Proof.
  unfold cutoff_date, representable, timedelta_days, datetime_sub.
  destruct (Z.abs days <=? 999999999); simpl; [|reflexivity].
  destruct (datetime_ok (t - days * us_per_day)); reflexivity.
Qed.

(** A threshold that is not negative, at a moment and for a creation
    time that are [datetime]s: whatever lies strictly before [now] minus
    the days lies before a representable cutoff. *)
Lemma before_cutoff_representable (t start_time days : Z) :
  0 <= days -> datetime_ok t = true -> datetime_ok start_time = true ->
  start_time < t - days * us_per_day ->
  representable t days = true.
Proof.
  intros Hdays Ht Hstart Hold.
  pose proof (cutoff_date_spec t days Hdays Ht) as Hc.
  rewrite cutoff_date_value in Hc.
  destruct (representable t days); [reflexivity|].
  unfold datetime_ok in Hstart. apply andb_true_iff in Hstart.
  destruct Hstart as [H0 _]. apply Z.leb_le in H0. lia.
Qed.

(** C5.  For every threshold, negative ones included, both finders of
    old snapshots keep a snapshot of the response exactly when [now]
    minus the threshold in days is representable and the snapshot's
    creation time, time zone dropped, is strictly before it; a snapshot
    created at that very instant is left out.  When [now] minus the
    threshold is not representable, computing it raises inside the
    finder's [try] and the finder returns the empty list, whatever the
    response holds.  For a threshold that is not negative this is the
    claim as it stands: a snapshot is kept exactly when it was created
    strictly before [now] minus the days. *)
Theorem find_old_snapshots_strictly_before_representable_cutoff :
  forall (w : World) (h : History) (days : Z) (snapshots : list Snapshot)
         (cli : aws_cleaner.AWSResourceCleaner.t)
         (lam : lambda_function.LambdaResourceCleaner.t),
    NoDup (map snap_SnapshotId snapshots) ->
    snapshots_response w (aws_cleaner.AWSResourceCleaner.ec2_client cli) (h ++ [Now])
    = Ok snapshots ->
    snapshots_response w (lambda_function.LambdaResourceCleaner.ec2_client lam) (h ++ [Now])
    = Ok snapshots ->
    forall s : Snapshot,
      In s snapshots ->
      let start_time := replace_tzinfo_None (snap_StartTime s) in
      let cutoff := clock w h - days * us_per_day in
      let found_cli :=
        fst (aws_cleaner.AWSResourceCleaner.find_old_snapshots w cli days h) in
      let found_lambda :=
        fst (lambda_function.LambdaResourceCleaner.find_old_snapshots
               w lam (PInt days) h) in
      (In (cli_snapshot_of s) found_cli
       <-> representable (clock w h) days = true /\ start_time < cutoff) /\
      (In (lambda_snapshot_of w s) found_lambda
       <-> representable (clock w h) days = true /\ start_time < cutoff) /\
      (start_time = cutoff ->
       ~ In (cli_snapshot_of s) found_cli /\ ~ In (lambda_snapshot_of w s) found_lambda) /\
      (representable (clock w h) days = false ->
       found_cli = [] /\ found_lambda = []) /\
      (0 <= days ->
       datetime_ok (clock w h) = true ->
       datetime_ok start_time = true ->
       (In (cli_snapshot_of s) found_cli <-> start_time < cutoff) /\
       (In (lambda_snapshot_of w s) found_lambda <-> start_time < cutoff)).
Proof.
  intros w h days snapshots cli lam Hnd Hcli Hlam s Hs
         start_time cutoff found_cli found_lambda.
  assert (Hc1 : In (cli_snapshot_of s) found_cli
                <-> representable (clock w h) days = true /\ start_time < cutoff).
  { subst found_cli.
    rewrite cli_find_old_snapshots_eq, Hcli, cutoff_date_value.
    destruct (representable (clock w h) days).
    - fold cutoff. split.
      + intro Hin. split; [reflexivity|].
        apply in_map_iff in Hin. destruct Hin as [s' [Heq Hin]].
        apply filter_In in Hin. destruct Hin as [_ Hold].
        apply Z.ltb_lt in Hold. unfold cli_snapshot_of in Heq.
        injection Heq as _ _ Hst _. unfold start_time, replace_tzinfo_None.
        now rewrite <- Hst.
      + intros [_ Hold]. apply in_map. apply filter_In. split; [exact Hs|].
        now apply Z.ltb_lt.
    - simpl. split; [contradiction|]. intros [Hrep _]. discriminate Hrep. }
  assert (Hc2 : In (lambda_snapshot_of w s) found_lambda
                <-> representable (clock w h) days = true /\ start_time < cutoff).
  { subst found_lambda.
    rewrite lambda_find_old_snapshots_eq, Hlam, cutoff_date_value.
    destruct (representable (clock w h) days).
    - fold cutoff. split.
      + intro Hin. split; [reflexivity|].
        apply in_map_iff in Hin. destruct Hin as [s' [Heq Hin]].
        apply filter_In in Hin. destruct Hin as [Hin Hold].
        apply Z.ltb_lt in Hold. unfold lambda_snapshot_of in Heq.
        injection Heq as Hid _ _ _.
        assert (s' = s) by (eapply in_same_key; eauto). now subst s'.
      + intros [_ Hold]. apply in_map. apply filter_In. split; [exact Hs|].
        now apply Z.ltb_lt.
    - simpl. split; [contradiction|]. intros [Hrep _]. discriminate Hrep. }
  split; [exact Hc1|]. split; [exact Hc2|]. split; [|split].
  - intro Hedge. split; intro Hin.
    + apply Hc1 in Hin. destruct Hin as [_ Hold]. lia.
    + apply Hc2 in Hin. destruct Hin as [_ Hold]. lia.
  - intro Hrep. subst found_cli found_lambda.
    rewrite cli_find_old_snapshots_eq, lambda_find_old_snapshots_eq,
      cutoff_date_value, Hrep.
    split; reflexivity.
  - intros Hdays Hnow Hstart.
    assert (Hrep : start_time < cutoff -> representable (clock w h) days = true)
      by (apply before_cutoff_representable; assumption).
    split.
    + rewrite Hc1. split; [intros [_ Hold]; exact Hold|].
      intro Hold. split; [now apply Hrep | exact Hold].
    + rewrite Hc2. split; [intros [_ Hold]; exact Hold|].
      intro Hold. split; [now apply Hrep | exact Hold].
Qed.

(** The snapshot created thirty days before [now], with a threshold of
    thirty days: the cutoff is representable and the snapshot is at it,
    not before it. *)
Lemma find_old_snapshots_strictly_before_representable_cutoff_witness :
  NoDup (map snap_SnapshotId
             [Sample.old_snapshot; Sample.edge_snapshot; Sample.new_snapshot]) /\
  In Sample.edge_snapshot
     [Sample.old_snapshot; Sample.edge_snapshot; Sample.new_snapshot] /\
  (In (cli_snapshot_of Sample.edge_snapshot)
      (fst (aws_cleaner.AWSResourceCleaner.find_old_snapshots
              Sample.calm (aws_cleaner.AWSResourceCleaner.mk_cleaner "us-east-1" true)
              30 []))
   <-> representable (clock Sample.calm []) 30 = true /\
       replace_tzinfo_None (snap_StartTime Sample.edge_snapshot)
       < clock Sample.calm [] - 30 * us_per_day).
Proof.
  assert (Hnd : NoDup (map snap_SnapshotId
                           [Sample.old_snapshot; Sample.edge_snapshot;
                            Sample.new_snapshot])).
  { simpl. repeat constructor; simpl; intuition discriminate. }
  split; [exact Hnd|].
  split; [exact (or_intror (or_introl eq_refl))|].
  exact (proj1 (find_old_snapshots_strictly_before_representable_cutoff
                  Sample.calm [] 30
                  [Sample.old_snapshot; Sample.edge_snapshot; Sample.new_snapshot]
                  (aws_cleaner.AWSResourceCleaner.mk_cleaner "us-east-1" true)
                  (lambda_function.LambdaResourceCleaner.mk_cleaner (PStr "us-east-1"))
                  Hnd eq_refl eq_refl
                  Sample.edge_snapshot (or_intror (or_introl eq_refl)))).
Defined.

(** C5 as stated fails for a threshold whose cutoff Python cannot
    represent.  With [--days=-3000000] on 2024-01-01 the cutoff would lie
    after the year 9999: every snapshot of the response was created
    strictly before [now] minus the threshold, yet
    [datetime.now() - timedelta(days=days)] raises [OverflowError], the
    [except] of the finder catches it, and both finders return the empty
    list. *)
Lemma unrepresentable_cutoff_finds_no_snapshot :
  snapshots_response Sample.calm
    (aws_cleaner.AWSResourceCleaner.ec2_client
       (aws_cleaner.AWSResourceCleaner.mk_cleaner "us-east-1" true))
    ([] ++ [Now])
  = Ok [Sample.old_snapshot; Sample.edge_snapshot; Sample.new_snapshot] /\
  replace_tzinfo_None (snap_StartTime Sample.old_snapshot)
  < clock Sample.calm [] - (-3000000) * us_per_day /\
  timedelta_days (-3000000) = Ok (-3000000 * us_per_day) /\
  datetime_sub (clock Sample.calm []) (-3000000 * us_per_day)
  = Raise "date value out of range" /\
  fst (aws_cleaner.AWSResourceCleaner.find_old_snapshots
         Sample.calm (aws_cleaner.AWSResourceCleaner.mk_cleaner "us-east-1" true)
         (-3000000) [])
  = [] /\
  fst (lambda_function.LambdaResourceCleaner.find_old_snapshots
         Sample.calm (lambda_function.LambdaResourceCleaner.mk_cleaner (PStr "us-east-1"))
         (PInt (-3000000)) [])
  = [] /\
  ~ In (cli_snapshot_of Sample.old_snapshot)
       (fst (aws_cleaner.AWSResourceCleaner.find_old_snapshots
               Sample.calm (aws_cleaner.AWSResourceCleaner.mk_cleaner "us-east-1" true)
               (-3000000) [])).
Proof.
  split; [reflexivity|].
  split; [vm_compute; reflexivity|].
  split; [reflexivity|].
  split; [vm_compute; reflexivity|].
  split; [vm_compute; reflexivity|].
  split; [vm_compute; reflexivity|].
  vm_compute. intros [].
Qed.

(** ** Stopped instances *)

(** What the event-driven finder keeps, when the provider honours the
    filter on the state and instance identifiers are distinct. *)
Lemma lambda_find_stopped_instances_includes_iff
      (w : World) (h : History) (days : Z) (reservations : list Reservation)
      (lam : lambda_function.LambdaResourceCleaner.t) :
  0 <= days ->
  datetime_ok (clock w h) = true ->
  Forall (fun i => datetime_ok (wall (inst_LaunchTime i)) = true)
         (instances_of reservations) ->
  Forall (fun i => inst_State i = "stopped") (instances_of reservations) ->
  NoDup (map inst_InstanceId (instances_of reservations)) ->
  instances_response w (lambda_function.LambdaResourceCleaner.ec2_client lam) (h ++ [Now])
  = Ok reservations ->
  forall i : Instance,
    In i (instances_of reservations) ->
    (In (lambda_instance_of w i)
        (fst (lambda_function.LambdaResourceCleaner.find_stopped_instances
                w lam (PInt days) h))
     <-> inst_State i = "stopped" /\
         replace_tzinfo_None (inst_LaunchTime i) < clock w h - days * us_per_day).
Proof.
  intros Hdays Hnow Hvalid Hstate Hnd Hresp i Hi.
  rewrite lambda_find_stopped_instances_eq, Hresp.
  rewrite Forall_forall in Hvalid, Hstate.
  pose proof (Hvalid i Hi) as Hv. pose proof (Hstate i Hi) as Hst.
  unfold datetime_ok in Hv. apply andb_true_iff in Hv. destruct Hv as [H0 _].
  apply Z.leb_le in H0. unfold replace_tzinfo_None.
  pose proof (cutoff_date_spec (clock w h) days Hdays Hnow) as Hc.
  destruct (cutoff_date (clock w h) days) as [c|].
  - subst c. split.
    + intro Hin. apply in_map_iff in Hin. destruct Hin as [i' [Heq Hin]].
      apply filter_In in Hin. destruct Hin as [Hin Hold]. apply Z.ltb_lt in Hold.
      unfold lambda_instance_of in Heq. injection Heq as Hid _ _ _ _.
      assert (i' = i) by (eapply in_same_key; eauto). subst i'. now split.
    + intros [_ Hold]. apply in_map. apply filter_In. split; [exact Hi|].
      now apply Z.ltb_lt.
  - simpl. split; [contradiction|]. intros [_ Hold]. lia.
Qed.

(** C3.  The interactive finder of stopped instances returns nothing for
    a response whose only instance is in state "stopped", was launched
    two years before [now] and stopped the day before it, with a
    threshold of seven days. *)
Theorem cli_find_stopped_instances_misses_old_stopped_instance :
  instances_response Sample.calm (PStr "us-east-1") [Now]
  = Ok [mk_Reservation [Sample.old_instance]] /\
  inst_State Sample.old_instance = "stopped" /\
  replace_tzinfo_None (inst_LaunchTime Sample.old_instance)
  < clock Sample.calm [] - 7 * us_per_day /\
  fst (aws_cleaner.AWSResourceCleaner.find_stopped_instances
         Sample.calm (aws_cleaner.AWSResourceCleaner.mk_cleaner "us-east-1" false) 7 [])
  = [].
Proof.
  split; [reflexivity|]. split; [reflexivity|]. split; [reflexivity|].
  vm_compute. reflexivity.
Qed.

(** C2.  On one and the same provider response and threshold the
    interactive finder of stopped instances returns no candidate and the
    event-driven one returns the instance. *)
Theorem cli_and_lambda_find_stopped_instances_differ :
  fst (aws_cleaner.AWSResourceCleaner.find_stopped_instances
         Sample.calm (aws_cleaner.AWSResourceCleaner.mk_cleaner "us-east-1" true) 30 [])
  = [] /\
  fst (lambda_function.LambdaResourceCleaner.find_stopped_instances
         Sample.calm (lambda_function.LambdaResourceCleaner.mk_cleaner (PStr "us-east-1"))
         (PInt 30) [])
  = [lambda_instance_of Sample.calm Sample.old_instance].
Proof. split; vm_compute; reflexivity. Qed.

(** ** Releasing addresses *)

Lemma flat_map_singleton {X Y : Type} (f : X -> Y) (xs : list X) :
  flat_map (fun x => [f x]) xs = map f xs.
Proof. induction xs as [|x xs IH]; simpl; [reflexivity|now rewrite IH]. Qed.

Lemma mutations_mutate (w : World) (r : pyval) (c : Call) (h : History) :
  mutating c = true ->
  mutations (snd (mutate w r c h)) = mutations h ++ [(r, c)].
Proof.
  intro Hc. unfold mutate, bind, ask, emit, ret. simpl.
  rewrite mutations_app. simpl. now rewrite Hc.
Qed.

Lemma release_of_mutating (domain : string) (a p : option string) :
  mutating (release_of domain a p) = true.
Proof. unfold release_of. destruct (domain =? "vpc")%string; reflexivity. Qed.

(** In live mode the interactive cleaner issues one release per
    candidate, in order, whether or not the releases succeed. *)
Lemma cli_clean_elastic_ips_calls (w : World) (r : string)
      (eips : list aws_cleaner.ElasticIp) (h : History) :
  mutations (snd (aws_cleaner.AWSResourceCleaner.clean_elastic_ips
                    w (aws_cleaner.AWSResourceCleaner.mk_cleaner r false) eips h))
  = mutations h
    ++ map (fun eip => (PStr r, release_of (aws_cleaner.Domain eip)
                                           (aws_cleaner.AllocationId eip)
                                           (aws_cleaner.PublicIp eip)))
           eips.
Proof.
  unfold aws_cleaner.AWSResourceCleaner.clean_elastic_ips.
  rewrite <- flat_map_singleton. apply for_each_mutations.
  intros eip acc h0. cbn [aws_cleaner.AWSResourceCleaner.dry_run].
  unfold bind at 1.
  assert (Hcall :
    (if (aws_cleaner.Domain eip =? "vpc")%string
     then mutate w (aws_cleaner.AWSResourceCleaner.ec2_client
                      (aws_cleaner.AWSResourceCleaner.mk_cleaner r false))
                 (release_address_AllocationId (aws_cleaner.AllocationId eip))
     else mutate w (aws_cleaner.AWSResourceCleaner.ec2_client
                      (aws_cleaner.AWSResourceCleaner.mk_cleaner r false))
                 (release_address_PublicIp (aws_cleaner.PublicIp eip)))
    = mutate w (PStr r) (release_of (aws_cleaner.Domain eip)
                                    (aws_cleaner.AllocationId eip)
                                    (aws_cleaner.PublicIp eip))).
  { unfold release_of. destruct (aws_cleaner.Domain eip =? "vpc")%string; reflexivity. }
  rewrite Hcall.
  pose proof (mutations_mutate w (PStr r) _ h0
                (release_of_mutating (aws_cleaner.Domain eip)
                                     (aws_cleaner.AllocationId eip)
                                     (aws_cleaner.PublicIp eip))) as Hm.
  destruct (mutate w (PStr r) _ h0) as [raised h1]. simpl in Hm.
  destruct raised as [e|]; unfold bind, print, emit, ret; simpl;
    rewrite mutations_app; simpl; rewrite app_nil_r; exact Hm.
Qed.

(** So does the event-driven block, on the candidates its finder
    returns. *)
Lemma lambda_cleanup_eips_calls (w : World)
      (self : lambda_function.LambdaResourceCleaner.t)
      (config : list (string * pyval)) (dry_run : pyval)
      (results : lambda_function.Results) (h : History) :
  truthy (dict_get "clean_eips" (PBool false) config) = true ->
  truthy dry_run = false ->
  mutations (snd (lambda_function.LambdaResourceCleaner.cleanup_eips
                    w self config dry_run results h))
  = mutations h
    ++ map (fun eip => (lambda_function.LambdaResourceCleaner.ec2_client self,
                        release_of (lambda_function.Domain eip)
                                   (lambda_function.AllocationId eip)
                                   (lambda_function.PublicIp eip)))
           (fst (lambda_function.LambdaResourceCleaner.find_unused_elastic_ips w self h)).
Proof.
  intros Hon Hlive. unfold lambda_function.LambdaResourceCleaner.cleanup_eips.
  rewrite Hon, Hlive. cbn [negb]. unfold bind at 1.
  pose proof (silent_lambda_find_unused_elastic_ips w self h) as Hfind.
  destruct (lambda_function.LambdaResourceCleaner.find_unused_elastic_ips w self h)
    as [eips h1]. simpl in Hfind. cbn [fst]. rewrite <- Hfind.
  rewrite <- flat_map_singleton. apply for_each_mutations.
  intros eip acc h0. unfold bind at 1.
  assert (Hcall :
    (if (lambda_function.Domain eip =? "vpc")%string
     then mutate w (lambda_function.LambdaResourceCleaner.ec2_client self)
                 (release_address_AllocationId (lambda_function.AllocationId eip))
     else mutate w (lambda_function.LambdaResourceCleaner.ec2_client self)
                 (release_address_PublicIp (lambda_function.PublicIp eip)))
    = mutate w (lambda_function.LambdaResourceCleaner.ec2_client self)
             (release_of (lambda_function.Domain eip)
                         (lambda_function.AllocationId eip)
                         (lambda_function.PublicIp eip))).
  { unfold release_of. destruct (lambda_function.Domain eip =? "vpc")%string; reflexivity. }
  rewrite Hcall.
  pose proof (mutations_mutate w (lambda_function.LambdaResourceCleaner.ec2_client self)
                _ h0
                (release_of_mutating (lambda_function.Domain eip)
                                     (lambda_function.AllocationId eip)
                                     (lambda_function.PublicIp eip))) as Hm.
  destruct (mutate w _ _ h0) as [raised h2]. simpl in Hm.
  destruct raised as [e|]; unfold ret; simpl; exact Hm.
Qed.

Lemma nth_error_after {X : Type} (before l : list X) (i : nat) :
  nth_error (before ++ l) (List.length before + i) = nth_error l i.
Proof.
  rewrite nth_error_app2 by lia. f_equal. lia.
Qed.

(** C6.  In live mode the call that releases a candidate is
    release-by-allocation-id when its domain is "vpc" and
    release-by-public-address when it is "classic"; a response entry
    without a domain becomes a candidate of domain "classic".  This holds
    for the interactive cleaner on any candidate list, and for the
    event-driven block on the unattached addresses of the response it
    reads. *)
Theorem release_call_follows_domain :
  forall (w : World) (h : History),
    (forall (r : string) (eips : list aws_cleaner.ElasticIp) (i : nat)
            (eip : aws_cleaner.ElasticIp),
        nth_error eips i = Some eip ->
        let calls :=
          mutations (snd (aws_cleaner.AWSResourceCleaner.clean_elastic_ips
                            w (aws_cleaner.AWSResourceCleaner.mk_cleaner r false)
                            eips h)) in
        let k := (List.length (mutations h) + i)%nat in
        (aws_cleaner.Domain eip = "vpc" ->
         nth_error calls k
         = Some (PStr r, release_address_AllocationId (aws_cleaner.AllocationId eip))) /\
        (aws_cleaner.Domain eip = "classic" ->
         nth_error calls k
         = Some (PStr r, release_address_PublicIp (aws_cleaner.PublicIp eip)))) /\
    (forall (self : aws_cleaner.AWSResourceCleaner.t) (addresses : list Address)
            (i : nat) (a : Address),
        addresses_response w (aws_cleaner.AWSResourceCleaner.ec2_client self) h
        = Ok addresses ->
        nth_error (filter unattached addresses) i = Some a ->
        exists eip,
          nth_error (fst (aws_cleaner.AWSResourceCleaner.find_unused_elastic_ips
                            w self h)) i = Some eip /\
          aws_cleaner.AllocationId eip = addr_AllocationId a /\
          aws_cleaner.PublicIp eip = addr_PublicIp a /\
          (forall d, addr_Domain a = Some d -> aws_cleaner.Domain eip = d) /\
          (addr_Domain a = None -> aws_cleaner.Domain eip = "classic")) /\
    (forall (self : lambda_function.LambdaResourceCleaner.t)
            (config : list (string * pyval)) (dry_run : pyval)
            (results : lambda_function.Results)
            (addresses : list Address) (i : nat) (a : Address),
        truthy (dict_get "clean_eips" (PBool false) config) = true ->
        truthy dry_run = false ->
        addresses_response w (lambda_function.LambdaResourceCleaner.ec2_client self) h
        = Ok addresses ->
        nth_error (filter unattached addresses) i = Some a ->
        let calls :=
          mutations (snd (lambda_function.LambdaResourceCleaner.cleanup_eips
                            w self config dry_run results h)) in
        let k := (List.length (mutations h) + i)%nat in
        (addr_Domain a = Some "vpc" ->
         nth_error calls k
         = Some (lambda_function.LambdaResourceCleaner.ec2_client self,
                 release_address_AllocationId (addr_AllocationId a))) /\
        (addr_Domain a = Some "classic" \/ addr_Domain a = None ->
         nth_error calls k
         = Some (lambda_function.LambdaResourceCleaner.ec2_client self,
                 release_address_PublicIp (addr_PublicIp a)))).
Proof.
  intros w h. split; [|split].
  - intros r eips i eip Hi calls k. subst calls k.
    rewrite cli_clean_elastic_ips_calls, nth_error_after.
    rewrite nth_error_map, Hi. simpl. unfold release_of.
    split; intro Hd; rewrite Hd; reflexivity.
  - intros self addresses i a Hresp Hi.
    rewrite cli_find_unused_elastic_ips_eq, Hresp. cbn [fst].
    exists (cli_eip_of a). rewrite nth_error_map, Hi. simpl.
    repeat split; intros; unfold cli_eip_of; simpl;
      match goal with H : addr_Domain a = _ |- _ => now rewrite H end.
  - intros self config dry_run results addresses i a Hon Hlive Hresp Hi calls k.
    subst calls k.
    rewrite (lambda_cleanup_eips_calls w self config dry_run results h Hon Hlive).
    rewrite nth_error_after, lambda_find_unused_elastic_ips_eq, Hresp. cbn [fst].
    rewrite !nth_error_map, Hi. simpl. unfold release_of.
    split.
    + intro Hd. now rewrite Hd.
    + intros [Hd|Hd]; now rewrite Hd.
Qed.

(** The address whose response entry has no domain is released by its
    public address. *)
Lemma release_call_follows_domain_witness :
  nth_error (filter unattached
                    [Sample.vpc_address; Sample.attached_address; Sample.bare_address])
            1
  = Some Sample.bare_address /\
  nth_error
    (mutations
       (snd (lambda_function.LambdaResourceCleaner.cleanup_eips
               Sample.mixed
               (lambda_function.LambdaResourceCleaner.mk_cleaner (PStr "us-east-1"))
               [("clean_eips", PBool true)] (PBool false)
               (lambda_function.mk_Results (PStr "us-east-1") EmptyString
                                           (lambda_function.mk_Cleaned 0 0 0) [])
               [])))
    (List.length (mutations []) + 1)
  = Some (lambda_function.LambdaResourceCleaner.ec2_client
            (lambda_function.LambdaResourceCleaner.mk_cleaner (PStr "us-east-1")),
          release_address_PublicIp (addr_PublicIp Sample.bare_address)).
Proof.
  split; [reflexivity|].
  exact (proj2 (proj2 (proj2 (release_call_follows_domain Sample.mixed []))
                      (lambda_function.LambdaResourceCleaner.mk_cleaner (PStr "us-east-1"))
                      [("clean_eips", PBool true)] (PBool false)
                      (lambda_function.mk_Results (PStr "us-east-1") EmptyString
                                                  (lambda_function.mk_Cleaned 0 0 0) [])
                      [Sample.vpc_address; Sample.attached_address; Sample.bare_address]
                      1%nat Sample.bare_address eq_refl eq_refl eq_refl eq_refl)
               (or_intror eq_refl)).
Defined.

(** ** One failing item *)

(** A loop whose passes are known: each good item moves the state by
    [next] and adds [events] to the history. *)
Lemma for_each_steps {X S : Type} (body : X -> S -> M S) (good : X -> Prop)
      (next : X -> S -> S) (events : X -> History) :
  (forall y acc h, good y -> body y acc h = (next y acc, h ++ events y)) ->
  forall ys, (forall y, In y ys -> good y) ->
  forall acc h,
    for_each ys body acc h
    = (fold_left (fun a y => next y a) ys acc, h ++ flat_map events ys).
Proof.
  intros Hstep ys; induction ys as [|y ys IH]; intros Hgood acc h; simpl.
  - unfold ret. now rewrite app_nil_r.
  - unfold bind. rewrite Hstep by (apply Hgood; now left).
    rewrite IH by (intros z Hz; apply Hgood; now right).
    now rewrite <- app_assoc.
Qed.

(** The same loop around one item [x] that goes wrong. *)
Lemma for_each_one_bad {X S : Type} (body : X -> S -> M S) (good : X -> Prop)
      (next : X -> S -> S) (events : X -> History)
      (x : X) (skip : S -> S) (bad_events : History) :
  (forall y acc h, good y -> body y acc h = (next y acc, h ++ events y)) ->
  (forall acc h, body x acc h = (skip acc, h ++ bad_events)) ->
  forall before after, (forall y, In y (before ++ after) -> good y) ->
  forall acc h,
    for_each (before ++ x :: after) body acc h
    = (fold_left (fun a y => next y a) after
                 (skip (fold_left (fun a y => next y a) before acc)),
       h ++ flat_map events before ++ bad_events ++ flat_map events after).
Proof.
  intros Hstep Hbad before after Hgood acc h.
  rewrite for_each_app.
  rewrite (for_each_steps body good next events Hstep)
    by (intros y Hy; apply Hgood, in_or_app; now left).
  simpl. unfold bind. rewrite Hbad.
  rewrite (for_each_steps body good next events Hstep)
    by (intros y Hy; apply Hgood, in_or_app; now right).
  now rewrite <- !app_assoc.
Qed.

Lemma fold_left_succ {X : Type} (ys : list X) (n : nat) :
  fold_left (fun a _ => (a + 1)%nat) ys n = (n + List.length ys)%nat.
Proof.
  revert n; induction ys as [|y ys IH]; intro n; simpl; [lia|].
  rewrite IH. lia.
Qed.

Lemma cli_clean_elastic_ips_one_failure
      (w : World) (bad : Call) (e : string) (r : string)
      (before : list aws_cleaner.ElasticIp) (x : aws_cleaner.ElasticIp)
      (after : list aws_cleaner.ElasticIp) (h : History) :
  (forall region h', mutation_error w region bad h' = Some e) ->
  (forall region c h', c <> bad -> mutation_error w region c h' = None) ->
  release_of (aws_cleaner.Domain x) (aws_cleaner.AllocationId x) (aws_cleaner.PublicIp x)
  = bad ->
  (forall y, In y (before ++ after) ->
             release_of (aws_cleaner.Domain y) (aws_cleaner.AllocationId y)
                        (aws_cleaner.PublicIp y) <> bad) ->
  aws_cleaner.AWSResourceCleaner.clean_elastic_ips
    w (aws_cleaner.AWSResourceCleaner.mk_cleaner r false) (before ++ x :: after) h
  = ((List.length before + List.length after)%nat,
     h ++ flat_map (fun y =>
                      [Api (PStr r) (release_of (aws_cleaner.Domain y)
                                                (aws_cleaner.AllocationId y)
                                                (aws_cleaner.PublicIp y));
                       Print (aws_cleaner.Fore.GREEN ++ "Released EIP: "
                              ++ fmt_opt (aws_cleaner.PublicIp y)
                              ++ aws_cleaner.Style.RESET_ALL)%string]) before
       ++ [Api (PStr r) bad;
           Print (aws_cleaner.Fore.RED ++ "Error releasing EIP "
                  ++ fmt_opt (aws_cleaner.PublicIp x) ++ ": " ++ e
                  ++ aws_cleaner.Style.RESET_ALL)%string]
       ++ flat_map (fun y =>
                      [Api (PStr r) (release_of (aws_cleaner.Domain y)
                                                (aws_cleaner.AllocationId y)
                                                (aws_cleaner.PublicIp y));
                       Print (aws_cleaner.Fore.GREEN ++ "Released EIP: "
                              ++ fmt_opt (aws_cleaner.PublicIp y)
                              ++ aws_cleaner.Style.RESET_ALL)%string]) after).
Proof.
  intros Hbad Hgood Hx Hothers.
  unfold aws_cleaner.AWSResourceCleaner.clean_elastic_ips.
  rewrite for_each_one_bad
    with (good := fun y => release_of (aws_cleaner.Domain y) (aws_cleaner.AllocationId y)
                                      (aws_cleaner.PublicIp y) <> bad)
         (next := fun _ n => (n + 1)%nat)
         (events := fun y =>
                      [Api (PStr r) (release_of (aws_cleaner.Domain y)
                                                (aws_cleaner.AllocationId y)
                                                (aws_cleaner.PublicIp y));
                       Print (aws_cleaner.Fore.GREEN ++ "Released EIP: "
                              ++ fmt_opt (aws_cleaner.PublicIp y)
                              ++ aws_cleaner.Style.RESET_ALL)%string])
         (skip := fun n => n)
         (bad_events :=
            [Api (PStr r) bad;
             Print (aws_cleaner.Fore.RED ++ "Error releasing EIP "
                    ++ fmt_opt (aws_cleaner.PublicIp x) ++ ": " ++ e
                    ++ aws_cleaner.Style.RESET_ALL)%string]).
  - rewrite !fold_left_succ. f_equal.
  - intros y acc h0 Hy. cbn [aws_cleaner.AWSResourceCleaner.dry_run].
    unfold release_of in *. unfold bind, mutate, ask, emit, ret, print.
    destruct (aws_cleaner.Domain y =? "vpc")%string; simpl;
      rewrite (Hgood _ _ h0 Hy); simpl; now rewrite <- app_assoc.
  - intros acc h0. cbn [aws_cleaner.AWSResourceCleaner.dry_run].
    rewrite <- Hx in *. unfold release_of in *. unfold bind, mutate, ask, emit, ret, print.
    destruct (aws_cleaner.Domain x =? "vpc")%string; simpl;
      rewrite (Hbad _ h0); simpl; now rewrite <- app_assoc.
  - exact Hothers.
Qed.

Lemma cli_clean_snapshots_one_failure
      (w : World) (bad : Call) (e : string) (r : string)
      (before : list aws_cleaner.OldSnapshot) (x : aws_cleaner.OldSnapshot)
      (after : list aws_cleaner.OldSnapshot) (h : History) :
  (forall region h', mutation_error w region bad h' = Some e) ->
  (forall region c h', c <> bad -> mutation_error w region c h' = None) ->
  delete_snapshot (aws_cleaner.SnapshotId x) = bad ->
  (forall y, In y (before ++ after) -> delete_snapshot (aws_cleaner.SnapshotId y) <> bad) ->
  aws_cleaner.AWSResourceCleaner.clean_snapshots
    w (aws_cleaner.AWSResourceCleaner.mk_cleaner r false) (before ++ x :: after) h
  = ((List.length before + List.length after)%nat,
     h ++ flat_map (fun y =>
                      [Api (PStr r) (delete_snapshot (aws_cleaner.SnapshotId y));
                       Print (aws_cleaner.Fore.GREEN ++ "Deleted snapshot: "
                              ++ aws_cleaner.SnapshotId y ++ " ("
                              ++ str_of_Z (aws_cleaner.VolumeSize y) ++ "GB)"
                              ++ aws_cleaner.Style.RESET_ALL)%string]) before
       ++ [Api (PStr r) bad;
           Print (aws_cleaner.Fore.RED ++ "Error deleting snapshot "
                  ++ aws_cleaner.SnapshotId x ++ ": " ++ e
                  ++ aws_cleaner.Style.RESET_ALL)%string]
       ++ flat_map (fun y =>
                      [Api (PStr r) (delete_snapshot (aws_cleaner.SnapshotId y));
                       Print (aws_cleaner.Fore.GREEN ++ "Deleted snapshot: "
                              ++ aws_cleaner.SnapshotId y ++ " ("
                              ++ str_of_Z (aws_cleaner.VolumeSize y) ++ "GB)"
                              ++ aws_cleaner.Style.RESET_ALL)%string]) after).
Proof.
  intros Hbad Hgood Hx Hothers.
  unfold aws_cleaner.AWSResourceCleaner.clean_snapshots.
  rewrite for_each_one_bad
    with (good := fun y => delete_snapshot (aws_cleaner.SnapshotId y) <> bad)
         (next := fun _ n => (n + 1)%nat)
         (events := fun y =>
                      [Api (PStr r) (delete_snapshot (aws_cleaner.SnapshotId y));
                       Print (aws_cleaner.Fore.GREEN ++ "Deleted snapshot: "
                              ++ aws_cleaner.SnapshotId y ++ " ("
                              ++ str_of_Z (aws_cleaner.VolumeSize y) ++ "GB)"
                              ++ aws_cleaner.Style.RESET_ALL)%string])
         (skip := fun n => n)
         (bad_events :=
            [Api (PStr r) bad;
             Print (aws_cleaner.Fore.RED ++ "Error deleting snapshot "
                    ++ aws_cleaner.SnapshotId x ++ ": " ++ e
                    ++ aws_cleaner.Style.RESET_ALL)%string]).
  - rewrite !fold_left_succ. f_equal.
  - intros y acc h0 Hy. cbn [aws_cleaner.AWSResourceCleaner.dry_run].
    unfold bind, mutate, ask, emit, ret, print. simpl.
    rewrite (Hgood _ _ h0 Hy). simpl. now rewrite <- app_assoc.
  - intros acc h0. cbn [aws_cleaner.AWSResourceCleaner.dry_run].
    rewrite <- Hx in *. unfold bind, mutate, ask, emit, ret, print. simpl.
    rewrite (Hbad _ h0). simpl. now rewrite <- app_assoc.
  - exact Hothers.
Qed.

Lemma cli_clean_stopped_instances_one_failure
      (w : World) (bad : Call) (e : string) (r : string)
      (before : list aws_cleaner.StoppedInstance) (x : aws_cleaner.StoppedInstance)
      (after : list aws_cleaner.StoppedInstance) (h : History) :
  (forall region h', mutation_error w region bad h' = Some e) ->
  (forall region c h', c <> bad -> mutation_error w region c h' = None) ->
  (forall prompt h', operator w prompt h' = true) ->
  terminate_instances [aws_cleaner.InstanceId x] = bad ->
  (forall y, In y (before ++ after) ->
             terminate_instances [aws_cleaner.InstanceId y] <> bad) ->
  aws_cleaner.AWSResourceCleaner.clean_stopped_instances
    w (aws_cleaner.AWSResourceCleaner.mk_cleaner r false) (before ++ x :: after) h
  = ((List.length before + List.length after)%nat,
     h ++ flat_map (fun y =>
                      [Confirm ("Are you sure you want to terminate "
                                ++ aws_cleaner.InstanceId y ++ " ("
                                ++ aws_cleaner.Name y ++ ")?")%string true;
                       Api (PStr r) (terminate_instances [aws_cleaner.InstanceId y]);
                       Print (aws_cleaner.Fore.GREEN ++ "Terminated instance: "
                              ++ aws_cleaner.InstanceId y ++ " ("
                              ++ aws_cleaner.Name y ++ ")"
                              ++ aws_cleaner.Style.RESET_ALL)%string]) before
       ++ [Confirm ("Are you sure you want to terminate "
                    ++ aws_cleaner.InstanceId x ++ " ("
                    ++ aws_cleaner.Name x ++ ")?")%string true;
           Api (PStr r) bad;
           Print (aws_cleaner.Fore.RED ++ "Error terminating instance "
                  ++ aws_cleaner.InstanceId x ++ ": " ++ e
                  ++ aws_cleaner.Style.RESET_ALL)%string]
       ++ flat_map (fun y =>
                      [Confirm ("Are you sure you want to terminate "
                                ++ aws_cleaner.InstanceId y ++ " ("
                                ++ aws_cleaner.Name y ++ ")?")%string true;
                       Api (PStr r) (terminate_instances [aws_cleaner.InstanceId y]);
                       Print (aws_cleaner.Fore.GREEN ++ "Terminated instance: "
                              ++ aws_cleaner.InstanceId y ++ " ("
                              ++ aws_cleaner.Name y ++ ")"
                              ++ aws_cleaner.Style.RESET_ALL)%string]) after).
Proof.
  intros Hbad Hgood Hyes Hx Hothers.
  unfold aws_cleaner.AWSResourceCleaner.clean_stopped_instances.
  rewrite for_each_one_bad
    with (good := fun y => terminate_instances [aws_cleaner.InstanceId y] <> bad)
         (next := fun _ n => (n + 1)%nat)
         (events := fun y =>
                      [Confirm ("Are you sure you want to terminate "
                                ++ aws_cleaner.InstanceId y ++ " ("
                                ++ aws_cleaner.Name y ++ ")?")%string true;
                       Api (PStr r) (terminate_instances [aws_cleaner.InstanceId y]);
                       Print (aws_cleaner.Fore.GREEN ++ "Terminated instance: "
                              ++ aws_cleaner.InstanceId y ++ " ("
                              ++ aws_cleaner.Name y ++ ")"
                              ++ aws_cleaner.Style.RESET_ALL)%string])
         (skip := fun n => n)
         (bad_events :=
            [Confirm ("Are you sure you want to terminate "
                      ++ aws_cleaner.InstanceId x ++ " ("
                      ++ aws_cleaner.Name x ++ ")?")%string true;
             Api (PStr r) bad;
             Print (aws_cleaner.Fore.RED ++ "Error terminating instance "
                    ++ aws_cleaner.InstanceId x ++ ": " ++ e
                    ++ aws_cleaner.Style.RESET_ALL)%string]).
  - rewrite !fold_left_succ. f_equal.
  - intros y acc h0 Hy. cbn [aws_cleaner.AWSResourceCleaner.dry_run].
    unfold bind, confirm, mutate, ask, emit, ret, print. simpl.
    rewrite Hyes. rewrite (Hgood _ _ _ Hy). simpl. now rewrite <- !app_assoc.
  - intros acc h0. cbn [aws_cleaner.AWSResourceCleaner.dry_run].
    rewrite <- Hx in *. unfold bind, confirm, mutate, ask, emit, ret, print. simpl.
    rewrite Hyes. rewrite (Hbad _ _). simpl. now rewrite <- !app_assoc.
  - exact Hothers.
Qed.

Lemma fold_left_count_eip {X : Type} (ys : list X) (r : lambda_function.Results) :
  fold_left (fun a _ => lambda_function.count_eip a) ys r
  = lambda_function.mk_Results
      (lambda_function.region r) (lambda_function.timestamp r)
      (lambda_function.mk_Cleaned
         (lambda_function.eips (lambda_function.cleaned r) + List.length ys)
         (lambda_function.snapshots (lambda_function.cleaned r))
         (lambda_function.instances (lambda_function.cleaned r)))
      (lambda_function.errors r).
Proof.
  revert r; induction ys as [|y ys IH]; intro r; simpl.
  - destruct r as [rg ts [a b c] es]. simpl. now rewrite Nat.add_0_r.
  - rewrite IH. destruct r as [rg ts [a b c] es]. simpl. f_equal. f_equal. lia.
Qed.

Lemma fold_left_count_snapshot {X : Type} (ys : list X) (r : lambda_function.Results) :
  fold_left (fun a _ => lambda_function.count_snapshot a) ys r
  = lambda_function.mk_Results
      (lambda_function.region r) (lambda_function.timestamp r)
      (lambda_function.mk_Cleaned
         (lambda_function.eips (lambda_function.cleaned r))
         (lambda_function.snapshots (lambda_function.cleaned r) + List.length ys)
         (lambda_function.instances (lambda_function.cleaned r)))
      (lambda_function.errors r).
Proof.
  revert r; induction ys as [|y ys IH]; intro r; simpl.
  - destruct r as [rg ts [a b c] es]. simpl. now rewrite Nat.add_0_r.
  - rewrite IH. destruct r as [rg ts [a b c] es]. simpl. f_equal. f_equal. lia.
Qed.

Lemma fold_left_count_instance {X : Type} (ys : list X) (r : lambda_function.Results) :
  fold_left (fun a _ => lambda_function.count_instance a) ys r
  = lambda_function.mk_Results
      (lambda_function.region r) (lambda_function.timestamp r)
      (lambda_function.mk_Cleaned
         (lambda_function.eips (lambda_function.cleaned r))
         (lambda_function.snapshots (lambda_function.cleaned r))
         (lambda_function.instances (lambda_function.cleaned r) + List.length ys))
      (lambda_function.errors r).
Proof.
  revert r; induction ys as [|y ys IH]; intro r; simpl.
  - destruct r as [rg ts [a b c] es]. simpl. now rewrite Nat.add_0_r.
  - rewrite IH. destruct r as [rg ts [a b c] es]. simpl. f_equal. f_equal. lia.
Qed.

Lemma lambda_cleanup_eips_one_failure
      (w : World) (bad : Call) (e : string)
      (self : lambda_function.LambdaResourceCleaner.t)
      (config : list (string * pyval)) (dry_run : pyval)
      (results : lambda_function.Results)
      (before : list lambda_function.ElasticIp) (x : lambda_function.ElasticIp)
      (after : list lambda_function.ElasticIp) (h h1 : History) :
  (forall region h', mutation_error w region bad h' = Some e) ->
  (forall region c h', c <> bad -> mutation_error w region c h' = None) ->
  truthy (dict_get "clean_eips" (PBool false) config) = true ->
  truthy dry_run = false ->
  lambda_function.LambdaResourceCleaner.find_unused_elastic_ips w self h
  = (before ++ x :: after, h1) ->
  release_of (lambda_function.Domain x) (lambda_function.AllocationId x)
             (lambda_function.PublicIp x) = bad ->
  (forall y, In y (before ++ after) ->
             release_of (lambda_function.Domain y) (lambda_function.AllocationId y)
                        (lambda_function.PublicIp y) <> bad) ->
  lambda_function.LambdaResourceCleaner.cleanup_eips w self config dry_run results h
  = (lambda_function.mk_Results
       (lambda_function.region results) (lambda_function.timestamp results)
       (lambda_function.mk_Cleaned
          (lambda_function.eips (lambda_function.cleaned results)
           + (List.length before + List.length after))
          (lambda_function.snapshots (lambda_function.cleaned results))
          (lambda_function.instances (lambda_function.cleaned results)))
       (lambda_function.errors results
        ++ [("Error releasing EIP " ++ fmt_opt (lambda_function.PublicIp x)
             ++ ": " ++ e)%string]),
     h1 ++ map (fun y => Api (lambda_function.LambdaResourceCleaner.ec2_client self)
                             (release_of (lambda_function.Domain y)
                                         (lambda_function.AllocationId y)
                                         (lambda_function.PublicIp y)))
               (before ++ x :: after)).
Proof.
  intros Hbad Hgood Hon Hlive Hfind Hx Hothers.
  unfold lambda_function.LambdaResourceCleaner.cleanup_eips.
  rewrite Hon, Hlive. cbn [negb]. unfold bind at 1. rewrite Hfind.
  rewrite for_each_one_bad
    with (good := fun y => release_of (lambda_function.Domain y)
                                      (lambda_function.AllocationId y)
                                      (lambda_function.PublicIp y) <> bad)
         (next := fun _ a => lambda_function.count_eip a)
         (events := fun y =>
                      [Api (lambda_function.LambdaResourceCleaner.ec2_client self)
                           (release_of (lambda_function.Domain y)
                                       (lambda_function.AllocationId y)
                                       (lambda_function.PublicIp y))])
         (skip := fun a =>
                    lambda_function.append_error
                      a ("Error releasing EIP " ++ fmt_opt (lambda_function.PublicIp x)
                         ++ ": " ++ e)%string)
         (bad_events := [Api (lambda_function.LambdaResourceCleaner.ec2_client self) bad]).
  - rewrite !fold_left_count_eip. unfold lambda_function.append_error. simpl.
    f_equal.
    + f_equal. f_equal. lia.
    + f_equal. rewrite map_app, !flat_map_singleton. simpl. now rewrite Hx.
  - intros y acc h0 Hy. unfold release_of in *. unfold bind, mutate, ask, emit, ret.
    destruct (lambda_function.Domain y =? "vpc")%string; simpl;
      rewrite (Hgood _ _ h0 Hy); reflexivity.
  - intros acc h0. rewrite <- Hx in *. unfold release_of in *.
    unfold bind, mutate, ask, emit, ret.
    destruct (lambda_function.Domain x =? "vpc")%string; simpl;
      rewrite (Hbad _ h0); reflexivity.
  - exact Hothers.
Qed.

Lemma lambda_cleanup_snapshots_one_failure
      (w : World) (bad : Call) (e : string)
      (self : lambda_function.LambdaResourceCleaner.t)
      (config : list (string * pyval)) (dry_run : pyval)
      (results : lambda_function.Results)
      (before : list lambda_function.OldSnapshot) (x : lambda_function.OldSnapshot)
      (after : list lambda_function.OldSnapshot) (h h1 : History) :
  (forall region h', mutation_error w region bad h' = Some e) ->
  (forall region c h', c <> bad -> mutation_error w region c h' = None) ->
  truthy (dict_get "clean_snapshots" (PBool false) config) = true ->
  truthy dry_run = false ->
  lambda_function.LambdaResourceCleaner.find_old_snapshots
    w self (dict_get "snapshot_days" (PInt 30) config) h
  = (before ++ x :: after, h1) ->
  delete_snapshot (lambda_function.SnapshotId x) = bad ->
  (forall y, In y (before ++ after) ->
             delete_snapshot (lambda_function.SnapshotId y) <> bad) ->
  lambda_function.LambdaResourceCleaner.cleanup_snapshots w self config dry_run results h
  = (lambda_function.mk_Results
       (lambda_function.region results) (lambda_function.timestamp results)
       (lambda_function.mk_Cleaned
          (lambda_function.eips (lambda_function.cleaned results))
          (lambda_function.snapshots (lambda_function.cleaned results)
           + (List.length before + List.length after))
          (lambda_function.instances (lambda_function.cleaned results)))
       (lambda_function.errors results
        ++ [("Error deleting snapshot " ++ lambda_function.SnapshotId x
             ++ ": " ++ e)%string]),
     h1 ++ map (fun y => Api (lambda_function.LambdaResourceCleaner.ec2_client self)
                             (delete_snapshot (lambda_function.SnapshotId y)))
               (before ++ x :: after)).
Proof.
  intros Hbad Hgood Hon Hlive Hfind Hx Hothers.
  unfold lambda_function.LambdaResourceCleaner.cleanup_snapshots.
  rewrite Hon, Hlive. cbn [negb]. unfold bind at 1. rewrite Hfind.
  rewrite for_each_one_bad
    with (good := fun y => delete_snapshot (lambda_function.SnapshotId y) <> bad)
         (next := fun _ a => lambda_function.count_snapshot a)
         (events := fun y =>
                      [Api (lambda_function.LambdaResourceCleaner.ec2_client self)
                           (delete_snapshot (lambda_function.SnapshotId y))])
         (skip := fun a =>
                    lambda_function.append_error
                      a ("Error deleting snapshot " ++ lambda_function.SnapshotId x
                         ++ ": " ++ e)%string)
         (bad_events := [Api (lambda_function.LambdaResourceCleaner.ec2_client self) bad]).
  - rewrite !fold_left_count_snapshot. unfold lambda_function.append_error. simpl.
    f_equal.
    + f_equal. f_equal. lia.
    + f_equal. rewrite map_app, !flat_map_singleton. simpl. now rewrite Hx.
  - intros y acc h0 Hy. unfold bind, mutate, ask, emit, ret. simpl.
    rewrite (Hgood _ _ h0 Hy). reflexivity.
  - intros acc h0. rewrite <- Hx in *. unfold bind, mutate, ask, emit, ret. simpl.
    rewrite (Hbad _ h0). reflexivity.
  - exact Hothers.
Qed.

Lemma lambda_cleanup_instances_one_failure
      (w : World) (bad : Call) (e : string)
      (self : lambda_function.LambdaResourceCleaner.t)
      (config : list (string * pyval)) (dry_run : pyval)
      (results : lambda_function.Results)
      (before : list lambda_function.StoppedInstance)
      (x : lambda_function.StoppedInstance)
      (after : list lambda_function.StoppedInstance) (h h1 : History) :
  (forall region h', mutation_error w region bad h' = Some e) ->
  (forall region c h', c <> bad -> mutation_error w region c h' = None) ->
  truthy (dict_get "clean_instances" (PBool false) config) = true ->
  truthy dry_run = false ->
  lambda_function.LambdaResourceCleaner.find_stopped_instances
    w self (dict_get "instance_days" (PInt 7) config) h
  = (before ++ x :: after, h1) ->
  terminate_instances [lambda_function.InstanceId x] = bad ->
  (forall y, In y (before ++ after) ->
             terminate_instances [lambda_function.InstanceId y] <> bad) ->
  lambda_function.LambdaResourceCleaner.cleanup_instances w self config dry_run results h
  = (lambda_function.mk_Results
       (lambda_function.region results) (lambda_function.timestamp results)
       (lambda_function.mk_Cleaned
          (lambda_function.eips (lambda_function.cleaned results))
          (lambda_function.snapshots (lambda_function.cleaned results))
          (lambda_function.instances (lambda_function.cleaned results)
           + (List.length before + List.length after)))
       (lambda_function.errors results
        ++ [("Error terminating instance " ++ lambda_function.InstanceId x
             ++ ": " ++ e)%string]),
     h1 ++ map (fun y => Api (lambda_function.LambdaResourceCleaner.ec2_client self)
                             (terminate_instances [lambda_function.InstanceId y]))
               (before ++ x :: after)).
Proof.
  intros Hbad Hgood Hon Hlive Hfind Hx Hothers.
  unfold lambda_function.LambdaResourceCleaner.cleanup_instances.
  rewrite Hon, Hlive. cbn [negb]. unfold bind at 1. rewrite Hfind.
  rewrite for_each_one_bad
    with (good := fun y => terminate_instances [lambda_function.InstanceId y] <> bad)
         (next := fun _ a => lambda_function.count_instance a)
         (events := fun y =>
                      [Api (lambda_function.LambdaResourceCleaner.ec2_client self)
                           (terminate_instances [lambda_function.InstanceId y])])
         (skip := fun a =>
                    lambda_function.append_error
                      a ("Error terminating instance " ++ lambda_function.InstanceId x
                         ++ ": " ++ e)%string)
         (bad_events := [Api (lambda_function.LambdaResourceCleaner.ec2_client self) bad]).
  - rewrite !fold_left_count_instance. unfold lambda_function.append_error. simpl.
    f_equal.
    + f_equal. f_equal. lia.
    + f_equal. rewrite map_app, !flat_map_singleton. simpl. now rewrite Hx.
  - intros y acc h0 Hy. unfold bind, mutate, ask, emit, ret. simpl.
    rewrite (Hgood _ _ h0 Hy). reflexivity.
  - intros acc h0. rewrite <- Hx in *. unfold bind, mutate, ask, emit, ret. simpl.
    rewrite (Hbad _ h0). reflexivity.
  - exact Hothers.
Qed.

Lemma mutations_flat_map {X : Type} (events : X -> History) (f : X -> pyval * Call)
      (ys : list X) :
  (forall y, mutations (events y) = [f y]) ->
  mutations (flat_map events ys) = map f ys.
Proof.
  intro Hev. induction ys as [|y ys IH]; simpl; [reflexivity|].
  now rewrite mutations_app, Hev, IH.
Qed.

Lemma mutations_map_api (r : pyval) {X : Type} (call : X -> Call) (ys : list X) :
  (forall y, mutating (call y) = true) ->
  mutations (map (fun y => Api r (call y)) ys) = map (fun y => (r, call y)) ys.
Proof.
  intro Hm. induction ys as [|y ys IH]; simpl; [reflexivity|].
  now rewrite Hm, IH.
Qed.

Lemma length_around {X : Type} (before : list X) (x : X) (after : list X) :
  (List.length (before ++ x :: after) - 1)%nat
  = (List.length before + List.length after)%nat.
Proof. rewrite length_app. simpl. lia. Qed.

(** C4, as the code has it.  Let the provider raise on one call [bad]
    and on no other, and let exactly one candidate [x] of a live run be
    cleaned by that call.  Then every candidate's call is issued, in
    order, and the count is the number of candidates less one: the count
    an interactive cleaner returns (for instances, when the operator
    confirms every item), and the count an event-driven block adds to
    [results], which alone also gains one error message, naming [x]. *)
Theorem one_failing_item_is_isolated :
  forall (w : World) (bad : Call) (e : string),
    (forall region h, mutation_error w region bad h = Some e) ->
    (forall region c h, c <> bad -> mutation_error w region c h = None) ->
    (forall r before x after h,
        release_of (aws_cleaner.Domain x) (aws_cleaner.AllocationId x)
                   (aws_cleaner.PublicIp x) = bad ->
        (forall y, In y (before ++ after) ->
                   release_of (aws_cleaner.Domain y) (aws_cleaner.AllocationId y)
                              (aws_cleaner.PublicIp y) <> bad) ->
        let run := aws_cleaner.AWSResourceCleaner.clean_elastic_ips
                     w (aws_cleaner.AWSResourceCleaner.mk_cleaner r false)
                     (before ++ x :: after) h in
        fst run = (List.length (before ++ x :: after) - 1)%nat /\
        mutations (snd run)
        = mutations h
          ++ map (fun y => (PStr r, release_of (aws_cleaner.Domain y)
                                               (aws_cleaner.AllocationId y)
                                               (aws_cleaner.PublicIp y)))
                 (before ++ x :: after)) /\
    (forall r before x after h,
        delete_snapshot (aws_cleaner.SnapshotId x) = bad ->
        (forall y, In y (before ++ after) ->
                   delete_snapshot (aws_cleaner.SnapshotId y) <> bad) ->
        let run := aws_cleaner.AWSResourceCleaner.clean_snapshots
                     w (aws_cleaner.AWSResourceCleaner.mk_cleaner r false)
                     (before ++ x :: after) h in
        fst run = (List.length (before ++ x :: after) - 1)%nat /\
        mutations (snd run)
        = mutations h
          ++ map (fun y => (PStr r, delete_snapshot (aws_cleaner.SnapshotId y)))
                 (before ++ x :: after)) /\
    (forall r before x after h,
        (forall prompt h', operator w prompt h' = true) ->
        terminate_instances [aws_cleaner.InstanceId x] = bad ->
        (forall y, In y (before ++ after) ->
                   terminate_instances [aws_cleaner.InstanceId y] <> bad) ->
        let run := aws_cleaner.AWSResourceCleaner.clean_stopped_instances
                     w (aws_cleaner.AWSResourceCleaner.mk_cleaner r false)
                     (before ++ x :: after) h in
        fst run = (List.length (before ++ x :: after) - 1)%nat /\
        mutations (snd run)
        = mutations h
          ++ map (fun y => (PStr r, terminate_instances [aws_cleaner.InstanceId y]))
                 (before ++ x :: after)) /\
    (forall self config dry_run results before x after h,
        truthy (dict_get "clean_eips" (PBool false) config) = true ->
        truthy dry_run = false ->
        fst (lambda_function.LambdaResourceCleaner.find_unused_elastic_ips w self h)
        = before ++ x :: after ->
        release_of (lambda_function.Domain x) (lambda_function.AllocationId x)
                   (lambda_function.PublicIp x) = bad ->
        (forall y, In y (before ++ after) ->
                   release_of (lambda_function.Domain y) (lambda_function.AllocationId y)
                              (lambda_function.PublicIp y) <> bad) ->
        let run := lambda_function.LambdaResourceCleaner.cleanup_eips
                     w self config dry_run results h in
        lambda_function.eips (lambda_function.cleaned (fst run))
        = (lambda_function.eips (lambda_function.cleaned results)
           + (List.length (before ++ x :: after) - 1))%nat /\
        lambda_function.errors (fst run)
        = lambda_function.errors results
          ++ [("Error releasing EIP " ++ fmt_opt (lambda_function.PublicIp x)
               ++ ": " ++ e)%string] /\
        mutations (snd run)
        = mutations h
          ++ map (fun y => (lambda_function.LambdaResourceCleaner.ec2_client self,
                            release_of (lambda_function.Domain y)
                                       (lambda_function.AllocationId y)
                                       (lambda_function.PublicIp y)))
                 (before ++ x :: after)) /\
    (forall self config dry_run results before x after h,
        truthy (dict_get "clean_snapshots" (PBool false) config) = true ->
        truthy dry_run = false ->
        fst (lambda_function.LambdaResourceCleaner.find_old_snapshots
               w self (dict_get "snapshot_days" (PInt 30) config) h)
        = before ++ x :: after ->
        delete_snapshot (lambda_function.SnapshotId x) = bad ->
        (forall y, In y (before ++ after) ->
                   delete_snapshot (lambda_function.SnapshotId y) <> bad) ->
        let run := lambda_function.LambdaResourceCleaner.cleanup_snapshots
                     w self config dry_run results h in
        lambda_function.snapshots (lambda_function.cleaned (fst run))
        = (lambda_function.snapshots (lambda_function.cleaned results)
           + (List.length (before ++ x :: after) - 1))%nat /\
        lambda_function.errors (fst run)
        = lambda_function.errors results
          ++ [("Error deleting snapshot " ++ lambda_function.SnapshotId x
               ++ ": " ++ e)%string] /\
        mutations (snd run)
        = mutations h
          ++ map (fun y => (lambda_function.LambdaResourceCleaner.ec2_client self,
                            delete_snapshot (lambda_function.SnapshotId y)))
                 (before ++ x :: after)) /\
    (forall self config dry_run results before x after h,
        truthy (dict_get "clean_instances" (PBool false) config) = true ->
        truthy dry_run = false ->
        fst (lambda_function.LambdaResourceCleaner.find_stopped_instances
               w self (dict_get "instance_days" (PInt 7) config) h)
        = before ++ x :: after ->
        terminate_instances [lambda_function.InstanceId x] = bad ->
        (forall y, In y (before ++ after) ->
                   terminate_instances [lambda_function.InstanceId y] <> bad) ->
        let run := lambda_function.LambdaResourceCleaner.cleanup_instances
                     w self config dry_run results h in
        lambda_function.instances (lambda_function.cleaned (fst run))
        = (lambda_function.instances (lambda_function.cleaned results)
           + (List.length (before ++ x :: after) - 1))%nat /\
        lambda_function.errors (fst run)
        = lambda_function.errors results
          ++ [("Error terminating instance " ++ lambda_function.InstanceId x
               ++ ": " ++ e)%string] /\
        mutations (snd run)
        = mutations h
          ++ map (fun y => (lambda_function.LambdaResourceCleaner.ec2_client self,
                            terminate_instances [lambda_function.InstanceId y]))
                 (before ++ x :: after)).
Proof.
  intros w bad e Hbad Hgood. repeat apply conj.
  - intros r before x after h Hx Hothers run. subst run.
    rewrite cli_clean_elastic_ips_calls.
    rewrite (cli_clean_elastic_ips_one_failure w bad e r before x after h Hbad Hgood Hx Hothers).
    split; [symmetry; apply length_around|reflexivity].
  - intros r before x after h Hx Hothers run. subst run.
    rewrite (cli_clean_snapshots_one_failure w bad e r before x after h Hbad Hgood Hx Hothers).
    cbn [fst snd]. split; [symmetry; apply length_around|].
    rewrite !mutations_app. f_equal.
    rewrite (mutations_flat_map _
               (fun y => (PStr r, delete_snapshot (aws_cleaner.SnapshotId y))))
      by reflexivity.
    rewrite (mutations_flat_map _
               (fun y => (PStr r, delete_snapshot (aws_cleaner.SnapshotId y))))
      by reflexivity.
    rewrite map_app. f_equal. simpl. now rewrite <- Hx.
  - intros r before x after h Hyes Hx Hothers run. subst run.
    rewrite (cli_clean_stopped_instances_one_failure
               w bad e r before x after h Hbad Hgood Hyes Hx Hothers).
    cbn [fst snd]. split; [symmetry; apply length_around|].
    rewrite !mutations_app. f_equal.
    rewrite (mutations_flat_map _
               (fun y => (PStr r, terminate_instances [aws_cleaner.InstanceId y])))
      by reflexivity.
    rewrite (mutations_flat_map _
               (fun y => (PStr r, terminate_instances [aws_cleaner.InstanceId y])))
      by reflexivity.
    rewrite map_app. f_equal. simpl. now rewrite <- Hx.
  - intros self config dry_run results before x after h Hon Hlive Hfind Hx Hothers run.
    subst run.
    pose proof (silent_lambda_find_unused_elastic_ips w self h) as Hsilent.
    destruct (lambda_function.LambdaResourceCleaner.find_unused_elastic_ips w self h)
      as [found h1] eqn:Hrun. simpl in Hfind, Hsilent. subst found.
    rewrite (lambda_cleanup_eips_one_failure
               w bad e self config dry_run results before x after h h1 Hbad Hgood Hon Hlive
               Hrun Hx Hothers).
    cbn [fst snd lambda_function.cleaned lambda_function.eips lambda_function.errors].
    rewrite length_around. repeat split.
    rewrite mutations_app, Hsilent. f_equal.
    apply mutations_map_api. intro y. apply release_of_mutating.
  - intros self config dry_run results before x after h Hon Hlive Hfind Hx Hothers run.
    subst run.
    pose proof (silent_lambda_find_old_snapshots
                  w self (dict_get "snapshot_days" (PInt 30) config) h) as Hsilent.
    destruct (lambda_function.LambdaResourceCleaner.find_old_snapshots
                w self (dict_get "snapshot_days" (PInt 30) config) h)
      as [found h1] eqn:Hrun. simpl in Hfind, Hsilent. subst found.
    rewrite (lambda_cleanup_snapshots_one_failure
               w bad e self config dry_run results before x after h h1 Hbad Hgood Hon Hlive
               Hrun Hx Hothers).
    cbn [fst snd lambda_function.cleaned lambda_function.snapshots
             lambda_function.errors].
    rewrite length_around. repeat split.
    rewrite mutations_app, Hsilent. f_equal.
    apply mutations_map_api. reflexivity.
  - intros self config dry_run results before x after h Hon Hlive Hfind Hx Hothers run.
    subst run.
    pose proof (silent_lambda_find_stopped_instances
                  w self (dict_get "instance_days" (PInt 7) config) h) as Hsilent.
    destruct (lambda_function.LambdaResourceCleaner.find_stopped_instances
                w self (dict_get "instance_days" (PInt 7) config) h)
      as [found h1] eqn:Hrun. simpl in Hfind, Hsilent. subst found.
    rewrite (lambda_cleanup_instances_one_failure
               w bad e self config dry_run results before x after h h1 Hbad Hgood Hon Hlive
               Hrun Hx Hothers).
    cbn [fst snd lambda_function.cleaned lambda_function.instances
             lambda_function.errors].
    rewrite length_around. repeat split.
    rewrite mutations_app, Hsilent. f_equal.
    apply mutations_map_api. reflexivity.
Qed.

(** Three snapshots, of which the second cannot be deleted. *)
Lemma one_failing_item_is_isolated_witness :
  (forall region h,
      mutation_error Sample.flaky region (delete_snapshot "snap-b") h
      = Some "InvalidSnapshot.InUse") /\
  fst (aws_cleaner.AWSResourceCleaner.clean_snapshots
         Sample.flaky (aws_cleaner.AWSResourceCleaner.mk_cleaner "us-east-1" false)
         ([Sample.snap "snap-a"] ++ Sample.snap "snap-b" :: [Sample.snap "snap-c"]) [])
  = (List.length ([Sample.snap "snap-a"] ++ Sample.snap "snap-b" :: [Sample.snap "snap-c"])
     - 1)%nat.
Proof.
  assert (Hbad : forall region h,
             mutation_error Sample.flaky region (delete_snapshot "snap-b") h
             = Some "InvalidSnapshot.InUse") by reflexivity.
  assert (Hgood : forall region c h,
             c <> delete_snapshot "snap-b" ->
             mutation_error Sample.flaky region c h = None).
  { intros region c h Hc. destruct c; try reflexivity. simpl.
    destruct (String.eqb_spec SnapshotId "snap-b") as [Heq|Hne]; [|reflexivity].
    subst. contradiction. }
  assert (Hothers : forall y,
             In y ([Sample.snap "snap-a"] ++ [Sample.snap "snap-c"]) ->
             delete_snapshot (aws_cleaner.SnapshotId y) <> delete_snapshot "snap-b").
  { intros y [Hy|[Hy|[]]]; subst y; discriminate. }
  split; [exact Hbad|].
  exact (proj1 (proj1 (proj2 (one_failing_item_is_isolated
                                Sample.flaky (delete_snapshot "snap-b")
                                "InvalidSnapshot.InUse" Hbad Hgood))
                      "us-east-1" [Sample.snap "snap-a"] (Sample.snap "snap-b")
                      [Sample.snap "snap-c"] [] eq_refl Hothers)).
Defined.

(** C4 as stated fails on the interactive cleaner of instances: of two
    candidates, terminating the first raises and the operator declines
    the second, whose call would have succeeded.  The second is never
    attempted and the count is 0, not 1. *)
Lemma declined_instance_is_neither_attempted_nor_counted :
  (forall h, mutation_error Sample.reluctant (PStr "us-east-1")
                            (terminate_instances ["i-old"]) h
             = Some "OperationNotPermitted") /\
  (forall h, mutation_error Sample.reluctant (PStr "us-east-1")
                            (terminate_instances ["i-two"]) h
             = None) /\
  fst (aws_cleaner.AWSResourceCleaner.clean_stopped_instances
         Sample.reluctant (aws_cleaner.AWSResourceCleaner.mk_cleaner "us-east-1" false)
         [Sample.stopped_old; Sample.stopped_two] [])
  = 0%nat /\
  fst (aws_cleaner.AWSResourceCleaner.clean_stopped_instances
         Sample.reluctant (aws_cleaner.AWSResourceCleaner.mk_cleaner "us-east-1" false)
         [Sample.stopped_old; Sample.stopped_two] [])
  <> (List.length [Sample.stopped_old; Sample.stopped_two] - 1)%nat /\
  mutations
    (snd (aws_cleaner.AWSResourceCleaner.clean_stopped_instances
            Sample.reluctant (aws_cleaner.AWSResourceCleaner.mk_cleaner "us-east-1" false)
            [Sample.stopped_old; Sample.stopped_two] []))
  = [(PStr "us-east-1", terminate_instances ["i-old"])].
Proof.
  split; [reflexivity|]. split; [reflexivity|].
  split; [vm_compute; reflexivity|].
  split; [vm_compute; discriminate|].
  vm_compute. reflexivity.
Qed.

(** ** A declined confirmation in [main] *)

(** C7.  Live, not forced, addresses and snapshots enabled, all regions:
    the operator declines the clean-up of addresses in each of the two
    regions.  No region's snapshots are looked for, although the account
    has an old snapshot; the run goes on to the second region and
    returns.  With an operator who agrees, the snapshots of both regions
    are described and the old one deleted. *)
Theorem declined_confirmation_skips_the_rest_of_the_region :
  api_calls (snd (aws_cleaner.main Sample.wary "us-east-1" true false
                                   true true false 30 false []))
  = [(PStr "us-east-1", describe_regions);
     (PStr "us-east-1", describe_addresses);
     (PStr "eu-west-1", describe_addresses)] /\
  fst (aws_cleaner.main Sample.wary "us-east-1" true false true true false 30 false [])
  = Ok tt /\
  api_calls (snd (aws_cleaner.main Sample.calm "us-east-1" true false
                                   true true false 30 false []))
  = [(PStr "us-east-1", describe_regions);
     (PStr "us-east-1", describe_addresses);
     (PStr "us-east-1", release_address_AllocationId (Some "eipalloc-1"));
     (PStr "us-east-1", describe_snapshots ["self"]);
     (PStr "us-east-1", delete_snapshot "snap-old");
     (PStr "eu-west-1", describe_addresses);
     (PStr "eu-west-1", release_address_AllocationId (Some "eipalloc-1"));
     (PStr "eu-west-1", describe_snapshots ["self"]);
     (PStr "eu-west-1", delete_snapshot "snap-old")].
Proof. repeat split; vm_compute; reflexivity. Qed.

(** ** Malformed events *)

(** C8 as stated fails: a [regions] field that is the empty string is
    not a list, yet the loop over it runs zero times and the handler
    answers 200 with no region processed. *)
Lemma empty_string_regions_completes :
  iter (PStr EmptyString) = Ok [] /\
  fst (lambda_function.lambda_handler Sample.calm (PDict [("regions", PStr EmptyString)]) [])
  = lambda_function.mk_Response
      200
      (lambda_function.Completed "Cleanup completed successfully"
                                 (lambda_function.mk_Cleaned 0 0 0) 0 (PBool true) [] []).
Proof. split; vm_compute; reflexivity. Qed.

(** Nor need the field be empty: over a dict the loop runs on the keys. *)
Example dict_regions_completes :
  lambda_function.statusCode
    (fst (lambda_function.lambda_handler
            Sample.calm (PDict [("regions", PDict [("us-east-1", PBool true)])]) []))
  = 200.
Proof. vm_compute. reflexivity. Qed.

Lemma lambda_handler_status (w : World) (event : pyval) (h : History) :
  lambda_function.statusCode (fst (lambda_function.lambda_handler w event h)) = 200 \/
  lambda_function.statusCode (fst (lambda_function.lambda_handler w event h)) = 500.
Proof.
  unfold lambda_function.lambda_handler.
  destruct (lambda_function.parse_config event) as [config|e]; [|now right].
  destruct (get event "regions" _) as [regions|e]; [|now right].
  destruct (iter regions) as [items|e]; [|now right].
  unfold bind.
  destruct (lambda_function.process_regions w config items [] h) as [[results|e] h1];
    [|now right].
  destruct (lambda_function.aggregate results). now left.
Qed.

(** C8, as the code has it.  The handler always returns a response, of
    status 200 or 500.  When the event is not a dict, or its [regions]
    is a value a loop cannot run over (None, a boolean, a number), the
    response has status 500 and an error string that is not empty, and
    nothing at all has been done. *)
Theorem lambda_handler_fails_on_what_it_cannot_iterate :
  forall (w : World) (event : pyval) (h : History),
    (lambda_function.statusCode (fst (lambda_function.lambda_handler w event h)) = 200 \/
     lambda_function.statusCode (fst (lambda_function.lambda_handler w event h)) = 500) /\
    ((forall d, event = PDict d ->
                iterable (dict_get "regions" (PList [session_region w]) d) = false) ->
     exists error,
       lambda_function.lambda_handler w event h
       = (lambda_function.mk_Response 500 (lambda_function.Failed error "Cleanup failed"),
          h) /\
       error <> EmptyString).
Proof.
  intros w event h. split; [apply lambda_handler_status|].
  intro Hbad. unfold lambda_function.lambda_handler.
  destruct event as [| b | z | s | l | d];
    try (eexists; split; [reflexivity|discriminate]).
  specialize (Hbad d eq_refl).
  destruct (parse_config_dry_run d) as [config [Hparse _]]. rewrite Hparse.
  cbn [get].
  destruct (dict_get "regions" (PList [session_region w]) d) as [| b | z | s | l | d'];
    try discriminate Hbad;
    (eexists; split; [reflexivity|discriminate]).
Qed.

(** An event whose [regions] is a number. *)
Lemma lambda_handler_fails_on_what_it_cannot_iterate_witness :
  (forall d, PDict [("regions", PInt 5)] = PDict d ->
             iterable (dict_get "regions" (PList [session_region Sample.calm]) d) = false) /\
  exists error,
    lambda_function.lambda_handler Sample.calm (PDict [("regions", PInt 5)]) []
    = (lambda_function.mk_Response 500 (lambda_function.Failed error "Cleanup failed"), [])
    /\ error <> EmptyString.
Proof.
  assert (H : forall d, PDict [("regions", PInt 5)] = PDict d ->
                        iterable (dict_get "regions"
                                           (PList [session_region Sample.calm]) d) = false).
  { intros d Hd. injection Hd as Hd. subst d. reflexivity. }
  split; [exact H|].
  exact (proj2 (lambda_handler_fails_on_what_it_cannot_iterate
                  Sample.calm (PDict [("regions", PInt 5)]) []) H).
Defined.

(** What the handler says in that case. *)
Example non_iterable_regions_message :
  fst (lambda_function.lambda_handler Sample.calm (PDict [("regions", PInt 5)]) [])
  = lambda_function.mk_Response
      500 (lambda_function.Failed "'int' object is not iterable" "Cleanup failed").
Proof. vm_compute. reflexivity. Qed.

(** ** Aggregation over the regions *)

Lemma aggregate_from (results : list lambda_function.Results)
      (total : lambda_function.Cleaned) (errs : list string) :
  fold_left
    (fun (acc : lambda_function.Cleaned * list string) result =>
       let (total_cleaned, all_errors) := acc in
       (lambda_function.mk_Cleaned
          (lambda_function.eips total_cleaned
           + lambda_function.eips (lambda_function.cleaned result))
          (lambda_function.snapshots total_cleaned
           + lambda_function.snapshots (lambda_function.cleaned result))
          (lambda_function.instances total_cleaned
           + lambda_function.instances (lambda_function.cleaned result)),
        all_errors ++ lambda_function.errors result))
    results (total, errs)
  = (lambda_function.mk_Cleaned
       (lambda_function.eips total
        + list_sum (map (fun r => lambda_function.eips (lambda_function.cleaned r))
                        results))
       (lambda_function.snapshots total
        + list_sum (map (fun r => lambda_function.snapshots (lambda_function.cleaned r))
                        results))
       (lambda_function.instances total
        + list_sum (map (fun r => lambda_function.instances (lambda_function.cleaned r))
                        results)),
     errs ++ List.concat (map lambda_function.errors results)).
Proof.
  revert total errs. induction results as [|r results IH]; intros total errs; simpl.
  - destruct total. simpl. now rewrite !Nat.add_0_r, app_nil_r.
  - rewrite IH. simpl. f_equal; [f_equal; lia|now rewrite app_assoc].
Qed.

Lemma cleanup_eips_region (w : World) (self : lambda_function.LambdaResourceCleaner.t)
      (config : list (string * pyval)) (dry_run : pyval)
      (results : lambda_function.Results) (h : History) :
  lambda_function.region
    (fst (lambda_function.LambdaResourceCleaner.cleanup_eips w self config dry_run results h))
  = lambda_function.region results.
Proof.
  unfold lambda_function.LambdaResourceCleaner.cleanup_eips.
  destruct (truthy (dict_get "clean_eips" (PBool false) config)); [|reflexivity].
  unfold bind at 1.
  destruct (lambda_function.LambdaResourceCleaner.find_unused_elastic_ips w self h)
    as [found h1].
  apply for_each_keeps
    with (P := fun r => lambda_function.region r = lambda_function.region results);
    [|reflexivity].
  intros eip acc h0 Hacc. destruct (negb (truthy dry_run)); [|exact Hacc].
  unfold bind.
  destruct (lambda_function.Domain eip =? "vpc")%string;
    destruct (mutate w _ _ h0) as [[e|] h2]; exact Hacc.
Qed.

Lemma cleanup_snapshots_region (w : World)
      (self : lambda_function.LambdaResourceCleaner.t)
      (config : list (string * pyval)) (dry_run : pyval)
      (results : lambda_function.Results) (h : History) :
  lambda_function.region
    (fst (lambda_function.LambdaResourceCleaner.cleanup_snapshots
            w self config dry_run results h))
  = lambda_function.region results.
Proof.
  unfold lambda_function.LambdaResourceCleaner.cleanup_snapshots.
  destruct (truthy (dict_get "clean_snapshots" (PBool false) config)); [|reflexivity].
  unfold bind at 1.
  destruct (lambda_function.LambdaResourceCleaner.find_old_snapshots w self _ h)
    as [found h1].
  apply for_each_keeps
    with (P := fun r => lambda_function.region r = lambda_function.region results);
    [|reflexivity].
  intros snapshot acc h0 Hacc. destruct (negb (truthy dry_run)); [|exact Hacc].
  unfold bind. destruct (mutate w _ _ h0) as [[e|] h2]; exact Hacc.
Qed.

Lemma cleanup_instances_region (w : World)
      (self : lambda_function.LambdaResourceCleaner.t)
      (config : list (string * pyval)) (dry_run : pyval)
      (results : lambda_function.Results) (h : History) :
  lambda_function.region
    (fst (lambda_function.LambdaResourceCleaner.cleanup_instances
            w self config dry_run results h))
  = lambda_function.region results.
Proof.
  unfold lambda_function.LambdaResourceCleaner.cleanup_instances.
  destruct (truthy (dict_get "clean_instances" (PBool false) config)); [|reflexivity].
  unfold bind at 1.
  destruct (lambda_function.LambdaResourceCleaner.find_stopped_instances w self _ h)
    as [found h1].
  apply for_each_keeps
    with (P := fun r => lambda_function.region r = lambda_function.region results);
    [|reflexivity].
  intros instance acc h0 Hacc. destruct (negb (truthy dry_run)); [|exact Hacc].
  unfold bind. destruct (mutate w _ _ h0) as [[e|] h2]; exact Hacc.
Qed.

Lemma cleanup_resources_region (w : World)
      (self : lambda_function.LambdaResourceCleaner.t)
      (config : list (string * pyval)) (h : History) :
  lambda_function.region
    (fst (lambda_function.LambdaResourceCleaner.cleanup_resources w self config h))
  = lambda_function.LambdaResourceCleaner.self_region self.
Proof.
  unfold lambda_function.LambdaResourceCleaner.cleanup_resources.
  unfold bind at 1. destruct (now w h) as [t h0].
  unfold bind at 1.
  pose proof (cleanup_eips_region w self config (dict_get "dry_run" (PBool true) config)
                (lambda_function.mk_Results
                   (lambda_function.LambdaResourceCleaner.self_region self)
                   (isoformat w (mk_datetime t None))
                   (lambda_function.mk_Cleaned 0 0 0) []) h0) as H1.
  destruct (lambda_function.LambdaResourceCleaner.cleanup_eips w self config _ _ h0)
    as [r1 h1]. simpl in H1.
  unfold bind at 1.
  pose proof (cleanup_snapshots_region
                w self config (dict_get "dry_run" (PBool true) config) r1 h1) as H2.
  destruct (lambda_function.LambdaResourceCleaner.cleanup_snapshots w self config _ r1 h1)
    as [r2 h2]. simpl in H2.
  unfold bind at 1.
  pose proof (cleanup_instances_region
                w self config (dict_get "dry_run" (PBool true) config) r2 h2) as H3.
  destruct (lambda_function.LambdaResourceCleaner.cleanup_instances w self config _ r2 h2)
    as [r3 h3]. simpl in H3. simpl. congruence.
Qed.

(** The results of the loop over the regions: one per region, in order,
    each for the region it was asked for. *)
Lemma process_regions_results (w : World) (config : list (string * pyval))
      (regions : list pyval) (all_results : list lambda_function.Results)
      (h : History) (results : list lambda_function.Results) :
  fst (lambda_function.process_regions w config regions all_results h) = Ok results ->
  exists added,
    results = all_results ++ added /\
    map lambda_function.region added
    = map (fun region => or_else region (session_region w)) regions.
Proof.
  revert all_results h. induction regions as [|region regions IH];
    intros all_results h Hrun; simpl in Hrun.
  - unfold ret in Hrun. simpl in Hrun. injection Hrun as <-.
    exists []. now rewrite app_nil_r.
  - unfold bind at 1 in Hrun.
    unfold lambda_function.LambdaResourceCleaner.init, bind, ask, ret in Hrun.
    destruct (client_error w (or_else region (session_region w)) h) as [msg|];
      [discriminate Hrun|].
    simpl in Hrun.
    pose proof (cleanup_resources_region
                  w (lambda_function.LambdaResourceCleaner.mk_cleaner
                       (or_else region (session_region w))) config h) as Hregion.
    destruct (lambda_function.LambdaResourceCleaner.cleanup_resources w _ config h)
      as [result h1]. simpl in Hregion.
    apply IH in Hrun. destruct Hrun as [added [Hres Hmap]].
    exists (result :: added). split.
    + now rewrite Hres, <- app_assoc.
    + simpl. now rewrite Hregion, Hmap.
Qed.

Lemma length_chars (s : string) : List.length (chars s) = String.length s.
Proof. induction s as [|c s IH]; simpl; [reflexivity|now rewrite IH]. Qed.

Lemma iter_len (v : pyval) (items : list pyval) :
  iter v = Ok items -> List.length items = len v.
Proof.
  destruct v; simpl; intro H; try discriminate; injection H as <-.
  - now rewrite length_map, length_chars.
  - reflexivity.
  - now rewrite length_map.
Qed.

(** C9.  In a response of status 200, [total_cleaned] is, kind by kind,
    the sum of the counts of the per-region results, which are one per
    requested region, in order; [regions_processed] is the number of
    requested regions, and the errors are those of the regions, in order.
    Two regions that each report one address cleaned, no snapshot and no
    instance add up to two addresses, none, none, with two regions
    processed. *)
Theorem total_cleaned_sums_the_regions :
  (forall (w : World) (event : pyval) (h : History),
      match lambda_function.body (fst (lambda_function.lambda_handler w event h)) with
      | lambda_function.Completed _ total_cleaned regions_processed _
                                  detailed_results errors =>
          lambda_function.eips total_cleaned
          = list_sum (map (fun r => lambda_function.eips (lambda_function.cleaned r))
                          detailed_results) /\
          lambda_function.snapshots total_cleaned
          = list_sum (map (fun r => lambda_function.snapshots (lambda_function.cleaned r))
                          detailed_results) /\
          lambda_function.instances total_cleaned
          = list_sum (map (fun r => lambda_function.instances (lambda_function.cleaned r))
                          detailed_results) /\
          errors = List.concat (map lambda_function.errors detailed_results) /\
          exists d requested,
            event = PDict d /\
            iter (dict_get "regions" (PList [session_region w]) d) = Ok requested /\
            regions_processed = List.length requested /\
            map lambda_function.region detailed_results
            = map (fun region => or_else region (session_region w)) requested
      | lambda_function.Failed _ _ => True
      end) /\
  (exists timestamp1 timestamp2,
      fst (lambda_function.lambda_handler
             Sample.calm
             (PDict [("regions", PList [PStr "us-east-1"; PStr "eu-west-1"]);
                     ("clean_eips", PBool true)])
             [])
      = lambda_function.mk_Response
          200
          (lambda_function.Completed
             "Cleanup completed successfully"
             (lambda_function.mk_Cleaned 2 0 0) 2 (PBool true)
             [lambda_function.mk_Results (PStr "us-east-1") timestamp1
                                         (lambda_function.mk_Cleaned 1 0 0) [];
              lambda_function.mk_Results (PStr "eu-west-1") timestamp2
                                         (lambda_function.mk_Cleaned 1 0 0) []]
             [])).
Proof.
  split.
  - intros w event h. unfold lambda_function.lambda_handler.
    destruct event as [| b | z | s | l | d]; try exact I.
    destruct (parse_config_dry_run d) as [config [Hparse _]]. rewrite Hparse.
    cbn [get].
    destruct (iter (dict_get "regions" (PList [session_region w]) d))
      as [requested|e] eqn:Hiter; [|exact I].
    unfold bind.
    destruct (lambda_function.process_regions w config requested [] h)
      as [[results|e] h1] eqn:Hrun; [|exact I].
    unfold lambda_function.aggregate. rewrite aggregate_from. simpl.
    repeat split.
    pose proof (process_regions_results w config requested [] h) as Hres.
    rewrite Hrun in Hres. destruct (Hres results eq_refl) as [added [Heq Hmap]].
    simpl in Heq. subst added.
    exists d, requested.
    split; [reflexivity|]. split; [exact Hiter|]. split; [|exact Hmap].
    symmetry. now apply iter_len.
  - vm_compute. do 2 eexists. reflexivity.
Qed.

(** ** Every candidate is counted or reported *)

(** A loop over candidates whose every pass either counts the item or
    appends one error message beginning with [pre]. *)
Lemma loop_accounts {X T : Type}
      (body : X -> lambda_function.Results -> M lambda_function.Results)
      (bump : lambda_function.Results -> lambda_function.Results)
      (count : lambda_function.Results -> nat)
      (others : lambda_function.Results -> T) (pre : string) :
  (forall r, count (bump r) = (count r + 1)%nat) ->
  (forall r, lambda_function.errors (bump r) = lambda_function.errors r) ->
  (forall r, others (bump r) = others r) ->
  (forall r m, count (lambda_function.append_error r m) = count r) ->
  (forall r m, others (lambda_function.append_error r m) = others r) ->
  (forall x acc h,
      fst (body x acc h) = bump acc \/
      exists m, String.prefix pre m = true /\
                fst (body x acc h) = lambda_function.append_error acc m) ->
  forall xs acc h,
  exists appended,
    lambda_function.errors (fst (for_each xs body acc h))
    = lambda_function.errors acc ++ appended /\
    Forall (fun m => String.prefix pre m = true) appended /\
    (count (fst (for_each xs body acc h)) + List.length appended
     = count acc + List.length xs)%nat /\
    others (fst (for_each xs body acc h)) = others acc.
Proof.
  intros Hc He Ho Hc' Ho' Hstep xs. induction xs as [|x xs IH]; intros acc h.
  - exists []. simpl. rewrite app_nil_r. repeat split; auto.
  - simpl. unfold bind. specialize (Hstep x acc h).
    destruct (body x acc h) as [acc1 h1]. simpl in Hstep.
    destruct (IH acc1 h1) as [appended [Herr [Hall [Hcount Hoth]]]].
    destruct Hstep as [Hb | [m [Hm Hb]]]; subst acc1.
    + exists appended. rewrite Herr, Hcount, Hoth, He, Hc, Ho.
      repeat split; auto. lia.
    + exists (m :: appended). rewrite Herr, Hoth, Ho'. split; [|split; [|split]].
      * unfold lambda_function.append_error. simpl. now rewrite <- app_assoc.
      * now constructor.
      * simpl. rewrite Hc' in Hcount. lia.
      * reflexivity.
Qed.

Lemma prefix_append (s t : string) : String.prefix s (s ++ t)%string = true.
Proof.
  induction s as [|a s IH]; simpl.
  - destruct t; reflexivity.
  - destruct (ascii_dec a a) as [_|Hne]; [exact IH|contradiction].
Qed.

(** In a dry run no pass appends anything. *)
Lemma loop_keeps_errors {X : Type}
      (body : X -> lambda_function.Results -> M lambda_function.Results)
      (bump : lambda_function.Results -> lambda_function.Results) :
  (forall r, lambda_function.errors (bump r) = lambda_function.errors r) ->
  (forall x acc h, fst (body x acc h) = bump acc) ->
  forall xs acc h,
    lambda_function.errors (fst (for_each xs body acc h)) = lambda_function.errors acc.
Proof.
  intros He Hstep xs acc h.
  apply for_each_keeps
    with (P := fun r => lambda_function.errors r = lambda_function.errors acc);
    [|reflexivity].
  intros x a h0 Ha. now rewrite Hstep, He.
Qed.

Lemma cleanup_eips_accounts (w : World) (self : lambda_function.LambdaResourceCleaner.t)
      (config : list (string * pyval)) (dry_run : pyval)
      (results : lambda_function.Results) (h : History) :
  let out :=
    fst (lambda_function.LambdaResourceCleaner.cleanup_eips
           w self config dry_run results h) in
  exists appended,
    lambda_function.errors out = lambda_function.errors results ++ appended /\
    Forall (fun m => String.prefix "Error releasing EIP " m = true) appended /\
    (truthy (dict_get "clean_eips" (PBool false) config) = true ->
     (lambda_function.eips (lambda_function.cleaned out) + List.length appended
      = lambda_function.eips (lambda_function.cleaned results)
        + List.length
            (fst (lambda_function.LambdaResourceCleaner.find_unused_elastic_ips
                    w self h)))%nat) /\
    lambda_function.snapshots (lambda_function.cleaned out)
    = lambda_function.snapshots (lambda_function.cleaned results) /\
    lambda_function.instances (lambda_function.cleaned out)
    = lambda_function.instances (lambda_function.cleaned results) /\
    (truthy dry_run = true -> appended = []).
Proof.
  intro out. subst out.
  remember (lambda_function.LambdaResourceCleaner.cleanup_eips
              w self config dry_run results h) as run eqn:Hrun.
  unfold lambda_function.LambdaResourceCleaner.cleanup_eips in Hrun.
  destruct (truthy (dict_get "clean_eips" (PBool false) config)).
  2:{ subst run. exists []. simpl. rewrite app_nil_r. repeat split; auto. discriminate. }
  unfold bind at 1 in Hrun.
  destruct (lambda_function.LambdaResourceCleaner.find_unused_elastic_ips w self h)
    as [found h1]. cbn [fst].
  match type of Hrun with
  | _ = for_each found ?b results h1 => set (body := b) in Hrun
  end.
  subst run.
  destruct (loop_accounts body lambda_function.count_eip
              (fun r => lambda_function.eips (lambda_function.cleaned r))
              (fun r => (lambda_function.snapshots (lambda_function.cleaned r),
                         lambda_function.instances (lambda_function.cleaned r)))
              "Error releasing EIP ")
    with (xs := found) (acc := results) (h := h1)
    as [appended [Herr [Hall [Hcount Hoth]]]]; try reflexivity.
  { intros x acc h0. subst body. cbv beta.
    destruct (negb (truthy dry_run)); [|now left].
    unfold bind.
    destruct (lambda_function.Domain x =? "vpc")%string;
      destruct (mutate w _ _ h0) as [[e|] h2]; cbn [fst ret];
        solve [now left | right; eexists; split; [apply prefix_append|reflexivity]]. }
  exists appended. injection Hoth as Hs Hi.
  split; [exact Herr|]. split; [exact Hall|]. split; [intros _; exact Hcount|].
  split; [exact Hs|]. split; [exact Hi|].
  intro Hdry.
  assert (Hsame : lambda_function.errors (fst (for_each found body results h1))
                  = lambda_function.errors results).
  { apply loop_keeps_errors with (bump := lambda_function.count_eip); [reflexivity|].
    intros x acc h0. subst body. cbv beta. now rewrite Hdry. }
  rewrite Hsame in Herr.
  rewrite <- (app_nil_r (lambda_function.errors results)) in Herr at 1.
  apply app_inv_head in Herr. now symmetry.
Qed.

Lemma cleanup_snapshots_accounts (w : World)
      (self : lambda_function.LambdaResourceCleaner.t)
      (config : list (string * pyval)) (dry_run : pyval)
      (results : lambda_function.Results) (h : History) :
  let out :=
    fst (lambda_function.LambdaResourceCleaner.cleanup_snapshots
           w self config dry_run results h) in
  exists appended,
    lambda_function.errors out = lambda_function.errors results ++ appended /\
    Forall (fun m => String.prefix "Error deleting snapshot " m = true) appended /\
    (truthy (dict_get "clean_snapshots" (PBool false) config) = true ->
     (lambda_function.snapshots (lambda_function.cleaned out) + List.length appended
      = lambda_function.snapshots (lambda_function.cleaned results)
        + List.length
            (fst (lambda_function.LambdaResourceCleaner.find_old_snapshots
                    w self (dict_get "snapshot_days" (PInt 30) config) h)))%nat) /\
    lambda_function.eips (lambda_function.cleaned out)
    = lambda_function.eips (lambda_function.cleaned results) /\
    lambda_function.instances (lambda_function.cleaned out)
    = lambda_function.instances (lambda_function.cleaned results) /\
    (truthy dry_run = true -> appended = []).
Proof.
  intro out. subst out.
  remember (lambda_function.LambdaResourceCleaner.cleanup_snapshots
              w self config dry_run results h) as run eqn:Hrun.
  unfold lambda_function.LambdaResourceCleaner.cleanup_snapshots in Hrun.
  destruct (truthy (dict_get "clean_snapshots" (PBool false) config)).
  2:{ subst run. exists []. simpl. rewrite app_nil_r. repeat split; auto. discriminate. }
  unfold bind at 1 in Hrun.
  destruct (lambda_function.LambdaResourceCleaner.find_old_snapshots
              w self (dict_get "snapshot_days" (PInt 30) config) h)
    as [found h1]. cbn [fst].
  match type of Hrun with
  | _ = for_each found ?b results h1 => set (body := b) in Hrun
  end.
  subst run.
  destruct (loop_accounts body lambda_function.count_snapshot
              (fun r => lambda_function.snapshots (lambda_function.cleaned r))
              (fun r => (lambda_function.eips (lambda_function.cleaned r),
                         lambda_function.instances (lambda_function.cleaned r)))
              "Error deleting snapshot ")
    with (xs := found) (acc := results) (h := h1)
    as [appended [Herr [Hall [Hcount Hoth]]]]; try reflexivity.
  { intros x acc h0. subst body. cbv beta.
    destruct (negb (truthy dry_run)); [|now left].
    unfold bind.
    destruct (mutate w _ _ h0) as [[e|] h2]; cbn [fst ret];
      solve [now left | right; eexists; split; [apply prefix_append|reflexivity]]. }
  exists appended. injection Hoth as He Hi.
  split; [exact Herr|]. split; [exact Hall|]. split; [intros _; exact Hcount|].
  split; [exact He|]. split; [exact Hi|].
  intro Hdry.
  assert (Hsame : lambda_function.errors (fst (for_each found body results h1))
                  = lambda_function.errors results).
  { apply loop_keeps_errors with (bump := lambda_function.count_snapshot);
      [reflexivity|].
    intros x acc h0. subst body. cbv beta. now rewrite Hdry. }
  rewrite Hsame in Herr.
  rewrite <- (app_nil_r (lambda_function.errors results)) in Herr at 1.
  apply app_inv_head in Herr. now symmetry.
Qed.

Lemma cleanup_instances_accounts (w : World)
      (self : lambda_function.LambdaResourceCleaner.t)
      (config : list (string * pyval)) (dry_run : pyval)
      (results : lambda_function.Results) (h : History) :
  let out :=
    fst (lambda_function.LambdaResourceCleaner.cleanup_instances
           w self config dry_run results h) in
  exists appended,
    lambda_function.errors out = lambda_function.errors results ++ appended /\
    Forall (fun m => String.prefix "Error terminating instance " m = true) appended /\
    (truthy (dict_get "clean_instances" (PBool false) config) = true ->
     (lambda_function.instances (lambda_function.cleaned out) + List.length appended
      = lambda_function.instances (lambda_function.cleaned results)
        + List.length
            (fst (lambda_function.LambdaResourceCleaner.find_stopped_instances
                    w self (dict_get "instance_days" (PInt 7) config) h)))%nat) /\
    lambda_function.eips (lambda_function.cleaned out)
    = lambda_function.eips (lambda_function.cleaned results) /\
    lambda_function.snapshots (lambda_function.cleaned out)
    = lambda_function.snapshots (lambda_function.cleaned results) /\
    (truthy dry_run = true -> appended = []).
Proof.
  intro out. subst out.
  remember (lambda_function.LambdaResourceCleaner.cleanup_instances
              w self config dry_run results h) as run eqn:Hrun.
  unfold lambda_function.LambdaResourceCleaner.cleanup_instances in Hrun.
  destruct (truthy (dict_get "clean_instances" (PBool false) config)).
  2:{ subst run. exists []. simpl. rewrite app_nil_r. repeat split; auto. discriminate. }
  unfold bind at 1 in Hrun.
  destruct (lambda_function.LambdaResourceCleaner.find_stopped_instances
              w self (dict_get "instance_days" (PInt 7) config) h)
    as [found h1]. cbn [fst].
  match type of Hrun with
  | _ = for_each found ?b results h1 => set (body := b) in Hrun
  end.
  subst run.
  destruct (loop_accounts body lambda_function.count_instance
              (fun r => lambda_function.instances (lambda_function.cleaned r))
              (fun r => (lambda_function.eips (lambda_function.cleaned r),
                         lambda_function.snapshots (lambda_function.cleaned r)))
              "Error terminating instance ")
    with (xs := found) (acc := results) (h := h1)
    as [appended [Herr [Hall [Hcount Hoth]]]]; try reflexivity.
  { intros x acc h0. subst body. cbv beta.
    destruct (negb (truthy dry_run)); [|now left].
    unfold bind.
    destruct (mutate w _ _ h0) as [[e|] h2]; cbn [fst ret];
      solve [now left | right; eexists; split; [apply prefix_append|reflexivity]]. }
  exists appended. injection Hoth as He Hs.
  split; [exact Herr|]. split; [exact Hall|]. split; [intros _; exact Hcount|].
  split; [exact He|]. split; [exact Hs|].
  intro Hdry.
  assert (Hsame : lambda_function.errors (fst (for_each found body results h1))
                  = lambda_function.errors results).
  { apply loop_keeps_errors with (bump := lambda_function.count_instance);
      [reflexivity|].
    intros x acc h0. subst body. cbv beta. now rewrite Hdry. }
  rewrite Hsame in Herr.
  rewrite <- (app_nil_r (lambda_function.errors results)) in Herr at 1.
  apply app_inv_head in Herr. now symmetry.
Qed.

(** C10.  In the result of [cleanup_resources] the errors are those of
    the loop over the addresses, then those of the loop over the
    snapshots, then those of the loop over the instances, each
    recognisable by how it begins.  For every enabled kind, the count of
    that kind plus the number of errors of its loop is the number of
    candidates its finder returned when it was called.  In a dry run no
    loop appends an error, so every count is the number of candidates. *)
Theorem cleanup_resources_accounts_for_every_candidate :
  forall (w : World) (self : lambda_function.LambdaResourceCleaner.t)
         (config : list (string * pyval)) (h : History),
    let dry_run := dict_get "dry_run" (PBool true) config in
    let start := now w h in
    let results :=
      lambda_function.mk_Results
        (lambda_function.LambdaResourceCleaner.self_region self)
        (isoformat w (mk_datetime (fst start) None))
        (lambda_function.mk_Cleaned 0 0 0) [] in
    let eips_done :=
      lambda_function.LambdaResourceCleaner.cleanup_eips
        w self config dry_run results (snd start) in
    let snapshots_done :=
      lambda_function.LambdaResourceCleaner.cleanup_snapshots
        w self config dry_run (fst eips_done) (snd eips_done) in
    let found_eips :=
      fst (lambda_function.LambdaResourceCleaner.find_unused_elastic_ips
             w self (snd start)) in
    let found_snapshots :=
      fst (lambda_function.LambdaResourceCleaner.find_old_snapshots
             w self (dict_get "snapshot_days" (PInt 30) config) (snd eips_done)) in
    let found_instances :=
      fst (lambda_function.LambdaResourceCleaner.find_stopped_instances
             w self (dict_get "instance_days" (PInt 7) config) (snd snapshots_done)) in
    let final :=
      fst (lambda_function.LambdaResourceCleaner.cleanup_resources w self config h) in
    exists of_eips of_snapshots of_instances : list string,
      lambda_function.errors final = of_eips ++ of_snapshots ++ of_instances /\
      Forall (fun m => String.prefix "Error releasing EIP " m = true) of_eips /\
      Forall (fun m => String.prefix "Error deleting snapshot " m = true) of_snapshots /\
      Forall (fun m => String.prefix "Error terminating instance " m = true)
             of_instances /\
      (truthy (dict_get "clean_eips" (PBool false) config) = true ->
       (lambda_function.eips (lambda_function.cleaned final) + List.length of_eips
        = List.length found_eips)%nat) /\
      (truthy (dict_get "clean_snapshots" (PBool false) config) = true ->
       (lambda_function.snapshots (lambda_function.cleaned final)
        + List.length of_snapshots
        = List.length found_snapshots)%nat) /\
      (truthy (dict_get "clean_instances" (PBool false) config) = true ->
       (lambda_function.instances (lambda_function.cleaned final)
        + List.length of_instances
        = List.length found_instances)%nat) /\
      (truthy dry_run = true ->
       of_eips = [] /\ of_snapshots = [] /\ of_instances = []).
Proof.
  intros w self config h dry_run start results eips_done snapshots_done
         found_eips found_snapshots found_instances final.
  assert (Hfinal :
            final
            = fst (lambda_function.LambdaResourceCleaner.cleanup_instances
                     w self config dry_run (fst snapshots_done) (snd snapshots_done))).
  { subst final snapshots_done eips_done results start.
    unfold lambda_function.LambdaResourceCleaner.cleanup_resources.
    unfold bind at 1. destruct (now w h) as [t h0]. cbn [fst snd].
    unfold bind at 1.
    destruct (lambda_function.LambdaResourceCleaner.cleanup_eips w self config _ _ h0)
      as [r1 h1]. cbn [fst snd].
    unfold bind at 1.
    destruct (lambda_function.LambdaResourceCleaner.cleanup_snapshots
                w self config _ r1 h1) as [r2 h2]. cbn [fst snd].
    unfold bind at 1.
    destruct (lambda_function.LambdaResourceCleaner.cleanup_instances
                w self config _ r2 h2) as [r3 h3]. reflexivity. }
  destruct (cleanup_eips_accounts w self config dry_run results (snd start))
    as [e1 [Herr1 [Hall1 [Hcount1 [Hs1 [Hi1 Hdry1]]]]]].
  destruct (cleanup_snapshots_accounts w self config dry_run
                                       (fst eips_done) (snd eips_done))
    as [e2 [Herr2 [Hall2 [Hcount2 [He2 [Hi2 Hdry2]]]]]].
  destruct (cleanup_instances_accounts w self config dry_run
                                       (fst snapshots_done) (snd snapshots_done))
    as [e3 [Herr3 [Hall3 [Hcount3 [He3 [Hs3 Hdry3]]]]]].
  fold eips_done in Herr1, Hcount1, Hs1, Hi1.
  fold snapshots_done in Herr2, Hcount2, He2, Hi2.
  rewrite <- Hfinal in Herr3, Hcount3, He3, Hs3.
  fold found_eips in Hcount1. fold found_snapshots in Hcount2.
  fold found_instances in Hcount3.
  exists e1, e2, e3.
  split; [|split; [exact Hall1|split; [exact Hall2|split; [exact Hall3|]]]].
  - rewrite Herr3, Herr2, Herr1. subst results. simpl. now rewrite app_assoc.
  - split; [|split; [|split]].
    + intro Hon. specialize (Hcount1 Hon). subst results. simpl in Hcount1.
      rewrite He3, He2. exact Hcount1.
    + intro Hon. specialize (Hcount2 Hon). rewrite Hs1 in Hcount2.
      subst results. simpl in Hcount2. rewrite Hs3. exact Hcount2.
    + intro Hon. specialize (Hcount3 Hon). rewrite Hi2, Hi1 in Hcount3.
      subst results. simpl in Hcount3. exact Hcount3.
    + intro Hdry. auto.
Qed.

(** A live run over the snapshots of an account that refuses every
    deletion. *)
Lemma cleanup_resources_accounts_for_every_candidate_witness :
  truthy (dict_get "clean_snapshots" (PBool false)
                   [("dry_run", PBool false); ("clean_snapshots", PBool true)]) = true /\
  exists of_snapshots : list string,
    (lambda_function.snapshots
       (lambda_function.cleaned
          (fst (lambda_function.LambdaResourceCleaner.cleanup_resources
                  Sample.stubborn
                  (lambda_function.LambdaResourceCleaner.mk_cleaner (PStr "us-east-1"))
                  [("dry_run", PBool false); ("clean_snapshots", PBool true)] [])))
     + List.length of_snapshots
     = List.length
         (fst (lambda_function.LambdaResourceCleaner.find_old_snapshots
                 Sample.stubborn
                 (lambda_function.LambdaResourceCleaner.mk_cleaner (PStr "us-east-1"))
                 (PInt 30) [Now])))%nat.
Proof.
  split; [reflexivity|].
  destruct (cleanup_resources_accounts_for_every_candidate
              Sample.stubborn
              (lambda_function.LambdaResourceCleaner.mk_cleaner (PStr "us-east-1"))
              [("dry_run", PBool false); ("clean_snapshots", PBool true)] [])
    as [e1 [e2 [e3 [_ [_ [_ [_ [_ [Hsnap _]]]]]]]]].
  exists e2. exact (Hsnap eq_refl).
Defined.

(** What that run returns: nothing cleaned, one message for the one old
    snapshot. *)
Example refused_deletion_is_reported :
  lambda_function.cleaned
    (fst (lambda_function.LambdaResourceCleaner.cleanup_resources
            Sample.stubborn
            (lambda_function.LambdaResourceCleaner.mk_cleaner (PStr "us-east-1"))
            [("dry_run", PBool false); ("clean_snapshots", PBool true)] []))
  = lambda_function.mk_Cleaned 0 0 0 /\
  lambda_function.errors
    (fst (lambda_function.LambdaResourceCleaner.cleanup_resources
            Sample.stubborn
            (lambda_function.LambdaResourceCleaner.mk_cleaner (PStr "us-east-1"))
            [("dry_run", PBool false); ("clean_snapshots", PBool true)] []))
  = ["Error deleting snapshot snap-old: AccessDenied"%string].
Proof. split; vm_compute; reflexivity. Qed.

(** ** The two flavours side by side *)

(** On one response the two finders of addresses build the same
    candidates, and the two finders of old snapshots keep the same
    snapshots; only the rendering of the creation time differs. *)
Lemma finders_agree_on_addresses_and_snapshots
      (w : World) (h : History) (days : Z)
      (cli : aws_cleaner.AWSResourceCleaner.t)
      (lam : lambda_function.LambdaResourceCleaner.t) :
  aws_cleaner.AWSResourceCleaner.ec2_client cli
  = lambda_function.LambdaResourceCleaner.ec2_client lam ->
  map (fun e => (aws_cleaner.AllocationId e, aws_cleaner.PublicIp e, aws_cleaner.Domain e))
      (fst (aws_cleaner.AWSResourceCleaner.find_unused_elastic_ips w cli h))
  = map (fun e => (lambda_function.AllocationId e, lambda_function.PublicIp e,
                   lambda_function.Domain e))
        (fst (lambda_function.LambdaResourceCleaner.find_unused_elastic_ips w lam h)) /\
  map (fun s => (aws_cleaner.SnapshotId s, aws_cleaner.Description s,
                 isoformat w (aws_cleaner.StartTime s), aws_cleaner.VolumeSize s))
      (fst (aws_cleaner.AWSResourceCleaner.find_old_snapshots w cli days h))
  = map (fun s => (lambda_function.SnapshotId s, lambda_function.Description s,
                   lambda_function.StartTime s, lambda_function.VolumeSize s))
        (fst (lambda_function.LambdaResourceCleaner.find_old_snapshots
                w lam (PInt days) h)).
Proof.
  intro Hclient. split.
  - rewrite cli_find_unused_elastic_ips_eq, lambda_find_unused_elastic_ips_eq, Hclient.
    cbn [fst].
    destruct (addresses_response w _ h) as [addresses|e]; [|reflexivity].
    rewrite !map_map. reflexivity.
  - rewrite cli_find_old_snapshots_eq, lambda_find_old_snapshots_eq, Hclient.
    destruct (cutoff_date (clock w h) days) as [cutoff|]; [|reflexivity].
    destruct (snapshots_response w _ (h ++ [Now])) as [snapshots|e]; [|reflexivity].
    rewrite !map_map. reflexivity.
Qed.

(** ** A dry run, end to end *)

(** An account with one unattached address of domain "vpc" and one
    attached address, addresses enabled, [dry_run] left to its default:
    one address is counted, nothing is reported and nothing is released. *)
Example dry_run_scenario :
  List.length
    (fst (lambda_function.LambdaResourceCleaner.find_unused_elastic_ips
            Sample.calm
            (lambda_function.LambdaResourceCleaner.mk_cleaner (PStr "us-east-1")) []))
  = 1%nat /\
  lambda_function.cleaned
    (fst (lambda_function.LambdaResourceCleaner.cleanup_resources
            Sample.calm
            (lambda_function.LambdaResourceCleaner.mk_cleaner (PStr "us-east-1"))
            [("dry_run", PBool true); ("clean_eips", PBool true);
             ("snapshot_days", PInt 30)] []))
  = lambda_function.mk_Cleaned 1 0 0 /\
  lambda_function.errors
    (fst (lambda_function.LambdaResourceCleaner.cleanup_resources
            Sample.calm
            (lambda_function.LambdaResourceCleaner.mk_cleaner (PStr "us-east-1"))
            [("dry_run", PBool true); ("clean_eips", PBool true);
             ("snapshot_days", PInt 30)] []))
  = [] /\
  api_calls
    (snd (lambda_function.LambdaResourceCleaner.cleanup_resources
            Sample.calm
            (lambda_function.LambdaResourceCleaner.mk_cleaner (PStr "us-east-1"))
            [("dry_run", PBool true); ("clean_eips", PBool true);
             ("snapshot_days", PInt 30)] []))
  = [(PStr "us-east-1", describe_addresses)].
Proof. repeat split; vm_compute; reflexivity. Qed.

(** The same account through the command: what the operator reads. *)
Example dry_run_transcript :
  printed (snd (aws_cleaner.main Sample.calm "us-east-1" false true
                                 true false false 30 false []))
  = [(aws_cleaner.Fore.CYAN ++ "AWS Idle Resource Cleaner"
      ++ aws_cleaner.Style.RESET_ALL)%string;
     "Mode: DRY RUN"%string;
     "--------------------------------------------------"%string;
     "Scanning region: us-east-1"%string;
     (aws_cleaner.NL ++ aws_cleaner.Fore.BLUE ++ "Region: us-east-1"
      ++ aws_cleaner.Style.RESET_ALL)%string;
     (aws_cleaner.NL ++ aws_cleaner.Fore.MAGENTA ++ "Finding unused Elastic IPs..."
      ++ aws_cleaner.Style.RESET_ALL)%string;
     "Found 1 unused Elastic IPs"%string;
     (aws_cleaner.Fore.YELLOW ++ "[DRY RUN] Would release EIP: 203.0.113.1"
      ++ aws_cleaner.Style.RESET_ALL)%string;
     (aws_cleaner.NL ++ aws_cleaner.Fore.GREEN ++ "Cleanup Summary:"
      ++ aws_cleaner.Style.RESET_ALL)%string;
     "Elastic IPs: 1"%string;
     "Snapshots: 0"%string;
     "Instances: 0"%string;
     (aws_cleaner.NL ++ aws_cleaner.Fore.YELLOW
      ++ "This was a dry run. Use --no-dry-run to apply changes."
      ++ aws_cleaner.Style.RESET_ALL)%string].
Proof. vm_compute. reflexivity. Qed.

(** * Further properties of the code *)

(** ** Unattached addresses *)

(** X1.  Both finders of addresses return, in the order of the response,
    the candidates built from exactly those entries that carry neither
    an instance nor a network interface. *)
Theorem find_unused_elastic_ips_keeps_the_unattached :
  forall (w : World) (h : History) (addresses : list Address)
         (cli : aws_cleaner.AWSResourceCleaner.t)
         (lam : lambda_function.LambdaResourceCleaner.t),
    addresses_response w (aws_cleaner.AWSResourceCleaner.ec2_client cli) h
    = Ok addresses ->
    addresses_response w (lambda_function.LambdaResourceCleaner.ec2_client lam) h
    = Ok addresses ->
    fst (aws_cleaner.AWSResourceCleaner.find_unused_elastic_ips w cli h)
    = map cli_eip_of (filter unattached addresses) /\
    fst (lambda_function.LambdaResourceCleaner.find_unused_elastic_ips w lam h)
    = map lambda_eip_of (filter unattached addresses) /\
    (forall a, unattached a = true
               <-> addr_InstanceId a = None /\ addr_NetworkInterfaceId a = None) /\
    (Forall (fun a => addr_InstanceId a <> None \/ addr_NetworkInterfaceId a <> None)
            addresses ->
     fst (aws_cleaner.AWSResourceCleaner.find_unused_elastic_ips w cli h) = [] /\
     fst (lambda_function.LambdaResourceCleaner.find_unused_elastic_ips w lam h) = []).
Proof.
  intros w h addresses cli lam Hcli Hlam.
  rewrite cli_find_unused_elastic_ips_eq, lambda_find_unused_elastic_ips_eq, Hcli, Hlam.
  cbn [fst].
  assert (Hun : forall a, unattached a = true
                          <-> addr_InstanceId a = None /\ addr_NetworkInterfaceId a = None).
  { intro a. unfold unattached.
    destruct (addr_InstanceId a), (addr_NetworkInterfaceId a); split;
      try discriminate; try (intros [H1 H2]; discriminate); auto. }
  split; [reflexivity|]. split; [reflexivity|]. split; [exact Hun|].
  intro Hall.
  assert (Hnone : forall l,
             Forall (fun a => addr_InstanceId a <> None
                              \/ addr_NetworkInterfaceId a <> None) l ->
             filter unattached l = []).
  { intros l Hl. induction Hl as [|a l Ha Hl IH]; [reflexivity|]. simpl.
    destruct (unattached a) eqn:Hu; [|exact IH].
    apply Hun in Hu. destruct Hu as [H1 H2]. destruct Ha as [Ha|Ha]; contradiction. }
  now rewrite (Hnone addresses Hall).
Qed.

(** The account with one address of domain "vpc", one attached address
    and one address without a domain. *)
Lemma find_unused_elastic_ips_keeps_the_unattached_witness :
  addresses_response Sample.mixed (PStr "us-east-1") []
  = Ok [Sample.vpc_address; Sample.attached_address; Sample.bare_address] /\
  fst (aws_cleaner.AWSResourceCleaner.find_unused_elastic_ips
         Sample.mixed (aws_cleaner.AWSResourceCleaner.mk_cleaner "us-east-1" true) [])
  = map cli_eip_of
        (filter unattached
                [Sample.vpc_address; Sample.attached_address; Sample.bare_address]).
Proof.
  split; [reflexivity|].
  exact (proj1 (find_unused_elastic_ips_keeps_the_unattached
                  Sample.mixed []
                  [Sample.vpc_address; Sample.attached_address; Sample.bare_address]
                  (aws_cleaner.AWSResourceCleaner.mk_cleaner "us-east-1" true)
                  (lambda_function.LambdaResourceCleaner.mk_cleaner (PStr "us-east-1"))
                  eq_refl eq_refl)).
Defined.

(** ** Finders that cannot find *)

(** X2.  When the describing call raises, each of the six finders
    returns the empty list: the exception does not leave the finder.
    The finders of snapshots and of stopped instances read the clock
    before they call. *)
Theorem finders_return_nothing_when_the_provider_raises :
  forall (w : World) (h : History) (msg : string)
         (cli : aws_cleaner.AWSResourceCleaner.t)
         (lam : lambda_function.LambdaResourceCleaner.t)
         (days : Z) (event_days : pyval),
    (addresses_response w (aws_cleaner.AWSResourceCleaner.ec2_client cli) h = Raise msg ->
     fst (aws_cleaner.AWSResourceCleaner.find_unused_elastic_ips w cli h) = []) /\
    (snapshots_response w (aws_cleaner.AWSResourceCleaner.ec2_client cli) (h ++ [Now])
     = Raise msg ->
     fst (aws_cleaner.AWSResourceCleaner.find_old_snapshots w cli days h) = []) /\
    (instances_response w (aws_cleaner.AWSResourceCleaner.ec2_client cli) (h ++ [Now])
     = Raise msg ->
     fst (aws_cleaner.AWSResourceCleaner.find_stopped_instances w cli days h) = []) /\
    (addresses_response w (lambda_function.LambdaResourceCleaner.ec2_client lam) h
     = Raise msg ->
     fst (lambda_function.LambdaResourceCleaner.find_unused_elastic_ips w lam h) = []) /\
    (snapshots_response w (lambda_function.LambdaResourceCleaner.ec2_client lam)
                        (h ++ [Now]) = Raise msg ->
     fst (lambda_function.LambdaResourceCleaner.find_old_snapshots w lam event_days h)
     = []) /\
    (instances_response w (lambda_function.LambdaResourceCleaner.ec2_client lam)
                        (h ++ [Now]) = Raise msg ->
     fst (lambda_function.LambdaResourceCleaner.find_stopped_instances
            w lam event_days h)
     = []).
Proof.
  intros w h msg cli lam days event_days. repeat apply conj; intro Hraise.
  - now rewrite cli_find_unused_elastic_ips_eq, Hraise.
  - rewrite cli_find_old_snapshots_eq, Hraise.
    now destruct (cutoff_date (clock w h) days).
  - apply cli_find_stopped_instances_empty.
  - now rewrite lambda_find_unused_elastic_ips_eq, Hraise.
  - unfold lambda_function.LambdaResourceCleaner.find_old_snapshots,
      now, describe, bind, ask, emit, ret. simpl.
    destruct (timedelta_days_of event_days) as [delta|e]; [|reflexivity].
    destruct (datetime_sub (clock w h) delta) as [cutoff|e]; [|reflexivity].
    simpl. now rewrite Hraise.
  - unfold lambda_function.LambdaResourceCleaner.find_stopped_instances,
      now, describe, bind, ask, emit, ret. simpl.
    destruct (timedelta_days_of event_days) as [delta|e]; [|reflexivity].
    destruct (datetime_sub (clock w h) delta) as [cutoff|e]; [|reflexivity].
    simpl. now rewrite Hraise.
Qed.

(** An account where every describing call is refused. *)
Lemma finders_return_nothing_when_the_provider_raises_witness :
  snapshots_response Scenes.denied (PStr "us-east-1") ([] ++ [Now])
  = Raise "UnauthorizedOperation" /\
  fst (lambda_function.LambdaResourceCleaner.find_old_snapshots
         Scenes.denied
         (lambda_function.LambdaResourceCleaner.mk_cleaner (PStr "us-east-1"))
         (PInt 30) [])
  = [].
Proof.
  split; [reflexivity|].
  exact (proj1 (proj2 (proj2 (proj2 (proj2
           (finders_return_nothing_when_the_provider_raises
              Scenes.denied [] "UnauthorizedOperation"
              (aws_cleaner.AWSResourceCleaner.mk_cleaner "us-east-1" true)
              (lambda_function.LambdaResourceCleaner.mk_cleaner (PStr "us-east-1"))
              30 (PInt 30))))))
           eq_refl).
Defined.

(** X3.  A threshold from which no cutoff can be computed finds nothing
    and asks the provider nothing.  In the event-driven flavour that is
    every [snapshot_days] or [instance_days] that is None, a string, a
    list or a dict, the values [timedelta] refuses with a [TypeError];
    in both flavours it is every integer for which [now] minus the days
    is not a [datetime].  A number with a fraction, which [timedelta]
    accepts, is not among the values of [pyval] and nothing is said
    about it. *)
Theorem unusable_threshold_finds_nothing_without_asking :
  forall (w : World) (h : History)
         (cli : aws_cleaner.AWSResourceCleaner.t)
         (lam : lambda_function.LambdaResourceCleaner.t),
    (forall event_days : pyval,
        event_days = PNone \/ (exists s, event_days = PStr s) \/
        (exists l, event_days = PList l) \/ (exists d, event_days = PDict d) ->
        lambda_function.LambdaResourceCleaner.find_old_snapshots w lam event_days h
        = ([], h ++ [Now]) /\
        lambda_function.LambdaResourceCleaner.find_stopped_instances w lam event_days h
        = ([], h ++ [Now])) /\
    (forall days : Z,
        cutoff_date (clock w h) days = None ->
        aws_cleaner.AWSResourceCleaner.find_old_snapshots w cli days h
        = ([], h ++ [Now]) /\
        aws_cleaner.AWSResourceCleaner.find_stopped_instances w cli days h
        = ([], h ++ [Now]) /\
        lambda_function.LambdaResourceCleaner.find_old_snapshots w lam (PInt days) h
        = ([], h ++ [Now]) /\
        lambda_function.LambdaResourceCleaner.find_stopped_instances w lam (PInt days) h
        = ([], h ++ [Now])).
Proof.
  intros w h cli lam. split.
  - intros event_days [Hnone | [[s Hstr] | [[l Hlist] | [d Hdict]]]]; subst event_days;
      unfold lambda_function.LambdaResourceCleaner.find_old_snapshots,
        lambda_function.LambdaResourceCleaner.find_stopped_instances,
        now, bind, ask, emit, ret; simpl; auto.
  - intros days Hnone. unfold cutoff_date in Hnone.
    unfold aws_cleaner.AWSResourceCleaner.find_old_snapshots,
      aws_cleaner.AWSResourceCleaner.find_stopped_instances,
      lambda_function.LambdaResourceCleaner.find_old_snapshots,
      lambda_function.LambdaResourceCleaner.find_stopped_instances,
      now, bind, ask, emit, ret. simpl.
    destruct (timedelta_days days) as [delta|e]; [|auto].
    destruct (datetime_sub (clock w h) delta) as [cutoff|e]; [discriminate|auto].
Qed.

(** A threshold given as the string "30". *)
Lemma unusable_threshold_finds_nothing_without_asking_witness :
  (PStr "30" = PNone \/ (exists s, PStr "30" = PStr s) \/
   (exists l, PStr "30" = PList l) \/ (exists d, PStr "30" = PDict d)) /\
  lambda_function.LambdaResourceCleaner.find_old_snapshots
    Sample.calm (lambda_function.LambdaResourceCleaner.mk_cleaner (PStr "us-east-1"))
    (PStr "30") []
  = ([], [] ++ [Now]).
Proof.
  assert (Hstr : PStr "30" = PNone \/ (exists s, PStr "30" = PStr s) \/
                 (exists l, PStr "30" = PList l) \/ (exists d, PStr "30" = PDict d))
    by (right; left; exists "30"%string; reflexivity).
  split; [exact Hstr|].
  exact (proj1 (proj1 (unusable_threshold_finds_nothing_without_asking
                         Sample.calm []
                         (aws_cleaner.AWSResourceCleaner.mk_cleaner "us-east-1" true)
                         (lambda_function.LambdaResourceCleaner.mk_cleaner
                            (PStr "us-east-1")))
                      (PStr "30") Hstr)).
Defined.

(** ** The name of an instance *)

Lemma first_Name_tag_agree (tags : list (string * string)) :
  aws_cleaner.AWSResourceCleaner.first_Name_tag tags
  = lambda_function.LambdaResourceCleaner.first_Name_tag tags.
Proof.
  induction tags as [|[k v] tags IH]; simpl; [reflexivity|]. now rewrite IH.
Qed.

Lemma first_Name_tag_skips (before : list (string * string))
      (rest : list (string * string)) :
  (forall k v, In (k, v) before -> k <> "Name"%string) ->
  aws_cleaner.AWSResourceCleaner.first_Name_tag (before ++ rest)
  = aws_cleaner.AWSResourceCleaner.first_Name_tag rest.
Proof.
  induction before as [|[k v] before IH]; intro Hno; simpl; [reflexivity|].
  destruct (String.eqb_spec k "Name") as [Heq|Hne].
  - exfalso. apply (Hno k v); [now left|exact Heq].
  - apply IH. intros k' v' Hin. apply (Hno k' v'). now right.
Qed.

(** X4.  [_get_instance_name] gives the value of the first tag whose key
    is "Name", and "No Name" when the instance has no tags or none of
    that key; the two flavours give the same name. *)
Theorem get_instance_name_is_the_first_Name_tag :
  forall instance : Instance,
    aws_cleaner.AWSResourceCleaner._get_instance_name instance
    = lambda_function.LambdaResourceCleaner._get_instance_name instance /\
    (inst_Tags instance = None ->
     aws_cleaner.AWSResourceCleaner._get_instance_name instance = "No Name"%string) /\
    (forall tags,
        inst_Tags instance = Some tags ->
        (forall k v, In (k, v) tags -> k <> "Name"%string) ->
        aws_cleaner.AWSResourceCleaner._get_instance_name instance = "No Name"%string) /\
    (forall before value rest,
        inst_Tags instance = Some (before ++ ("Name"%string, value) :: rest) ->
        (forall k v, In (k, v) before -> k <> "Name"%string) ->
        aws_cleaner.AWSResourceCleaner._get_instance_name instance = value).
Proof.
  intro instance.
  unfold aws_cleaner.AWSResourceCleaner._get_instance_name,
    lambda_function.LambdaResourceCleaner._get_instance_name.
  split; [apply first_Name_tag_agree|]. split; [|split].
  - intro Hnone. now rewrite Hnone.
  - intros tags Htags Hno. rewrite Htags.
    rewrite <- (app_nil_r tags). now rewrite first_Name_tag_skips.
  - intros before value rest Htags Hno. rewrite Htags.
    rewrite first_Name_tag_skips by exact Hno. reflexivity.
Qed.

(** An instance tagged with an owner, then a name, then another name. *)
Lemma get_instance_name_is_the_first_Name_tag_witness :
  (forall k v, In (k, v) [("Owner"%string, "ops"%string)] -> k <> "Name"%string) /\
  aws_cleaner.AWSResourceCleaner._get_instance_name
    (mk_Instance "i-1" "t3.micro" (Sample.utc Sample.t_now) "stopped" None
                 (Some ([("Owner", "ops")]
                        ++ ("Name", "first") :: [("Name", "second")])))
  = "first"%string.
Proof.
  assert (Hno : forall k v, In (k, v) [("Owner"%string, "ops"%string)]
                            -> k <> "Name"%string).
  { intros k v [Hin|[]]. injection Hin as <- _. discriminate. }
  split; [exact Hno|].
  exact (proj2 (proj2 (proj2 (get_instance_name_is_the_first_Name_tag
           (mk_Instance "i-1" "t3.micro" (Sample.utc Sample.t_now) "stopped" None
                        (Some ([("Owner", "ops")]
                               ++ ("Name", "first") :: [("Name", "second")]))))))
               [("Owner"%string, "ops"%string)] "first"%string
               [("Name"%string, "second"%string)] eq_refl Hno).
Defined.

(** ** What the interactive cleaners count *)

Lemma fold_left_same {X S : Type} (ys : list X) (a : S) :
  fold_left (fun acc _ => acc) ys a = a.
Proof. induction ys as [|y ys IH]; simpl; [reflexivity|exact IH]. Qed.

(** X5.  In a dry run the cleaners of addresses and of snapshots return
    the number of candidates, but the cleaner of instances returns 0: it
    counts an instance only where it terminates one.  It still prints
    one line for every candidate. *)
Theorem dry_run_counts_addresses_and_snapshots_but_not_instances :
  forall (w : World) (r : string) (h : History)
         (eips : list aws_cleaner.ElasticIp)
         (snaps : list aws_cleaner.OldSnapshot)
         (insts : list aws_cleaner.StoppedInstance),
    fst (aws_cleaner.AWSResourceCleaner.clean_elastic_ips
           w (aws_cleaner.AWSResourceCleaner.mk_cleaner r true) eips h)
    = List.length eips /\
    fst (aws_cleaner.AWSResourceCleaner.clean_snapshots
           w (aws_cleaner.AWSResourceCleaner.mk_cleaner r true) snaps h)
    = List.length snaps /\
    aws_cleaner.AWSResourceCleaner.clean_stopped_instances
      w (aws_cleaner.AWSResourceCleaner.mk_cleaner r true) insts h
    = (0%nat,
       h ++ map (fun i =>
                   Print (aws_cleaner.Fore.YELLOW
                          ++ "[DRY RUN] Would terminate instance: "
                          ++ aws_cleaner.InstanceId i ++ " (" ++ aws_cleaner.Name i
                          ++ ")" ++ aws_cleaner.Style.RESET_ALL)%string)
                insts).
Proof.
  intros w r h eips snaps insts. split; [|split].
  - unfold aws_cleaner.AWSResourceCleaner.clean_elastic_ips.
    rewrite for_each_steps
      with (good := fun _ => True) (next := fun _ n => (n + 1)%nat)
           (events := fun y =>
                        [Print (aws_cleaner.Fore.YELLOW ++ "[DRY RUN] Would release EIP: "
                                ++ fmt_opt (aws_cleaner.PublicIp y)
                                ++ aws_cleaner.Style.RESET_ALL)%string]);
      [|reflexivity|auto].
    cbn [fst]. now rewrite fold_left_succ.
  - unfold aws_cleaner.AWSResourceCleaner.clean_snapshots.
    rewrite for_each_steps
      with (good := fun _ => True) (next := fun _ n => (n + 1)%nat)
           (events := fun y =>
                        [Print (aws_cleaner.Fore.YELLOW
                                ++ "[DRY RUN] Would delete snapshot: "
                                ++ aws_cleaner.SnapshotId y ++ " ("
                                ++ str_of_Z (aws_cleaner.VolumeSize y) ++ "GB)"
                                ++ aws_cleaner.Style.RESET_ALL)%string]);
      [|reflexivity|auto].
    cbn [fst]. now rewrite fold_left_succ.
  - unfold aws_cleaner.AWSResourceCleaner.clean_stopped_instances.
    rewrite for_each_steps
      with (good := fun _ => True) (next := fun _ (n : nat) => n)
           (events := fun i =>
                        [Print (aws_cleaner.Fore.YELLOW
                                ++ "[DRY RUN] Would terminate instance: "
                                ++ aws_cleaner.InstanceId i ++ " ("
                                ++ aws_cleaner.Name i ++ ")"
                                ++ aws_cleaner.Style.RESET_ALL)%string]);
      [|reflexivity|auto].
    now rewrite fold_left_same, flat_map_singleton.
Qed.

(** A loop whose every pass raises the count by at most one. *)
Lemma for_each_bounded {X : Type} (body : X -> nat -> M nat) :
  (forall x n h, (fst (body x n h) <= n + 1)%nat) ->
  forall xs n h, (fst (for_each xs body n h) <= n + List.length xs)%nat.
Proof.
  intros Hstep xs; induction xs as [|x xs IH]; intros n h; simpl.
  - lia.
  - unfold bind. specialize (Hstep x n h).
    destruct (body x n h) as [n1 h1]. simpl in Hstep.
    specialize (IH n1 h1). lia.
Qed.

(** X6.  In either mode, whatever the provider and the operator do, an
    interactive cleaner never returns more than the number of candidates
    it was given. *)
Theorem cleaners_count_at_most_the_candidates :
  forall (w : World) (self : aws_cleaner.AWSResourceCleaner.t) (h : History)
         (eips : list aws_cleaner.ElasticIp)
         (snaps : list aws_cleaner.OldSnapshot)
         (insts : list aws_cleaner.StoppedInstance),
    (fst (aws_cleaner.AWSResourceCleaner.clean_elastic_ips w self eips h)
     <= List.length eips)%nat /\
    (fst (aws_cleaner.AWSResourceCleaner.clean_snapshots w self snaps h)
     <= List.length snaps)%nat /\
    (fst (aws_cleaner.AWSResourceCleaner.clean_stopped_instances w self insts h)
     <= List.length insts)%nat.
Proof.
  intros w self h eips snaps insts. split; [|split].
  - unfold aws_cleaner.AWSResourceCleaner.clean_elastic_ips.
    apply (for_each_bounded _) with (n := 0%nat). intros x n h0.
    destruct (aws_cleaner.AWSResourceCleaner.dry_run self); [simpl; lia|].
    unfold bind.
    destruct (aws_cleaner.Domain x =? "vpc")%string;
      destruct (mutate w _ _ h0) as [[e|] h1]; simpl; lia.
  - unfold aws_cleaner.AWSResourceCleaner.clean_snapshots.
    apply (for_each_bounded _) with (n := 0%nat). intros x n h0.
    destruct (aws_cleaner.AWSResourceCleaner.dry_run self); [simpl; lia|].
    unfold bind. destruct (mutate w _ _ h0) as [[e|] h1]; simpl; lia.
  - unfold aws_cleaner.AWSResourceCleaner.clean_stopped_instances.
    apply (for_each_bounded _) with (n := 0%nat). intros x n h0.
    destruct (aws_cleaner.AWSResourceCleaner.dry_run self); [simpl; lia|].
    unfold bind. destruct (confirm w _ h0) as [[|] h1]; [|simpl; lia].
    destruct (mutate w _ _ h1) as [[e|] h2]; simpl; lia.
Qed.

(** X7.  In live mode the interactive cleaner of snapshots issues one
    delete-snapshot call for every candidate, in the order given,
    whether or not earlier deletions succeed. *)
Theorem clean_snapshots_deletes_each_candidate_once :
  forall (w : World) (r : string) (snaps : list aws_cleaner.OldSnapshot) (h : History),
    mutations (snd (aws_cleaner.AWSResourceCleaner.clean_snapshots
                      w (aws_cleaner.AWSResourceCleaner.mk_cleaner r false) snaps h))
    = mutations h
      ++ map (fun s => (PStr r, delete_snapshot (aws_cleaner.SnapshotId s))) snaps.
Proof.
  intros w r snaps h.
  unfold aws_cleaner.AWSResourceCleaner.clean_snapshots.
  rewrite <- flat_map_singleton. apply for_each_mutations.
  intros s acc h0. cbn [aws_cleaner.AWSResourceCleaner.dry_run].
  unfold bind at 1.
  pose proof (mutations_mutate
                w (PStr r) (delete_snapshot (aws_cleaner.SnapshotId s)) h0 eq_refl) as Hm.
  change (aws_cleaner.AWSResourceCleaner.ec2_client
            (aws_cleaner.AWSResourceCleaner.mk_cleaner r false)) with (PStr r).
  destruct (mutate w (PStr r) _ h0) as [raised h1]. simpl in Hm.
  destruct raised as [e|]; unfold bind, print, emit, ret; simpl;
    rewrite mutations_app; simpl; rewrite app_nil_r; exact Hm.
Qed.

(** ** Terminating instances interactively *)

Lemma confirmations_app (h1 h2 : History) :
  confirmations (h1 ++ h2) = confirmations h1 ++ confirmations h2.
Proof.
  induction h1 as [|e h1 IH]; simpl; [reflexivity|].
  destruct e; simpl; now rewrite IH.
Qed.

(** What a loop adds to any list read off the history, pass by pass. *)
Lemma for_each_observed {X S O : Type} (observe : History -> list O)
      (body : X -> S -> M S) (seen : X -> list O) :
  (forall x acc h, observe (snd (body x acc h)) = observe h ++ seen x) ->
  forall xs acc h,
    observe (snd (for_each xs body acc h)) = observe h ++ flat_map seen xs.
Proof.
  intros step xs; induction xs as [|x xs IH]; intros acc h; simpl.
  - now rewrite app_nil_r.
  - unfold bind. specialize (step x acc h).
    destruct (body x acc h) as [acc1 h1]. simpl in step.
    rewrite IH, step, app_assoc. reflexivity.
Qed.

Lemma mutations_flat_map_none {X : Type} (events : X -> History) (ys : list X) :
  (forall y, mutations (events y) = []) ->
  mutations (flat_map events ys) = [].
Proof.
  intro Hev. induction ys as [|y ys IH]; simpl; [reflexivity|].
  now rewrite mutations_app, Hev, IH.
Qed.

(** X8.  In live mode the interactive cleaner of instances asks the
    operator about every candidate, in order, with the instance's
    identifier and name in the question; it has no way to be told not
    to ask.  Where the operator declines every question, no instance is
    terminated and the count is 0. *)
Theorem clean_stopped_instances_asks_about_each_instance :
  forall (w : World) (r : string) (insts : list aws_cleaner.StoppedInstance)
         (h : History),
    map fst (confirmations
               (snd (aws_cleaner.AWSResourceCleaner.clean_stopped_instances
                       w (aws_cleaner.AWSResourceCleaner.mk_cleaner r false) insts h)))
    = map fst (confirmations h) ++ map terminate_prompt insts /\
    ((forall prompt h', operator w prompt h' = false) ->
     fst (aws_cleaner.AWSResourceCleaner.clean_stopped_instances
            w (aws_cleaner.AWSResourceCleaner.mk_cleaner r false) insts h) = 0%nat /\
     mutations (snd (aws_cleaner.AWSResourceCleaner.clean_stopped_instances
                       w (aws_cleaner.AWSResourceCleaner.mk_cleaner r false) insts h))
     = mutations h).
Proof.
  intros w r insts h. split.
  - unfold aws_cleaner.AWSResourceCleaner.clean_stopped_instances.
    rewrite <- (flat_map_singleton terminate_prompt insts).
    apply (for_each_observed (fun h => map fst (confirmations h))).
    intros i acc h0. cbn [aws_cleaner.AWSResourceCleaner.dry_run].
    change ("Are you sure you want to terminate " ++ aws_cleaner.InstanceId i
            ++ " (" ++ aws_cleaner.Name i ++ ")?")%string
      with (terminate_prompt i).
    cbv beta iota zeta delta [bind confirm mutate ask emit ret print].
    destruct (operator w (terminate_prompt i) h0).
    + destruct (mutation_error w _ _ _); cbn [fst snd];
        rewrite !confirmations_app; simpl; rewrite !app_nil_r, map_app; reflexivity.
    + cbn [fst snd]. rewrite !confirmations_app. simpl.
      rewrite !app_nil_r, map_app. reflexivity.
  - intro Hno.
    unfold aws_cleaner.AWSResourceCleaner.clean_stopped_instances.
    rewrite for_each_steps
      with (good := fun _ => True) (next := fun _ (n : nat) => n)
           (events := fun i =>
                        [Confirm (terminate_prompt i) false;
                         Print (aws_cleaner.Fore.BLUE ++ "Skipped instance: "
                                ++ aws_cleaner.InstanceId i
                                ++ aws_cleaner.Style.RESET_ALL)%string]);
      [| |auto].
    + cbn [fst snd]. rewrite fold_left_same. split; [reflexivity|].
      rewrite mutations_app, mutations_flat_map_none by reflexivity.
      apply app_nil_r.
    + intros i acc h0 _. cbn [aws_cleaner.AWSResourceCleaner.dry_run].
      change ("Are you sure you want to terminate " ++ aws_cleaner.InstanceId i
              ++ " (" ++ aws_cleaner.Name i ++ ")?")%string
        with (terminate_prompt i).
      cbv beta iota zeta delta [bind confirm mutate ask emit ret print].
      rewrite Hno. now rewrite <- app_assoc.
Qed.

(** Two instances and an operator who declines everything. *)
Lemma clean_stopped_instances_asks_about_each_instance_witness :
  (forall prompt h', operator Scenes.refusing prompt h' = false) /\
  fst (aws_cleaner.AWSResourceCleaner.clean_stopped_instances
         Scenes.refusing (aws_cleaner.AWSResourceCleaner.mk_cleaner "us-east-1" false)
         [Sample.stopped_old; Sample.stopped_two] [])
  = 0%nat.
Proof.
  assert (Hno : forall prompt h', operator Scenes.refusing prompt h' = false)
    by reflexivity.
  split; [exact Hno|].
  exact (proj1 (proj2 (clean_stopped_instances_asks_about_each_instance
                         Scenes.refusing "us-east-1"
                         [Sample.stopped_old; Sample.stopped_two] [])
                      Hno)).
Defined.

(** ** Nothing enabled *)

Lemma api_calls_app (h1 h2 : History) :
  api_calls (h1 ++ h2) = api_calls h1 ++ api_calls h2.
Proof.
  induction h1 as [|e h1 IH]; simpl; [reflexivity|].
  destruct e; simpl; now rewrite IH.
Qed.

Lemma idle_ret {A : Type} (a : A) : idle (ret a).
Proof. intro h. reflexivity. Qed.

Lemma idle_bind {A B : Type} (m : M A) (f : A -> M B) :
  idle m -> (forall a, idle (f a)) -> idle (bind m f).
Proof.
  intros Hm Hf h. unfold bind. specialize (Hm h).
  destruct (m h) as [a h1]. simpl in Hm. now rewrite Hf.
Qed.

Lemma idle_ask {A : Type} (oracle : History -> A) : idle (ask oracle).
Proof. intro h. reflexivity. Qed.

Lemma idle_print (line : string) : idle (print line).
Proof.
  intro h. unfold print, emit. simpl. rewrite api_calls_app. simpl. apply app_nil_r.
Qed.

Lemma idle_now (w : World) : idle (now w).
Proof.
  intro h. unfold now, bind, ask, emit, ret. simpl.
  rewrite api_calls_app. simpl. apply app_nil_r.
Qed.

Ltac rest_idle :=
  repeat first
    [ apply idle_ret
    | apply idle_print
    | apply idle_now
    | apply idle_ask
    | apply idle_bind; [|intro]
    | match goal with
      | |- idle (match ?x with _ => _ end) => destruct x
      end ].

Lemma idle_main_regions (w : World) (dry_run : bool) (days : Z) (force : bool)
      (regions : list string) (total : aws_cleaner.Totals) :
  idle (aws_cleaner.main_regions w dry_run false false false days force regions total).
Proof.
  revert total. induction regions as [|r regions IH]; intro total; simpl.
  - apply idle_ret.
  - apply idle_bind.
    + unfold aws_cleaner.main_region, aws_cleaner.main_clean_eips,
        aws_cleaner.main_clean_snapshots, aws_cleaner.main_clean_instances,
        aws_cleaner.AWSResourceCleaner.init.
      rest_idle.
    + intros [t|e]; [apply IH|apply idle_ret].
Qed.

(** The configuration the handler builds carries the event's own flags. *)
Lemma parse_config_flags (d : list (string * pyval)) :
  exists config,
    lambda_function.parse_config (PDict d) = Ok config /\
    dict_get "dry_run" (PBool true) config = dict_get "dry_run" (PBool true) d /\
    dict_get "clean_eips" (PBool false) config = dict_get "clean_eips" (PBool false) d /\
    dict_get "clean_snapshots" (PBool false) config
    = dict_get "clean_snapshots" (PBool false) d /\
    dict_get "clean_instances" (PBool false) config
    = dict_get "clean_instances" (PBool false) d /\
    dict_get "snapshot_days" (PInt 30) config = dict_get "snapshot_days" (PInt 30) d /\
    dict_get "instance_days" (PInt 7) config = dict_get "instance_days" (PInt 7) d.
Proof.
  unfold lambda_function.parse_config. simpl. eexists. repeat split; reflexivity.
Qed.

(** With no kind enabled a region's clean-up reads the clock and returns
    the empty result. *)
Lemma cleanup_resources_nothing_enabled (w : World)
      (self : lambda_function.LambdaResourceCleaner.t)
      (config : list (string * pyval)) (h : History) :
  truthy (dict_get "clean_eips" (PBool false) config) = false ->
  truthy (dict_get "clean_snapshots" (PBool false) config) = false ->
  truthy (dict_get "clean_instances" (PBool false) config) = false ->
  lambda_function.LambdaResourceCleaner.cleanup_resources w self config h
  = (lambda_function.mk_Results
       (lambda_function.LambdaResourceCleaner.self_region self)
       (isoformat w (mk_datetime (clock w h) None))
       (lambda_function.mk_Cleaned 0 0 0) [],
     h ++ [Now]).
Proof.
  intros He Hs Hi.
  unfold lambda_function.LambdaResourceCleaner.cleanup_resources,
    lambda_function.LambdaResourceCleaner.cleanup_eips,
    lambda_function.LambdaResourceCleaner.cleanup_snapshots,
    lambda_function.LambdaResourceCleaner.cleanup_instances.
  rewrite He, Hs, Hi. reflexivity.
Qed.

Lemma process_regions_nothing_enabled (w : World) (config : list (string * pyval))
      (regions : list pyval) (all_results : list lambda_function.Results)
      (h : History) :
  truthy (dict_get "clean_eips" (PBool false) config) = false ->
  truthy (dict_get "clean_snapshots" (PBool false) config) = false ->
  truthy (dict_get "clean_instances" (PBool false) config) = false ->
  Forall (fun r => lambda_function.cleaned r = lambda_function.mk_Cleaned 0 0 0
                   /\ lambda_function.errors r = []) all_results ->
  api_calls (snd (lambda_function.process_regions w config regions all_results h))
  = api_calls h /\
  match fst (lambda_function.process_regions w config regions all_results h) with
  | Ok results =>
      Forall (fun r => lambda_function.cleaned r = lambda_function.mk_Cleaned 0 0 0
                       /\ lambda_function.errors r = []) results
  | Raise _ => True
  end.
Proof.
  intros He Hs Hi. revert all_results h.
  induction regions as [|region regions IH]; intros all_results h Hall; simpl.
  - split; [reflexivity|exact Hall].
  - unfold bind at 1 2.
    unfold lambda_function.LambdaResourceCleaner.init, bind, ask, ret.
    destruct (client_error w (or_else region (session_region w)) h) as [msg|];
      simpl; [split; [reflexivity|exact I]|].
    rewrite (cleanup_resources_nothing_enabled w _ config h He Hs Hi).
    specialize (IH (all_results
                    ++ [lambda_function.mk_Results
                          (or_else region (session_region w))
                          (isoformat w (mk_datetime (clock w h) None))
                          (lambda_function.mk_Cleaned 0 0 0) []])
                   (h ++ [Now])).
    destruct IH as [IHcalls IHres].
    + apply Forall_app. split; [exact Hall|]. constructor; [|constructor]. now split.
    + split; [|exact IHres].
      simpl. rewrite IHcalls, api_calls_app. simpl. apply app_nil_r.
Qed.

Lemma aggregate_nothing (results : list lambda_function.Results) :
  Forall (fun r => lambda_function.cleaned r = lambda_function.mk_Cleaned 0 0 0
                   /\ lambda_function.errors r = []) results ->
  lambda_function.aggregate results = (lambda_function.mk_Cleaned 0 0 0, []).
Proof.
  intro Hall. unfold lambda_function.aggregate. rewrite aggregate_from. simpl.
  induction Hall as [|r results [Hc He] Hall IH]; [reflexivity|].
  simpl. rewrite Hc, He. simpl. exact IH.
Qed.

(** X9.  With no resource kind enabled nothing is asked of the provider.
    The command run on one region makes no provider call, and neither
    does the handler for an event whose three flags are absent or false:
    if it completes, its totals are zero and its error list is empty. *)
Theorem nothing_enabled_calls_nothing :
  forall (w : World) (h : History),
    (forall region dry_run days force,
        api_calls (snd (aws_cleaner.main w region false dry_run
                                         false false false days force h))
        = api_calls h) /\
    (forall d : list (string * pyval),
        truthy (dict_get "clean_eips" (PBool false) d) = false ->
        truthy (dict_get "clean_snapshots" (PBool false) d) = false ->
        truthy (dict_get "clean_instances" (PBool false) d) = false ->
        api_calls (snd (lambda_function.lambda_handler w (PDict d) h)) = api_calls h /\
        match lambda_function.body (fst (lambda_function.lambda_handler w (PDict d) h)) with
        | lambda_function.Completed _ total_cleaned _ _ _ errors =>
            total_cleaned = lambda_function.mk_Cleaned 0 0 0 /\ errors = []
        | lambda_function.Failed _ _ => True
        end).
Proof.
  intros w h. split.
  - intros region dry_run days force.
    assert (Hidle : idle (aws_cleaner.main w region false dry_run
                                           false false false days force)).
    { unfold aws_cleaner.main, aws_cleaner.main_summary.
      apply idle_bind; [apply idle_print|intros _].
      apply idle_bind; [apply idle_print|intros _].
      apply idle_bind; [apply idle_print|intros _].
      apply idle_bind; [rest_idle|].
      intros [regions|e]; [|apply idle_ret].
      apply idle_bind; [apply idle_main_regions|].
      intros [t|e]; rest_idle. }
    apply Hidle.
  - intros d He Hs Hi.
    destruct (parse_config_flags d) as [config [Hparse [_ [He' [Hs' [Hi' _]]]]]].
    rewrite <- He' in He. rewrite <- Hs' in Hs. rewrite <- Hi' in Hi.
    unfold lambda_function.lambda_handler. rewrite Hparse. cbn [get].
    destruct (iter (dict_get "regions" (PList [session_region w]) d)) as [items|e];
      [|split; [reflexivity|exact I]].
    unfold bind.
    pose proof (process_regions_nothing_enabled w config items [] h He Hs Hi
                  (Forall_nil _)) as [Hcalls Hres].
    destruct (lambda_function.process_regions w config items [] h)
      as [[results|e] h1]; simpl in Hcalls, Hres.
    + rewrite (aggregate_nothing results Hres). simpl. split; [exact Hcalls|now split].
    + simpl. split; [exact Hcalls|exact I].
Qed.

(** The empty event. *)
Lemma nothing_enabled_calls_nothing_witness :
  truthy (dict_get "clean_eips" (PBool false) []) = false /\
  api_calls (snd (lambda_function.lambda_handler Sample.calm (PDict []) [])) = api_calls [].
Proof.
  split; [reflexivity|].
  exact (proj1 (proj2 (nothing_enabled_calls_nothing Sample.calm [])
                      [] eq_refl eq_refl eq_refl)).
Defined.

(** ** A region whose client cannot be made *)

Lemma process_regions_app (w : World) (config : list (string * pyval))
      (before later : list pyval) (all_results : list lambda_function.Results)
      (h : History) :
  lambda_function.process_regions w config (before ++ later) all_results h
  = (let (processed, h1) :=
       lambda_function.process_regions w config before all_results h in
     match processed with
     | Ok results => lambda_function.process_regions w config later results h1
     | Raise e => (Raise e, h1)
     end).
Proof.
  revert all_results h. induction before as [|region before IH];
    intros all_results h; simpl.
  - reflexivity.
  - unfold bind at 1 3.
    destruct (lambda_function.LambdaResourceCleaner.init w region h) as [[cleaner|e] h0];
      [|reflexivity].
    unfold bind at 1 2.
    destruct (lambda_function.LambdaResourceCleaner.cleanup_resources w cleaner config h0)
      as [result h1].
    apply IH.
Qed.

(** X10.  When the client for one requested region cannot be made, the
    handler answers 500 with that exception's message and stops: the
    regions before it have been cleaned already, with everything that
    was released, deleted or terminated there, and the regions after it
    are not visited. *)
Theorem failing_region_ends_the_invocation_after_the_earlier_ones :
  forall (w : World) (d config : list (string * pyval))
         (before : list pyval) (region : pyval) (later : list pyval)
         (h : History) (msg : string),
    lambda_function.parse_config (PDict d) = Ok config ->
    dict_get "regions" (PList [session_region w]) d
    = PList (before ++ region :: later) ->
    (forall e, fst (lambda_function.process_regions w config before [] h) <> Raise e) ->
    client_error w (or_else region (session_region w))
                 (snd (lambda_function.process_regions w config before [] h))
    = Some msg ->
    lambda_function.lambda_handler w (PDict d) h
    = (lambda_function.mk_Response 500 (lambda_function.Failed msg "Cleanup failed"),
       snd (lambda_function.process_regions w config before [] h)).
Proof.
  intros w d config before region later h msg Hparse Hregions Hbefore Hclient.
  unfold lambda_function.lambda_handler. rewrite Hparse. cbn [get].
  rewrite Hregions. cbn [iter]. unfold bind at 1.
  rewrite process_regions_app.
  destruct (lambda_function.process_regions w config before [] h)
    as [[results|e] h1]; [|now destruct (Hbefore e)].
  cbn [snd] in Hclient. cbn [lambda_function.process_regions].
  unfold bind at 1.
  unfold lambda_function.LambdaResourceCleaner.init, bind, ask, ret.
  rewrite Hclient. reflexivity.
Qed.

(** Three regions of which the second is out of reach, in live mode. *)
Lemma failing_region_ends_the_invocation_after_the_earlier_ones_witness :
  client_error Scenes.walled (or_else (PStr "mars") (session_region Scenes.walled))
               (snd (lambda_function.process_regions
                       Scenes.walled
                       [("dry_run", PBool false); ("clean_eips", PBool true);
                        ("clean_snapshots", PBool false);
                        ("clean_instances", PBool false);
                        ("snapshot_days", PInt 30); ("instance_days", PInt 7)]
                       [PStr "us-east-1"] [] []))
  = Some "Could not connect to the endpoint URL" /\
  lambda_function.lambda_handler
    Scenes.walled
    (PDict [("regions", PList ([PStr "us-east-1"] ++ PStr "mars" :: [PStr "eu-west-1"]));
            ("dry_run", PBool false); ("clean_eips", PBool true)])
    []
  = (lambda_function.mk_Response
       500 (lambda_function.Failed "Could not connect to the endpoint URL"
                                   "Cleanup failed"),
     snd (lambda_function.process_regions
            Scenes.walled
            [("dry_run", PBool false); ("clean_eips", PBool true);
             ("clean_snapshots", PBool false);
             ("clean_instances", PBool false);
             ("snapshot_days", PInt 30); ("instance_days", PInt 7)]
            [PStr "us-east-1"] [] [])).
Proof.
  assert (Hbefore : forall e,
             fst (lambda_function.process_regions
                    Scenes.walled
                    [("dry_run", PBool false); ("clean_eips", PBool true);
                     ("clean_snapshots", PBool false);
                     ("clean_instances", PBool false);
                     ("snapshot_days", PInt 30); ("instance_days", PInt 7)]
                    [PStr "us-east-1"] [] []) <> Raise e).
  { intros e. vm_compute. discriminate. }
  split; [reflexivity|].
  exact (failing_region_ends_the_invocation_after_the_earlier_ones
           Scenes.walled
           [("regions", PList ([PStr "us-east-1"] ++ PStr "mars" :: [PStr "eu-west-1"]));
            ("dry_run", PBool false); ("clean_eips", PBool true)]
           [("dry_run", PBool false); ("clean_eips", PBool true);
            ("clean_snapshots", PBool false);
            ("clean_instances", PBool false);
            ("snapshot_days", PInt 30); ("instance_days", PInt 7)]
           [PStr "us-east-1"] (PStr "mars") [PStr "eu-west-1"] []
           "Could not connect to the endpoint URL"
           eq_refl eq_refl Hbefore eq_refl).
Defined.

(** What has been done by then: the address of the first region is
    gone, and the response does not say so. *)
Example failing_region_leaves_the_earlier_release :
  mutations
    (snd (lambda_function.lambda_handler
            Scenes.walled
            (PDict [("regions", PList [PStr "us-east-1"; PStr "mars"; PStr "eu-west-1"]);
                    ("dry_run", PBool false); ("clean_eips", PBool true)])
            []))
  = [(PStr "us-east-1", release_address_AllocationId (Some "eipalloc-1"))].
Proof. vm_compute. reflexivity. Qed.

(** X11.  In the command, when the client of the one region to scan
    cannot be made, [main] ends with that exception: it has printed the
    banner and the region, it has asked the provider nothing, and it
    prints no summary. *)
Theorem main_ends_without_summary_when_no_client_can_be_made :
  forall (w : World) (region : string) (msg : string)
         (dry_run clean_eips clean_snapshots clean_instances : bool)
         (days : Z) (force : bool) (h : History),
    (forall h', client_error w (PStr region) h' = Some msg) ->
    aws_cleaner.main w region false dry_run clean_eips clean_snapshots clean_instances
                     days force h
    = (Raise msg,
       h ++ [Print (aws_cleaner.Fore.CYAN ++ "AWS Idle Resource Cleaner"
                    ++ aws_cleaner.Style.RESET_ALL)%string;
             Print ("Mode: " ++ (if dry_run then "DRY RUN" else "LIVE CLEANUP"))%string;
             Print (aws_cleaner.str_times "-" 50);
             Print ("Scanning region: " ++ region)%string;
             Print (aws_cleaner.NL ++ aws_cleaner.Fore.BLUE ++ "Region: " ++ region
                    ++ aws_cleaner.Style.RESET_ALL)%string]).
Proof.
  intros w region msg dry_run ce cs ci days force h Hclient.
  unfold aws_cleaner.main.
  cbv beta iota zeta delta [bind print emit ret aws_cleaner.main_regions
                            aws_cleaner.main_region aws_cleaner.AWSResourceCleaner.init
                            ask].
  rewrite Hclient. cbn [fst snd]. now rewrite <- !app_assoc.
Qed.

(** The region "mars" of the account above. *)
Lemma main_ends_without_summary_when_no_client_can_be_made_witness :
  (forall h', client_error Scenes.walled (PStr "mars") h'
              = Some "Could not connect to the endpoint URL") /\
  fst (aws_cleaner.main Scenes.walled "mars" false false true true true 30 true [])
  = Raise "Could not connect to the endpoint URL".
Proof.
  assert (Hclient : forall h', client_error Scenes.walled (PStr "mars") h'
                               = Some "Could not connect to the endpoint URL")
    by reflexivity.
  split; [exact Hclient|].
  exact (f_equal fst (main_ends_without_summary_when_no_client_can_be_made
                        Scenes.walled "mars" "Could not connect to the endpoint URL"
                        false true true true 30 true [] Hclient)).
Defined.

(** ** Thresholds *)

Lemma cutoff_date_in_range (t : naive_datetime) (days : Z) (c : naive_datetime) :
  cutoff_date t days = Some c -> 0 <= c.
Proof.
  unfold cutoff_date, datetime_sub.
  destruct (timedelta_days days) as [delta|e]; [|discriminate].
  destruct (datetime_ok (t - delta)) eqn:Hok; [|discriminate].
  intro H. injection H as <-.
  unfold datetime_ok in Hok. apply andb_true_iff in Hok.
  destruct Hok as [H0 _]. now apply Z.leb_le.
Qed.

Lemma older_still_kept {X Y : Type} (f : X -> Y) (age : X -> Z) (c1 c2 : Z)
      (l : list X) :
  c2 <= c1 ->
  incl (map f (filter (fun x => age x <? c2) l))
       (map f (filter (fun x => age x <? c1) l)).
Proof.
  intros Hle y Hy. apply in_map_iff in Hy. destruct Hy as [x [<- Hx]].
  apply filter_In in Hx. destruct Hx as [Hin Hold]. apply Z.ltb_lt in Hold.
  apply in_map. apply filter_In. split; [exact Hin|]. apply Z.ltb_lt. lia.
Qed.

(** X12.  Raising the threshold never adds a candidate: on the same
    response at the same moment, every snapshot either finder keeps for
    the larger number of days it also keeps for the smaller one. *)
Theorem larger_threshold_keeps_fewer_snapshots :
  forall (w : World) (h : History) (fewer more : Z)
         (cli : aws_cleaner.AWSResourceCleaner.t)
         (lam : lambda_function.LambdaResourceCleaner.t),
    0 <= fewer -> fewer <= more ->
    datetime_ok (clock w h) = true ->
    incl (fst (aws_cleaner.AWSResourceCleaner.find_old_snapshots w cli more h))
         (fst (aws_cleaner.AWSResourceCleaner.find_old_snapshots w cli fewer h)) /\
    incl (fst (lambda_function.LambdaResourceCleaner.find_old_snapshots
                 w lam (PInt more) h))
         (fst (lambda_function.LambdaResourceCleaner.find_old_snapshots
                 w lam (PInt fewer) h)).
Proof.
  intros w h fewer more cli lam Hfewer Hle Hnow.
  rewrite !cli_find_old_snapshots_eq, !lambda_find_old_snapshots_eq.
  pose proof (cutoff_date_spec (clock w h) fewer Hfewer Hnow) as H1.
  assert (Hmore : 0 <= more) by lia.
  pose proof (cutoff_date_spec (clock w h) more Hmore Hnow) as H2.
  pose proof (cutoff_date_in_range (clock w h) more) as Hrange.
  assert (Hu : 0 < us_per_day) by reflexivity.
  destruct (cutoff_date (clock w h) more) as [c2|];
    [|split; intros x []].
  specialize (Hrange c2 eq_refl). subst c2.
  destruct (cutoff_date (clock w h) fewer) as [c1|]; [subst c1|nia].
  assert (Hc : clock w h - more * us_per_day <= clock w h - fewer * us_per_day) by nia.
  split.
  - destruct (snapshots_response w _ (h ++ [Now])) as [snapshots|e];
      [|intros x []].
    now apply older_still_kept.
  - destruct (snapshots_response w _ (h ++ [Now])) as [snapshots|e];
      [|intros x []].
    now apply older_still_kept.
Qed.

(** Thirty days against sixty. *)
Lemma larger_threshold_keeps_fewer_snapshots_witness :
  0 <= 30 /\ 30 <= 60 /\
  incl (fst (aws_cleaner.AWSResourceCleaner.find_old_snapshots
               Sample.calm (aws_cleaner.AWSResourceCleaner.mk_cleaner "us-east-1" true)
               60 []))
       (fst (aws_cleaner.AWSResourceCleaner.find_old_snapshots
               Sample.calm (aws_cleaner.AWSResourceCleaner.mk_cleaner "us-east-1" true)
               30 [])).
Proof.
  assert (H0 : 0 <= 30) by lia. assert (H1 : 30 <= 60) by lia.
  split; [exact H0|]. split; [exact H1|].
  exact (proj1 (larger_threshold_keeps_fewer_snapshots
                  Sample.calm [] 30 60
                  (aws_cleaner.AWSResourceCleaner.mk_cleaner "us-east-1" true)
                  (lambda_function.LambdaResourceCleaner.mk_cleaner (PStr "us-east-1"))
                  H0 H1 eq_refl)).
Defined.

(** ** Stopped instances, by launch time alone *)

(** X13.  The event-driven finder of stopped instances goes through the
    instances of every reservation and, for every number of days whose
    cutoff is representable, keeps each one launched strictly before
    [now] minus the days, without looking at its state: that the
    instance is stopped is left to the filter of the describing call.
    Nothing else is kept.  When the cutoff is not representable the
    finder returns the empty list; that never happens to an instance
    launched before the cutoff when the days are not negative and [now]
    and the launch time are [datetime]s. *)
Theorem lambda_find_stopped_instances_goes_by_launch_time :
  forall (w : World) (h : History) (days : Z) (reservations : list Reservation)
         (lam : lambda_function.LambdaResourceCleaner.t),
    instances_response w (lambda_function.LambdaResourceCleaner.ec2_client lam) (h ++ [Now])
    = Ok reservations ->
    let cutoff := clock w h - days * us_per_day in
    let found :=
      fst (lambda_function.LambdaResourceCleaner.find_stopped_instances
             w lam (PInt days) h) in
    (representable (clock w h) days = true ->
     forall i, In i (instances_of reservations) ->
               replace_tzinfo_None (inst_LaunchTime i) < cutoff ->
               In (lambda_instance_of w i) found) /\
    (forall c, In c found ->
               representable (clock w h) days = true /\
               exists i, In i (instances_of reservations) /\
                         c = lambda_instance_of w i /\
                         replace_tzinfo_None (inst_LaunchTime i) < cutoff) /\
    (representable (clock w h) days = false -> found = []) /\
    (0 <= days ->
     datetime_ok (clock w h) = true ->
     forall i, In i (instances_of reservations) ->
               datetime_ok (replace_tzinfo_None (inst_LaunchTime i)) = true ->
               replace_tzinfo_None (inst_LaunchTime i) < cutoff ->
               In (lambda_instance_of w i) found).
Proof.
  intros w h days reservations lam Hresp cutoff found.
  assert (Hkept : representable (clock w h) days = true ->
                  forall i, In i (instances_of reservations) ->
                            replace_tzinfo_None (inst_LaunchTime i) < cutoff ->
                            In (lambda_instance_of w i) found).
  { intros Hrep i Hi Hold. subst found.
    rewrite lambda_find_stopped_instances_eq, Hresp, cutoff_date_value, Hrep.
    apply in_map. apply filter_In. split; [exact Hi|].
    now apply Z.ltb_lt. }
  split; [exact Hkept|]. split; [|split].
  - intros c Hin. subst found.
    rewrite lambda_find_stopped_instances_eq, Hresp, cutoff_date_value in Hin.
    destruct (representable (clock w h) days); [|destruct Hin].
    split; [reflexivity|].
    apply in_map_iff in Hin. destruct Hin as [i [<- Hi]].
    apply filter_In in Hi. destruct Hi as [Hi Hold]. apply Z.ltb_lt in Hold.
    exists i. repeat split; assumption.
  - intro Hrep. subst found.
    now rewrite lambda_find_stopped_instances_eq, Hresp, cutoff_date_value, Hrep.
  - intros Hdays Hnow i Hi Hlaunch Hold.
    apply Hkept; [|exact Hi|exact Hold].
    now apply before_cutoff_representable
      with (start_time := replace_tzinfo_None (inst_LaunchTime i)).
Qed.

(** A response that holds a running instance launched long ago. *)
Lemma lambda_find_stopped_instances_goes_by_launch_time_witness :
  instances_response Scenes.unfiltered
    (lambda_function.LambdaResourceCleaner.ec2_client
       (lambda_function.LambdaResourceCleaner.mk_cleaner (PStr "us-east-1")))
    ([] ++ [Now])
  = Ok [mk_Reservation [Sample.old_instance]; mk_Reservation [Scenes.running_instance]] /\
  representable (clock Scenes.unfiltered []) 7 = true /\
  inst_State Scenes.running_instance = "running"%string /\
  In (lambda_instance_of Scenes.unfiltered Scenes.running_instance)
     (fst (lambda_function.LambdaResourceCleaner.find_stopped_instances
             Scenes.unfiltered
             (lambda_function.LambdaResourceCleaner.mk_cleaner (PStr "us-east-1"))
             (PInt 7) [])).
Proof.
  assert (Hold : replace_tzinfo_None (inst_LaunchTime Scenes.running_instance)
                 < clock Scenes.unfiltered [] - 7 * us_per_day) by reflexivity.
  split; [reflexivity|]. split; [reflexivity|]. split; [reflexivity|].
  exact (proj1 (lambda_find_stopped_instances_goes_by_launch_time
                  Scenes.unfiltered [] 7
                  [mk_Reservation [Sample.old_instance];
                   mk_Reservation [Scenes.running_instance]]
                  (lambda_function.LambdaResourceCleaner.mk_cleaner (PStr "us-east-1"))
                  eq_refl)
               eq_refl
               Scenes.running_instance (or_intror (or_introl eq_refl)) Hold).
Defined.

(** ** The check of the set-up *)

Lemma test_cli_cleaner_run (w : World) (h : History) :
  match client_error w (PStr "us-east-1")
                     (h ++ [Print (aws_cleaner.NL ++ "Testing CLI cleaner...")%string]) with
  | Some msg =>
      test_cleaner.test_cli_cleaner w h
      = (false,
         h ++ [Print (aws_cleaner.NL ++ "Testing CLI cleaner...")%string;
               Print ("CLI cleaner test failed: " ++ msg)%string])
  | None =>
      exists h', test_cleaner.test_cli_cleaner w h
                 = (true, h' ++ [Print "Found 0 stopped instances"])
  end.
Proof.
  unfold test_cleaner.test_cli_cleaner, aws_cleaner.AWSResourceCleaner.init.
  cbv beta iota zeta delta [bind print emit ret ask].
  destruct (client_error w (PStr "us-east-1")
                         (h ++ [Print (aws_cleaner.NL ++ "Testing CLI cleaner...")%string]))
    as [msg|].
  - now rewrite <- app_assoc.
  - set (cleaner := aws_cleaner.AWSResourceCleaner.mk_cleaner "us-east-1" true).
    match goal with
    | |- context [aws_cleaner.AWSResourceCleaner.find_unused_elastic_ips w cleaner ?h0] =>
        destruct (aws_cleaner.AWSResourceCleaner.find_unused_elastic_ips w cleaner h0)
        as [eips h1]
    end.
    destruct (aws_cleaner.AWSResourceCleaner.find_old_snapshots w cleaner 30 h1)
      as [snapshots h2].
    pose proof (cli_find_stopped_instances_empty w cleaner 7 h2) as Hempty.
    destruct (aws_cleaner.AWSResourceCleaner.find_stopped_instances w cleaner 7 h2)
      as [instances h3]. cbn [fst] in Hempty. subst instances.
    eexists. reflexivity.
Qed.

(** X14.  [test_cli_cleaner] changes nothing in the account, and it
    passes exactly when the client for "us-east-1" can be made: the
    finders swallow what the provider raises, so the test passes even
    where every describing call is refused.  When it passes, its last
    line reports no stopped instance, whatever the account holds. *)
Theorem test_cli_cleaner_passes_when_the_client_is_made :
  forall (w : World) (h : History),
    mutations (snd (test_cleaner.test_cli_cleaner w h)) = mutations h /\
    (fst (test_cleaner.test_cli_cleaner w h) = true
     <-> client_error w (PStr "us-east-1")
                      (h ++ [Print (aws_cleaner.NL ++ "Testing CLI cleaner...")%string])
         = None) /\
    (fst (test_cleaner.test_cli_cleaner w h) = true ->
     exists h', snd (test_cleaner.test_cli_cleaner w h)
                = h' ++ [Print "Found 0 stopped instances"]).
Proof.
  intros w h. split.
  - assert (Hs : silent (test_cleaner.test_cli_cleaner w)).
    { unfold test_cleaner.test_cli_cleaner.
      apply silent_bind; [apply silent_print|intros _].
      apply silent_bind; [apply silent_cli_init|].
      intros [c|e]; [|hush].
      apply silent_bind; [apply silent_cli_find_unused_elastic_ips|intro].
      apply silent_bind; [apply silent_cli_find_old_snapshots|intro].
      apply silent_bind; [apply silent_cli_find_stopped_instances|intro].
      hush. }
    apply Hs.
  - pose proof (test_cli_cleaner_run w h) as Hrun.
    destruct (client_error w (PStr "us-east-1")
                           (h ++ [Print (aws_cleaner.NL ++ "Testing CLI cleaner...")%string]))
      as [msg|].
    + rewrite Hrun. cbn [fst snd]. split; [split; discriminate|discriminate].
    + destruct Hrun as [h' Hrun]. rewrite Hrun. cbn [fst snd].
      split; [split; reflexivity|]. intros _. now exists h'.
Qed.

(** The account that refuses every describing call passes the test. *)
Example test_cli_cleaner_passes_without_permissions :
  fst (test_cleaner.test_cli_cleaner Scenes.denied []) = true /\
  printed (snd (test_cleaner.test_cli_cleaner Scenes.denied []))
  = [(aws_cleaner.NL ++ "Testing CLI cleaner...")%string;
     "Found 0 unused EIPs"%string;
     "Found 0 old snapshots"%string;
     "Found 0 stopped instances"%string].
Proof. split; vm_compute; reflexivity. Qed.

(** The account that refuses every describing call. *)
Lemma test_cli_cleaner_passes_when_the_client_is_made_witness :
  client_error Scenes.denied (PStr "us-east-1")
               ([] ++ [Print (aws_cleaner.NL ++ "Testing CLI cleaner...")%string])
  = None /\
  fst (test_cleaner.test_cli_cleaner Scenes.denied []) = true.
Proof.
  split; [reflexivity|].
  exact (proj2 (proj1 (proj2 (test_cli_cleaner_passes_when_the_client_is_made
                                Scenes.denied [])))
               eq_refl).
Defined.

(** ** Every candidate is attempted, event-driven *)

(** X15.  In live mode the event-driven loops over the snapshots and
    over the instances issue one call for every candidate their finder
    returned, in order, whether or not earlier calls raised: a
    delete-snapshot for each snapshot, a terminate-instances of one
    identifier for each instance. *)
Theorem lambda_loops_attempt_every_candidate :
  forall (w : World) (self : lambda_function.LambdaResourceCleaner.t)
         (config : list (string * pyval)) (dry_run : pyval)
         (results : lambda_function.Results) (h : History),
    truthy dry_run = false ->
    (truthy (dict_get "clean_snapshots" (PBool false) config) = true ->
     mutations (snd (lambda_function.LambdaResourceCleaner.cleanup_snapshots
                       w self config dry_run results h))
     = mutations h
       ++ map (fun s => (lambda_function.LambdaResourceCleaner.ec2_client self,
                         delete_snapshot (lambda_function.SnapshotId s)))
              (fst (lambda_function.LambdaResourceCleaner.find_old_snapshots
                      w self (dict_get "snapshot_days" (PInt 30) config) h))) /\
    (truthy (dict_get "clean_instances" (PBool false) config) = true ->
     mutations (snd (lambda_function.LambdaResourceCleaner.cleanup_instances
                       w self config dry_run results h))
     = mutations h
       ++ map (fun i => (lambda_function.LambdaResourceCleaner.ec2_client self,
                         terminate_instances [lambda_function.InstanceId i]))
              (fst (lambda_function.LambdaResourceCleaner.find_stopped_instances
                      w self (dict_get "instance_days" (PInt 7) config) h))).
Proof.
  intros w self config dry_run results h Hlive. split; intro Hon.
  - unfold lambda_function.LambdaResourceCleaner.cleanup_snapshots.
    rewrite Hon, Hlive. cbn [negb]. unfold bind at 1.
    pose proof (silent_lambda_find_old_snapshots
                  w self (dict_get "snapshot_days" (PInt 30) config) h) as Hfind.
    destruct (lambda_function.LambdaResourceCleaner.find_old_snapshots
                w self (dict_get "snapshot_days" (PInt 30) config) h) as [found h1].
    simpl in Hfind. cbn [fst]. rewrite <- Hfind.
    rewrite <- flat_map_singleton. apply for_each_mutations.
    intros s acc h0. unfold bind at 1.
    pose proof (mutations_mutate
                  w (lambda_function.LambdaResourceCleaner.ec2_client self)
                  (delete_snapshot (lambda_function.SnapshotId s)) h0 eq_refl) as Hm.
    destruct (mutate w _ _ h0) as [raised h2]. simpl in Hm.
    destruct raised as [e|]; unfold ret; simpl; exact Hm.
  - unfold lambda_function.LambdaResourceCleaner.cleanup_instances.
    rewrite Hon, Hlive. cbn [negb]. unfold bind at 1.
    pose proof (silent_lambda_find_stopped_instances
                  w self (dict_get "instance_days" (PInt 7) config) h) as Hfind.
    destruct (lambda_function.LambdaResourceCleaner.find_stopped_instances
                w self (dict_get "instance_days" (PInt 7) config) h) as [found h1].
    simpl in Hfind. cbn [fst]. rewrite <- Hfind.
    rewrite <- flat_map_singleton. apply for_each_mutations.
    intros i acc h0. unfold bind at 1.
    pose proof (mutations_mutate
                  w (lambda_function.LambdaResourceCleaner.ec2_client self)
                  (terminate_instances [lambda_function.InstanceId i]) h0 eq_refl) as Hm.
    destruct (mutate w _ _ h0) as [raised h2]. simpl in Hm.
    destruct raised as [e|]; unfold ret; simpl; exact Hm.
Qed.

(** The account that refuses every deletion: the old snapshot is still
    attempted. *)
Lemma lambda_loops_attempt_every_candidate_witness :
  truthy (PBool false) = false /\
  mutations (snd (lambda_function.LambdaResourceCleaner.cleanup_snapshots
                    Sample.stubborn
                    (lambda_function.LambdaResourceCleaner.mk_cleaner (PStr "us-east-1"))
                    [("clean_snapshots", PBool true)] (PBool false)
                    (lambda_function.mk_Results (PStr "us-east-1") EmptyString
                                                (lambda_function.mk_Cleaned 0 0 0) [])
                    []))
  = mutations []
    ++ map (fun s => (lambda_function.LambdaResourceCleaner.ec2_client
                        (lambda_function.LambdaResourceCleaner.mk_cleaner
                           (PStr "us-east-1")),
                      delete_snapshot (lambda_function.SnapshotId s)))
           (fst (lambda_function.LambdaResourceCleaner.find_old_snapshots
                   Sample.stubborn
                   (lambda_function.LambdaResourceCleaner.mk_cleaner (PStr "us-east-1"))
                   (dict_get "snapshot_days" (PInt 30) [("clean_snapshots", PBool true)])
                   [])).
Proof.
  split; [reflexivity|].
  exact (proj1 (lambda_loops_attempt_every_candidate
                  Sample.stubborn
                  (lambda_function.LambdaResourceCleaner.mk_cleaner (PStr "us-east-1"))
                  [("clean_snapshots", PBool true)] (PBool false)
                  (lambda_function.mk_Results (PStr "us-east-1") EmptyString
                                              (lambda_function.mk_Cleaned 0 0 0) [])
                  [] eq_refl)
               eq_refl).
Defined.

(** ** The command and stopped instances *)

Lemma silent_main_clean_instances_always (w : World)
      (cleaner : aws_cleaner.AWSResourceCleaner.t) (dry_run clean : bool) (days : Z)
      (force : bool) (total : aws_cleaner.Totals)
      (rest : aws_cleaner.Totals -> M aws_cleaner.Totals) :
  (forall t, silent (rest t)) ->
  silent (aws_cleaner.main_clean_instances w cleaner dry_run clean days force total rest).
Proof.
  intro Hrest. unfold aws_cleaner.main_clean_instances.
  destruct clean; [|apply Hrest].
  apply silent_bind; [apply silent_print|intros _].
  apply silent_bind_post with (Q := fun found => found = []).
  - intro h. apply cli_find_stopped_instances_empty.
  - apply silent_cli_find_stopped_instances.
  - intros found ->. apply silent_bind; [apply silent_print|intros _]. apply Hrest.
Qed.

Lemma silent_main_regions_instances_only (w : World) (dry_run : bool) (days : Z)
      (force : bool) (regions : list string) (total : aws_cleaner.Totals) :
  silent (aws_cleaner.main_regions w dry_run false false true days force regions total).
Proof.
  revert total. induction regions as [|r regions IH]; intro total; simpl.
  - apply silent_ret.
  - apply silent_bind.
    + unfold aws_cleaner.main_region.
      apply silent_bind; [apply silent_print|intros _].
      apply silent_bind; [apply silent_cli_init|].
      intros [c|e]; [|apply silent_ret].
      apply silent_bind; [|intro; apply silent_ret].
      unfold aws_cleaner.main_clean_eips, aws_cleaner.main_clean_snapshots.
      apply silent_main_clean_instances_always. intro t. apply silent_ret.
    + intros [t|e]; [apply IH|apply silent_ret].
Qed.

(** X16.  The interactive finder of stopped instances returns the empty
    list for every response, threshold and moment, so the command run
    for instances alone never changes the account, live and forced
    included: it never reaches the cleaner of instances. *)
Theorem command_never_terminates_an_instance :
  forall (w : World) (h : History),
    (forall (self : aws_cleaner.AWSResourceCleaner.t) (days : Z),
        fst (aws_cleaner.AWSResourceCleaner.find_stopped_instances w self days h) = []) /\
    (forall (region : string) (all_regions dry_run : bool) (days : Z) (force : bool),
        mutations (snd (aws_cleaner.main w region all_regions dry_run
                                         false false true days force h))
        = mutations h).
Proof.
  intros w h. split.
  - intros self days. apply cli_find_stopped_instances_empty.
  - intros region all_regions dry_run days force.
    assert (Hs : silent (aws_cleaner.main w region all_regions dry_run
                                          false false true days force)).
    { unfold aws_cleaner.main, aws_cleaner.main_summary.
      apply silent_bind; [apply silent_print|intros _].
      apply silent_bind; [apply silent_print|intros _].
      apply silent_bind; [apply silent_print|intros _].
      apply silent_bind.
      - destruct all_regions.
        + apply silent_bind; [apply silent_cli_init|].
          intros [c|e]; [|apply silent_ret].
          apply silent_bind; [apply silent_cli_get_all_regions|intro].
          hush.
        + hush.
      - intros [regions|e]; [|apply silent_ret].
        apply silent_bind; [apply silent_main_regions_instances_only|].
        intros [t|e]; hush. }
    apply Hs.
Qed.

(** The account with a long-stopped instance, live and forced. *)
Example command_leaves_the_old_instance :
  api_calls (snd (aws_cleaner.main Sample.calm "us-east-1" false false
                                   false false true 7 true []))
  = [(PStr "us-east-1",
      describe_instances [("instance-state-name"%string, ["stopped"%string])])] /\
  In "No long-stopped instances found"%string
     (printed (snd (aws_cleaner.main Sample.calm "us-east-1" false false
                                     false false true 7 true []))).
Proof. split; vm_compute; [reflexivity|]. repeat (try (left; reflexivity); right). Qed.
